(** * Deep Tree Echo activity stream: a verification development

    A shallow embedding of [deep-tree-echo-ml/activity_stream.py]: the
    JSON values [json.load] returns, the directory tree under
    [activity_logs], the dashboard object [ActivityStream] with its
    mutable dictionaries held in a store, and the verbose tail loop of
    [main].  The definitions come first, the lemmas and theorems after. *)

From Stdlib Require Import QArith Qround Sorted Lqa.
From stdpp Require Import base option list strings.

Set Warnings "-register-all".
Local Open Scope string_scope.
Local Open Scope list_scope.

(** ** Exceptions

    [TimestampError] stands for what [datetime.fromtimestamp] raises on
    a number it does not take: [ValueError], [OverflowError] or
    [OSError], by the value and the platform; every handler it can reach
    here is [except Exception].  [Unmodelled] is no Python exception: it
    marks the steps the model does not follow (the order of two lists
    used as sort keys, the order [list.sort] leaves among keys that hold
    a NaN), and a result that carries it says nothing about the
    program. *)

Inductive exn : Type :=
  | JSONDecodeError | UnicodeDecodeError | UnicodeEncodeError
  | TypeError | AttributeError
  | FileExistsError | FileNotFoundError | NotADirectoryError
  | IsADirectoryError | ValueError | TimestampError | CursesError
  | Unmodelled.

Inductive res (A : Type) : Type :=
  | Ok (a : A)
  | Raise (e : exn).
Arguments Ok {A} a.
Arguments Raise {A} e.

#[global] Instance res_ret : MRet res := fun A a => Ok a.
#[global] Instance res_bind : MBind res :=
  fun A B f m => match m with Ok a => f a | Raise e => Raise e end.

(** [for k in ks: s = f(k, s)], stopping at the first exception. *)
Fixpoint for_each {K S} (f : K -> S -> res S) (ks : list K) (s : S) : res S :=
  match ks with
  | [] => Ok s
  | k :: ks' => s' ← f k s; for_each f ks' s'
  end.

(** ** JSON values

    What [json.load] produces.  A finite number is kept with its exact
    value (every finite Python [int] or [float] is a rational, and
    Python compares the two kinds exactly; the rounding of [float]
    arithmetic is not followed).  [json.load] also takes the literals
    [NaN], [Infinity] and [-Infinity], and reads a number beyond the
    range of [float] as an infinity: these are the values of
    [JNonFinite].  A string is held character by character, one [ascii]
    for each character, so that a slice counts characters; characters
    beyond the 256 of [ascii] have no counterpart here.  An object is a
    Python [dict]: entries in insertion order, read by key. *)

Inductive nonfinite : Type := NaN | PosInf | NegInf.

Inductive json : Type :=
  | JNull : json
  | JBool : bool -> json
  | JNum : Q -> json
  | JStr : string -> json
  | JArr : list json -> json
  | JObj : list (string * json) -> json
  | JNonFinite : nonfinite -> json.

Abbreviation pydict := (list (string * json)).

(** [d.get(k)], [k in d] *)
Fixpoint assoc_get {V} (k : string) (d : list (string * V)) : option V :=
  match d with
  | [] => None
  | (k', v) :: d' => if String.eqb k k' then Some v else assoc_get k d'
  end.

(** [d[k] = v]: the value is replaced where the key stands, a new key goes
    to the end. *)
Fixpoint assoc_set {V} (k : string) (v : V) (d : list (string * V))
  : list (string * V) :=
  match d with
  | [] => [(k, v)]
  | (k', v') :: d' =>
      if String.eqb k k' then (k', v) :: d' else (k', v') :: assoc_set k v d'
  end.

Definition dict_get (k : string) (d : pydict) : option json := assoc_get k d.
Definition dict_set (k : string) (v : json) (d : pydict) : pydict :=
  assoc_set k v d.

(** [l[-n:]] for [n > 0]: the last [n] items, the whole list when it is
    shorter. *)
Definition last_items {A} (n : nat) (l : list A) : list A :=
  drop (length l - n) l.

(** [s[-n:]] on a string. *)
Definition last_chars (n : nat) (s : string) : string :=
  String.substring (String.length s - n) n s.

(** A finite number as Python sees it: [bool] is a subclass of [int]. *)
Definition num_of (v : json) : option Q :=
  match v with
  | JNum q => Some q
  | JBool b => Some (if b then 1%Q else 0%Q)
  | _ => None
  end.

(** [isinstance(v, (int, float))] *)
Definition is_number (v : json) : bool :=
  match v with
  | JNum _ | JBool _ | JNonFinite _ => true
  | _ => false
  end.

(** [a == b] on values that are not one object.  Dictionaries are equal
    when they have as many keys and each key of the first has an equal
    value in the second; a NaN equals nothing. *)
Fixpoint json_eqb (a b : json) : bool :=
  match a, b with
  | JNull, JNull => true
  | JStr s, JStr t => String.eqb s t
  | JArr l, JArr m =>
      (fix items (l m : list json) : bool :=
         match l, m with
         | [], [] => true
         | x :: l', y :: m' => json_eqb x y && items l' m'
         | _, _ => false
         end) l m
  | JObj d, JObj e =>
      (length d =? length e)%nat &&
      (fix entries (d : pydict) : bool :=
         match d with
         | [] => true
         | (k, v) :: d' =>
             match assoc_get k e with
             | Some w => json_eqb v w
             | None => false
             end && entries d'
         end) d
  | (JNum _ | JBool _), (JNum _ | JBool _) =>
      match num_of a, num_of b with
      | Some p, Some q => Qeq_bool p q
      | _, _ => false
      end
  | JNonFinite PosInf, JNonFinite PosInf => true
  | JNonFinite NegInf, JNonFinite NegInf => true
  | _, _ => false
  end.

Definition dict_eqb (d e : pydict) : bool := json_eqb (JObj d) (JObj e).

(** ** The directory tree

    A file is known by what [json.load] makes of it: a value,
    [JSONDecodeError] for a text that is no JSON, [UnicodeDecodeError]
    for bytes that are no text.  Permission failures are not part of the
    model. *)

Inductive payload : Type :=
  | Malformed
  | Undecodable
  | Parsed (j : json).

Inductive node : Type :=
  | File (c : payload)
  | Dir (entries : list (string * node)).

Abbreviation path := (list string).

Fixpoint lookup_path (p : path) (n : node) : option node :=
  match p with
  | [] => Some n
  | x :: p' =>
      match n with
      | Dir es => n' ← assoc_get x es; lookup_path p' n'
      | File _ => None
      end
  end.

(** [Path.exists()] *)
Definition path_exists (p : path) (n : node) : bool :=
  match lookup_path p n with Some _ => true | None => false end.

(** [Path.mkdir(parents=True, exist_ok=True)] *)
Fixpoint mkdir_p (p : path) (n : node) : res node :=
  match p with
  | [] => match n with Dir _ => Ok n | File _ => Raise FileExistsError end
  | x :: p' =>
      match n with
      | File _ => Raise NotADirectoryError
      | Dir es =>
          n' ← mkdir_p p' (default (Dir []) (assoc_get x es));
          Ok (Dir (assoc_set x n' es))
      end
  end.

(** [with open(p, 'w') as f: json.dump(v, f)], the file then holding the
    text of [v]. *)
Fixpoint write_file (p : path) (c : payload) (n : node) : res node :=
  match n with
  | File _ => Raise NotADirectoryError
  | Dir es =>
      match p with
      | [] => Raise IsADirectoryError
      | [x] =>
          match assoc_get x es with
          | Some (Dir _) => Raise IsADirectoryError
          | _ => Ok (Dir (assoc_set x (File c) es))
          end
      | x :: p' =>
          match assoc_get x es with
          | Some n' => n'' ← write_file p' c n'; Ok (Dir (assoc_set x n'' es))
          | None => Raise FileNotFoundError
          end
      end
  end.

(** [with open(p) as f: json.load(f)] *)
Definition read_json (p : path) (n : node) : res json :=
  match lookup_path p n with
  | Some (File (Parsed j)) => Ok j
  | Some (File Malformed) => Raise JSONDecodeError
  | Some (File Undecodable) => Raise UnicodeDecodeError
  | Some (Dir _) => Raise IsADirectoryError
  | None => Raise FileNotFoundError
  end.

Definition echo_dir : path := ["activity_logs"].

Definition components : list string :=
  ["cognitive"; "sensory"; "ml"; "browser"; "terminal"; "personality";
   "emergency"].

(** [self.paths[k]], [paths[k]] *)
Definition activity_path (component : string) : path :=
  echo_dir ++ [component; "activity.json"].

(** ** [StreamType] *)

Inductive StreamType : Type :=
  | ALL | COGNITIVE | SENSORY | ML | BROWSER | TERMINAL | PERSONALITY
  | EMERGENCY.

Definition value (t : StreamType) : string :=
  match t with
  | ALL => "all" | COGNITIVE => "cognitive" | SENSORY => "sensory"
  | ML => "ml" | BROWSER => "browser" | TERMINAL => "terminal"
  | PERSONALITY => "personality" | EMERGENCY => "emergency"
  end.

(** ** Startup initialization of the store *)

(** One turn of the loop of [ActivityStream.__init__]: the directory is
    made, the file is written with [[]] only when nothing is there. *)
Definition ensure_activity_file (subdir : string) (fs : node) : res node :=
  fs1 ← mkdir_p (echo_dir ++ [subdir]) fs;
  if path_exists (activity_path subdir) fs1 then Ok fs1
  else write_file (activity_path subdir) (Parsed (JArr [])) fs1.

(** The file-system part of [ActivityStream.__init__]. *)
Definition init_files (fs : node) : res node :=
  for_each ensure_activity_file components fs.

(** The same in the verbose branch of [main]: [echo_dir] is made first,
    then for each path its parent, then the file when absent. *)
Definition main_init_files (fs : node) : res node :=
  fs0 ← mkdir_p echo_dir fs;
  for_each ensure_activity_file components fs0.

(** ** The dashboard object

    [self.activities] and [self.system_stats] are dictionaries in a
    store, held by address: [update_activities] writes into the one
    dictionary [self.activities] names, [update_system_stats] binds
    [self.system_stats] to a new one.  The snapshot kept in
    [self.last_screen_state] is a dictionary of two such addresses. *)

Abbreviation loc := nat.
Abbreviation heap := (list pydict).

(** What a screen cell row was last asked to show. *)
Inductive line : Type :=
  | Header (view : string)
  | SystemLine (cpu memory : Q)
  | Heartbeat
  | Row (time : Q) (component description : json) (alert : bool)
  | DisplayError (e : exn)
  | LoopError (e : exn).

Record ActivityStream : Type := mkActivityStream {
  stream_type : StreamType;
  last_update : Q;
  running : bool;
  activities : loc;
  system_stats : loc;
  last_screen_state : list (string * loc);
  screen : list (nat * line)
}.

Definition update_interval : Q := 1 # 2.
Definition max_items : nat := 100.

(** The state part of [__init__]: [{k: [] for k in self.paths.keys()}],
    [{}] for the statistics and [{}] for the last screen state. *)
Definition init_state (stream_type : StreamType) : heap * ActivityStream :=
  ([map (fun k => (k, JArr [])) components; []],
   {| stream_type := stream_type; last_update := 0; running := true;
      activities := 0%nat; system_stats := 1%nat; last_screen_state := [];
      screen := [] |}).

(** [h[a][k] = v] *)
Definition heap_set (h : heap) (a : loc) (k : string) (v : json) : heap :=
  match h !! a with
  | Some d => <[a := dict_set k v d]> h
  | None => h
  end.

(** [self.activities[k]] *)
Definition cache_of (h : heap) (self : ActivityStream) (k : string)
  : option json :=
  d ← h !! activities self; dict_get k d.

(** [v[-n:]]: lists and strings can be sliced, nothing else that
    [json.load] returns can. *)
Definition slice_last (n : nat) (v : json) : res json :=
  match v with
  | JArr l => Ok (JArr (last_items n l))
  | JStr s => Ok (JStr (last_chars n s))
  | _ => Raise TypeError
  end.

(** The three branches on [data] in [update_activities]: the value the
    cache is set to, or no assignment. *)
Definition normalized (data : json) : res (option json) :=
  match data with
  | JArr l => Ok (Some (JArr (last_items max_items l)))
  | JObj d =>
      match dict_get "history" d with
      | Some hist => v ← slice_last max_items hist; Ok (Some v)
      | None => Ok (Some (JArr [data]))
      end
  | _ => Ok None
  end.

(** The inner [try] block for one component. *)
Definition load_activities (fs : node) (a : loc) (activity_type : string)
    (h : heap) : res heap :=
  data ← read_json (activity_path activity_type) fs;
  o ← normalized data;
  Ok (match o with Some v => heap_set h a activity_type v | None => h end).

(** The body of the loop: nothing when the path does not exist, and
    [except Exception] leaves the store as it was. *)
Definition update_one (fs : node) (a : loc) (activity_type : string)
    (h : heap) : heap :=
  if path_exists (activity_path activity_type) fs then
    match load_activities fs a activity_type h with
    | Ok h' => h'
    | Raise _ => h
    end
  else h.

(** [update_activities]: the components in the order of [self.paths].
    (With stat permission failures left out nothing reaches the outer
    handler.) *)
Definition update_activities (fs : node) (h : heap) (self : ActivityStream)
  : heap :=
  foldl (fun h k => update_one fs (activities self) k h) h components.

(** [self.activities['emergency'].append(record)] *)
Definition emergency_append (h : heap) (self : ActivityStream)
    (record : json) : res heap :=
  match cache_of h self "emergency" with
  | Some (JArr l) =>
      Ok (heap_set h (activities self) "emergency" (JArr (l ++ [record])))
  | _ => Raise AttributeError
  end.

(** [update_system_stats]: [sample] is what the [psutil] calls and
    [datetime.now()] give (a dictionary with keys [cpu], [memory], [disk],
    [time]) or the exception [e] they raise; [text] is [str(e)] and [now]
    is [time.time()] in the handler. *)
Definition update_system_stats (sample : res pydict) (text : string)
    (now : Q) (st : heap * ActivityStream) : res (heap * ActivityStream) :=
  let '(h, self) := st in
  match sample with
  | Ok d =>
      Ok (h ++ [d],
          {| stream_type := stream_type self; last_update := last_update self;
             running := running self; activities := activities self;
             system_stats := length h;
             last_screen_state := last_screen_state self;
             screen := screen self |})
  | Raise _ =>
      h' ← emergency_append h self
             (JObj [("time", JNum now);
                    ("error",
                     JStr (String.append "Error updating stats: " text))]);
      Ok (h', self)
  end.

(** [x == y] on two dictionaries of the store: the same object, or equal
    contents. *)
Definition ref_eqb (h : heap) (l l' : loc) : bool :=
  (l =? l')%nat ||
  match h !! l, h !! l' with
  | Some d, Some d' => dict_eqb d d'
  | _, _ => false
  end.

(** [current_state == self.last_screen_state] *)
Definition state_eqb (h : heap) (a b : list (string * loc)) : bool :=
  (length a =? length b)%nat &&
  forallb (fun '(k, l) =>
             match assoc_get k b with
             | Some l' => ref_eqb h l l'
             | None => false
             end) a.

(** [_screen_state_changed] *)
Definition _screen_state_changed (h : heap) (self : ActivityStream)
  : bool * ActivityStream :=
  let current_state :=
    [("activities", activities self); ("stats", system_stats self)] in
  let changed := negb (state_eqb h current_state (last_screen_state self)) in
  (changed,
   {| stream_type := stream_type self; last_update := last_update self;
      running := running self; activities := activities self;
      system_stats := system_stats self;
      last_screen_state := current_state;
      screen := screen self |}).

(** ** The timeline: gathering and sorting in [update_display] *)

(** [for activity in v]: a list gives its items, a dictionary its keys, a
    string its characters. *)
Definition iter_items (v : json) : res (list json) :=
  match v with
  | JArr l => Ok l
  | JObj d => Ok (map (fun kv => JStr (fst kv)) d)
  | JStr s =>
      Ok (map (fun c => JStr (String c "")) (String.list_ascii_of_string s))
  | _ => Raise TypeError
  end.

(** [activity['component'] = component] *)
Definition stamp (component : string) (activity : json) : res json :=
  match activity with
  | JObj d => Ok (JObj (dict_set "component" (JStr component) d))
  | _ => Raise TypeError
  end.

(** One component of the [ALL] branch: what [activities.extend] receives.
    Only [json.JSONDecodeError] is caught here. *)
Definition load_component (fs : node) (component : string)
  : res (list json) :=
  if path_exists (activity_path component) fs then
    match read_json (activity_path component) fs with
    | Ok component_activities =>
        items ← iter_items component_activities;
        mapM (stamp component) items
    | Raise JSONDecodeError => Ok []
    | Raise e => Raise e
    end
  else Ok [].

(** The single-component branch.  [activities] is the loaded value
    itself, so that a value which is no list, having passed the loop
    (an empty dictionary or string), fails at [activities.sort]. *)
Definition load_single (fs : node) (component : string) : res (list json) :=
  if path_exists (activity_path component) fs then
    match read_json (activity_path component) fs with
    | Ok activities =>
        items ← iter_items activities;
        stamped ← mapM (stamp component) items;
        match activities with
        | JArr _ => Ok stamped
        | _ => Raise AttributeError
        end
    | Raise JSONDecodeError => Ok []
    | Raise e => Raise e
    end
  else Ok [].

Definition gather (t : StreamType) (fs : node) : res (list json) :=
  match t with
  | ALL => ls ← mapM (load_component fs) components; Ok (concat ls)
  | _ => load_single fs (value t)
  end.

Definition Qltb (p q : Q) : bool := negb (Qle_bool q p).

(** [x < y] between two numbers of which one is not finite.  A NaN
    compares [False] with every number, and the order [list.sort] leaves
    among such keys depends on its algorithm: that comparison is not
    followed and gives [Unmodelled]. *)
Definition nonfinite_lt (x y : Q + nonfinite) : res bool :=
  match x, y with
  | inr NaN, _ | _, inr NaN => Raise Unmodelled
  | inl p, inl q => Ok (Qltb p q)
  | inr NegInf, inr NegInf => Ok false
  | inr NegInf, _ => Ok true
  | _, inr NegInf => Ok false
  | inr PosInf, _ => Ok false
  | _, inr PosInf => Ok true
  end.

(** A number, finite or not. *)
Definition number_of (v : json) : option (Q + nonfinite) :=
  match v with
  | JNonFinite x => Some (inr x)
  | _ => q ← num_of v; Some (inl q)
  end.

(** [a < b] between sort keys.  Numbers order by value and strings by
    their characters; [None], dictionaries and mixed kinds raise
    [TypeError].  Python orders two lists item by item: that comparison
    is not followed here and gives [Unmodelled]. *)
Definition py_lt (a b : json) : res bool :=
  match num_of a, num_of b with
  | Some p, Some q => Ok (Qltb p q)
  | _, _ =>
      match number_of a, number_of b with
      | Some x, Some y => nonfinite_lt x y
      | _, _ =>
          match a, b with
          | JStr s, JStr t => Ok (String.ltb s t)
          | JArr _, JArr _ => Raise Unmodelled
          | _, _ => Raise TypeError
          end
      end
  end.

(** [lambda x: x.get('time', 0)] *)
Definition time_key (x : json) : res json :=
  match x with
  | JObj d => Ok (default (JNum 0) (dict_get "time" d))
  | _ => Raise AttributeError
  end.

(** [list.sort] is a stable comparison sort that only asks [<] of the
    keys, each computed once.  On keys that [<] orders totally every such
    sort returns the same list; it is written here as an insertion sort
    in which an item goes behind the items that came before it unless it
    is strictly smaller. *)
Fixpoint insert_keyed (kx : json * json) (s : list (json * json))
  : res (list (json * json)) :=
  match s with
  | [] => Ok [kx]
  | ky :: s' =>
      b ← py_lt (fst ky) (fst kx);
      if b : bool then r ← insert_keyed kx s'; Ok (ky :: r)
      else Ok (kx :: ky :: s')
  end.

Fixpoint sort_keyed (l : list (json * json)) : res (list (json * json)) :=
  match l with
  | [] => Ok []
  | kx :: l' => s ← sort_keyed l'; insert_keyed kx s
  end.

(** [activities.sort(key=lambda x: x.get('time', 0))] *)
Definition sort_by_time (l : list json) : res (list json) :=
  ks ← mapM time_key l;
  s ← sort_keyed (zip ks l);
  Ok (map snd s).

(** Lines 147 to 175 of [update_display]: the sorted timeline. *)
Definition timeline (t : StreamType) (fs : node) : res (list json) :=
  activities ← gather t fs; sort_by_time activities.

(** ** Rendering

    A screen is the list of the [addstr] calls that returned since it
    was last cleared, each with its row; what a call that raised has left
    on the window is not recorded.  A line is kept by its parts rather
    than as formatted text, so the cut to the screen width is not visible
    here.  Times are exact rationals: the rounding of [float] arithmetic
    is not followed. *)

Definition set_screen (scr : list (nat * line)) (self : ActivityStream)
  : ActivityStream :=
  {| stream_type := stream_type self; last_update := last_update self;
     running := running self; activities := activities self;
     system_stats := system_stats self;
     last_screen_state := last_screen_state self; screen := scr |}.

Definition set_last_update (t : Q) (self : ActivityStream) : ActivityStream :=
  {| stream_type := stream_type self; last_update := t;
     running := running self; activities := activities self;
     system_stats := system_stats self;
     last_screen_state := last_screen_state self; screen := screen self |}.

Definition set_running (b : bool) (self : ActivityStream) : ActivityStream :=
  {| stream_type := stream_type self; last_update := last_update self;
     running := b; activities := activities self;
     system_stats := system_stats self;
     last_screen_state := last_screen_state self; screen := screen self |}.

(** Code that changes [self] and may raise: what was changed before the
    exception stays changed. *)
Definition action (A : Type) : Type :=
  ActivityStream -> ActivityStream * res A.

#[global] Instance action_ret : MRet action := fun A a self => (self, Ok a).
#[global] Instance action_bind : MBind action :=
  fun A B f m self =>
    match m self with
    | (self', Ok a) => f a self'
    | (self', Raise e) => (self', Raise e)
    end.

Definition lift {A} (r : res A) : action A := fun self => (self, r).
Definition get_self : action ActivityStream := fun self => (self, Ok self).
Definition modify (f : ActivityStream -> ActivityStream) : action unit :=
  fun self => (f self, Ok ()).

(** What one call of [update_display] reads from outside: the files, the
    [psutil] figures of lines 187 and 188 or the exception they raise,
    the screen height, the two readings of [time.time()] in the
    heartbeat branch, and what curses answers to an [addstr] on a row of
    the screen: [curses.error] when the text runs past the last cell of
    the window, [ValueError] for a text with a null character. *)
Record display_env : Type := mkDisplayEnv {
  d_fs : node;
  d_stats : res (Q * Q);
  d_max_y : nat;
  d_addstr : nat -> line -> res unit;
  d_now : Q;
  d_now_set : Q
}.

(** [self.screen.addstr(y, 0, text, attrs)]: below the last row curses
    raises [curses.error], on a row of the screen it answers as the
    terminal does. *)
Definition addstr (env : display_env) (y : nat) (l : line) : action unit :=
  fun self =>
    if (y <? d_max_y env)%nat then
      match d_addstr env y l with
      | Ok _ => (set_screen (screen self ++ [(y, l)]) self, Ok ())
      | Raise e => (self, Raise e)
      end
    else (self, Raise CursesError).

(** [try: addstr(...) except curses.error: break], telling whether the
    line was drawn; another exception goes on. *)
Definition addstr_or_break (env : display_env) (y : nat) (l : line)
  : action bool :=
  fun self =>
    match addstr env y l self with
    | (self', Ok _) => (self', Ok true)
    | (self', Raise CursesError) => (self', Ok false)
    | (self', Raise e) => (self', Raise e)
    end.

Section Platform.

(** Whether [datetime.fromtimestamp] accepts a finite number; the range
    depends on the platform. *)
Variable timestamp_ok : Q -> bool.

(** Whether [print] can write the line of a record of a component:
    [sys.stdout] raises [UnicodeEncodeError] on a text its encoding does
    not cover (a lone surrogate, which [json.load] accepts, for one). *)
Variable stdout_ok : string -> json -> bool.

(** [datetime.fromtimestamp(v)] *)
Definition fromtimestamp (v : json) : res Q :=
  match num_of v with
  | Some q => if timestamp_ok q then Ok q else Raise TimestampError
  | None =>
      match v with
      | JNonFinite _ => Raise TimestampError
      | _ => Raise TypeError
      end
  end.

(** The line of one activity of the sorted timeline (a dictionary). *)
Definition format_row (activity : json) : res line :=
  match activity with
  | JObj d =>
      t ← fromtimestamp (default (JNum 0) (dict_get "time" d));
      let component := default (JStr "unknown") (dict_get "component" d) in
      let description := default (JStr "") (dict_get "description" d) in
      Ok (Row t component description
              (json_eqb component (JStr "emergency")))
  | _ => Raise AttributeError
  end.

(** The loop over [reversed(activities[-50:])], from row [current_line]. *)
Fixpoint draw_rows (env : display_env) (current_line : nat)
    (acts : list json) : action unit :=
  match acts with
  | [] => mret ()
  | activity :: rest =>
      if (d_max_y env <=? current_line + 2)%nat then mret ()
      else
        r ← lift (format_row activity);
        drawn ← addstr_or_break env current_line r;
        if drawn : bool then draw_rows env (S current_line) rest
        else mret ()
  end.

(** The [try] block of [update_display]. *)
Definition display_body (env : display_env) : action unit :=
  modify (set_screen []);;
  self ← get_self;
  activities ← lift (timeline (stream_type self) (d_fs env));
  addstr env 0 (Header (value (stream_type self)));;
  stats ← lift (d_stats env);
  addstr env 2 (SystemLine (fst stats) (snd stats));;
  match activities with
  | [] =>
      self ← get_self;
      if Qltb 30 (d_now env - last_update self) then
        addstr env 4 Heartbeat;;
        modify (set_last_update (d_now_set env))
      else mret ()
  | _ => draw_rows env 4 (rev (last_items 50 activities))
  end.

(** [update_display]: [except Exception] writes the error on row 0. *)
Definition update_display (env : display_env) : action unit :=
  fun self =>
    match display_body env self with
    | (self', Ok _) => (self', Ok ())
    | (self', Raise e) => addstr env 0 (DisplayError e) self'
    end.

(** What one turn of the loop of [run] reads from outside; where the
    sampling of the statistics raises [e], [r_sample_str] is [str(e)]. *)
Record run_env : Type := mkRunEnv {
  r_now : Q;
  r_fs : node;
  r_sample : res pydict;
  r_sample_str : string;
  r_sample_now : Q;
  r_display : display_env;
  r_key : option string
}.

(** The part of a turn under [if current_time - self.last_update >=
    self.update_interval]. *)
Definition refresh (env : run_env) (st : heap * ActivityStream)
  : (heap * ActivityStream) * res unit :=
  let '(h, self) := st in
  let h1 := update_activities (r_fs env) h self in
  match update_system_stats (r_sample env) (r_sample_str env)
          (r_sample_now env) (h1, self) with
  | Raise e => ((h1, self), Raise e)
  | Ok (h2, self2) =>
      let self3 := set_last_update (r_now env) self2 in
      let '(changed, self4) := _screen_state_changed h2 self3 in
      if changed then
        let '(self5, r) := update_display (r_display env) (set_screen [] self4)
        in ((h2, self5), r)
      else ((h2, self4), Ok ())
  end.

(** The key read by [getch]: [q] stops the loop, [c] clears the screen. *)
Definition handle_key (key : option string) (self : ActivityStream)
  : ActivityStream :=
  match key with
  | Some "q" => set_running false self
  | Some "c" => set_screen [] self
  | _ => self
  end.

(** One turn of the loop of [run].  The handler of the loop writes its
    own error line and lets only [curses.error] pass: another exception
    of that [addstr] leaves the loop. *)
Definition run_turn (env : run_env) (st : heap * ActivityStream)
  : (heap * ActivityStream) * res unit :=
  let '(st1, r) :=
    if Qle_bool update_interval (r_now env - last_update (snd st))
    then refresh env st else (st, Ok ()) in
  match r with
  | Ok _ => ((fst st1, handle_key (r_key env) (snd st1)), Ok ())
  | Raise e =>
      match addstr (r_display env) 0 (LoopError e) (snd st1) with
      | (self', Ok _) | (self', Raise CursesError) => ((fst st1, self'), Ok ())
      | (self', Raise e') => ((fst st1, self'), Raise e')
      end
  end.

(** [run]: the turns taken while [self.running], one per item of [envs],
    up to a turn whose exception leaves the loop; the state is the one
    [run] is left in. *)
Fixpoint run (envs : list run_env) (st : heap * ActivityStream)
  : heap * ActivityStream :=
  match envs with
  | [] => st
  | env :: envs' =>
      if running (snd st) then
        match run_turn env st with
        | (st', Ok _) => run envs' st'
        | (st', Raise _) => st'
        end
      else st
  end.

(** ** Tail mode: the verbose branch of [main] *)

(** The time between the brackets of a printed line: a number goes
    through [fromtimestamp], anything else is printed as it is. *)
Inductive stamp_text : Type :=
  | Formatted (t : Q)
  | Verbatim (v : json).

(** The lines [print] writes.  An event line is kept by its parts; [msg]
    is the description, or the record itself where [str(activity)] is
    printed. *)
Inductive out_line : Type :=
  | Event (timestamp : stamp_text) (activity_type : string) (msg : json)
      (red : bool)
  | InvalidJson (activity_type : string)
  | ErrorReading (activity_type : string) (e : exn)
  | NoEvents.

(** [last_seen]: for each component the list read last. *)
Abbreviation seen_map := (list (string * list json)).

(** [{k: [] for k in paths.keys()}] *)
Definition init_last_seen : seen_map := map (fun k => (k, [])) components.

(** The cursor of a component: [len(last_seen[activity_type])]. *)
Definition cursor (last_seen : seen_map) (activity_type : string) : nat :=
  length (default [] (assoc_get activity_type last_seen)).

(** [activities[len(last_seen[activity_type]):]] *)
Definition new_activities (seen activities : list json) : list json :=
  drop (length seen) activities.

(** The body of [for activity in new_activities]; [now] is [time.time()],
    the time shown for a record that has none. *)
Definition print_activity (now : Q) (activity_type : string)
    (activity : json) : res out_line :=
  match activity with
  | JObj d =>
      let timestamp := default (JNum now) (dict_get "time" d) in
      ts ← (if is_number timestamp
            then t ← fromtimestamp timestamp; Ok (Formatted t)
            else Ok (Verbatim timestamp));
      if stdout_ok activity_type activity then
        Ok (Event ts activity_type
                  (default activity (dict_get "description" d))
                  (String.eqb activity_type "emergency"))
      else Raise UnicodeEncodeError
  | _ => Raise AttributeError
  end.

(** The loop itself: the lines printed, and the exception that ended it
    if one did. *)
Fixpoint print_new (now : Q) (activity_type : string) (acts : list json)
  : list out_line * res unit :=
  match acts with
  | [] => ([], Ok ())
  | activity :: rest =>
      match print_activity now activity_type activity with
      | Ok l =>
          let '(ls, r) := print_new now activity_type rest in (l :: ls, r)
      | Raise e => ([], Raise e)
      end
  end.

(** One component in one poll: the new [last_seen], the lines printed and
    whether [any_events] was set. *)
Definition poll_component (fs : node) (now : Q) (activity_type : string)
    (last_seen : seen_map) : seen_map * list out_line * bool :=
  if path_exists (activity_path activity_type) fs then
    match read_json (activity_path activity_type) fs with
    | Ok (JArr activities) =>
        let seen := default [] (assoc_get activity_type last_seen) in
        let fresh := new_activities seen activities in
        let any_events := match fresh with [] => false | _ => true end in
        match print_new now activity_type fresh with
        | (printed, Ok _) =>
            (assoc_set activity_type activities last_seen, printed, any_events)
        | (printed, Raise e) =>
            (last_seen, printed ++ [ErrorReading activity_type e], any_events)
        end
    | Ok _ => (last_seen, [], false)
    | Raise JSONDecodeError => (last_seen, [InvalidJson activity_type], false)
    | Raise e => (last_seen, [ErrorReading activity_type e], false)
    end
  else (last_seen, [], false).

(** What one turn of the loop reads from outside: the files, the clock
    for records without a time, and the clock of the heartbeat test. *)
Record tail_env : Type := mkTailEnv {
  t_fs : node;
  t_now : Q;
  t_beat : Q
}.

(** [t % 30] *)
Definition mod30 (t : Q) : Q := t - 30 * inject_Z (Qfloor (t / 30)).

Definition poll_components (env : tail_env) (ks : list string)
    (acc : seen_map * list out_line * bool) : seen_map * list out_line * bool :=
  foldl (fun acc k =>
           let '(last_seen, printed, any_events) := acc in
           let '(last_seen', lines, any) :=
             poll_component (t_fs env) (t_now env) k last_seen in
           (last_seen', printed ++ lines, any_events || any))
        acc ks.

(** One turn of [while True]. *)
Definition poll_cycle (env : tail_env) (last_seen : seen_map)
  : seen_map * list out_line :=
  let '(last_seen', printed, any_events) :=
    poll_components env components (last_seen, [], false) in
  (last_seen',
   printed ++
   (if negb any_events && Qltb (mod30 (t_beat env)) (1 # 10)
    then [NoEvents] else [])).


End Platform.

(** ** Vocabulary of the statements *)

(** The records a well-formed log file carries, in each of its three
    shapes: a list, a dictionary with a [history] list, a single record. *)
Definition records_of (data : json) : option (list json) :=
  match data with
  | JArr l => Some l
  | JObj d =>
      match dict_get "history" d with
      | Some (JArr l) => Some l
      | Some _ => None
      | None => Some [data]
      end
  | _ => None
  end.

(** A record whose [component] field is the tag. *)
Definition component_is (tag : string) (r : json) : Prop :=
  exists d, r = JObj d /\ dict_get "component" d = Some (JStr tag).

(** [isinstance(v, dict)] *)
Definition is_dict (v : json) : bool :=
  match v with JObj _ => true | _ => false end.

(** The record [r'] is the record [r] of a log with its [component] set
    to the tag: a dictionary whose [component] is the tag and whose other
    fields are those of [r]. *)
Definition stamped_as (tag : string) (r r' : json) : Prop :=
  exists d d',
    r = JObj d /\ r' = JObj d' /\
    dict_get "component" d' = Some (JStr tag) /\
    forall f, f <> "component" -> dict_get f d' = dict_get f d.

(** The time of a record whose [time] is a finite number, 0 for a
    record that has none. *)
Definition time_num (x : json) : Q :=
  match x with
  | JObj d => default 0%Q (dict_get "time" d ≫= num_of)
  | _ => 0%Q
  end.

(** Of records with finite times, those whose time is [t]. *)
Definition at_time (t : Q) (l : list json) : list json :=
  List.filter (fun x => Qeq_bool (time_num x) t) l.

(** [x <= y] between two numbers, as Python answers it: [False] where
    one is a NaN. *)
Definition number_le (x y : Q + nonfinite) : bool :=
  match x, y with
  | inr NaN, _ | _, inr NaN => false
  | inl p, inl q => Qle_bool p q
  | inr NegInf, _ => true
  | _, inr PosInf => true
  | _, _ => false
  end.

(** The value a record sorts by: [x.get('time', 0)]. *)
Definition time_of (x : json) : option json :=
  match x with
  | JObj d => Some (default (JNum 0) (dict_get "time" d))
  | _ => None
  end.

(** [a.get('time', 0) <= b.get('time', 0)], between two records whose
    times are numbers. *)
Definition time_le (a b : json) : Prop :=
  exists x y,
    time_of a ≫= number_of = Some x /\ time_of b ≫= number_of = Some y /\
    number_le x y = true.

(** Non-decreasing in time. *)
Definition time_sorted (l : list json) : Prop := StronglySorted time_le l.

(** The number a key of the sort stands for. *)
Definition key_num (kx : json * json) : Q := default 0%Q (num_of (fst kx)).

(** A record whose [time] is a finite number, or that has none. *)
Definition numeric_time (x : json) : bool :=
  match x with
  | JObj d =>
      match dict_get "time" d with
      | Some v => match num_of v with Some _ => true | None => false end
      | None => true
      end
  | _ => false
  end.

(** A record of a component that the tail loop prints without an
    exception: a dictionary whose time, when a number, is finite and
    taken by [fromtimestamp], and whose line [sys.stdout] can encode. *)
Definition printable (timestamp_ok : Q -> bool)
    (stdout_ok : string -> json -> bool) (now : Q) (activity_type : string)
    (activity : json) : bool :=
  match activity with
  | JObj d =>
      let timestamp := default (JNum now) (dict_get "time" d) in
      (if is_number timestamp
       then match num_of timestamp with
            | Some q => timestamp_ok q
            | None => false
            end
       else true)
      && stdout_ok activity_type activity
  | _ => false
  end.


(** The lines of a screen, without their rows. *)
Definition lines_of (self : ActivityStream) : list line :=
  map snd (screen self).

(** No regular file stands at the path. *)
Definition no_file_at (p : path) (fs : node) : Prop :=
  forall c, lookup_path p fs <> Some (File c).

(** A working directory in which the log directories can be made: none of
    their names is taken by a regular file. *)
Definition store_free (fs : node) : Prop :=
  no_file_at [] fs /\ no_file_at echo_dir fs /\
  forall k, k ∈ components -> no_file_at (echo_dir ++ [k]) fs.

(** No heartbeat line is on the screen. *)
Definition no_heartbeat (self : ActivityStream) : Prop :=
  ~ In Heartbeat (lines_of self).

(** What [update_display] and [addstr] leave alone: every field of the
    object but the screen and [last_update]. *)
Definition refs_of (self : ActivityStream)
  : StreamType * bool * loc * loc * list (string * loc) :=
  (stream_type self, running self, activities self, system_stats self,
   last_screen_state self).

(** The lines of the screen that show a record. *)
Definition is_row (l : line) : bool :=
  match l with Row _ _ _ _ => true | _ => false end.

Definition not_row (e : nat * line) : Prop := is_row (snd e) = false.

Definition row_count (self : ActivityStream) : nat :=
  length (List.filter is_row (lines_of self)).

(** The times of the rows on the screen, in the order they were drawn:
    from the top. *)
Definition row_times (self : ActivityStream) : list Q :=
  omap (fun l => match l with Row t _ _ _ => Some t | _ => None end)
       (lines_of self).

(** The dictionary at [a] has exactly the seven component keys, in the
    order of [self.paths]. *)
Definition keyed (h : heap) (a : loc) : Prop :=
  exists d, h !! a = Some d /\ map fst d = components.

(** The shape [__init__] gives the store: [self.activities] is a
    dictionary of the seven components, [self.system_stats] another
    dictionary of the store, made after it. *)
Definition store_ok (st : heap * ActivityStream) : Prop :=
  keyed (fst st) (activities (snd st)) /\
  activities (snd st) < system_stats (snd st) < length (fst st).

(** ** Sample data *)

(** A tree in which one component has a log file. *)
Definition log_tree (component : string) (c : payload) : node :=
  Dir [("activity_logs", Dir [(component, Dir [("activity.json", File c)])])].

(** A record as a producer may write it, with a [component] of its own. *)
Definition sample_record : json :=
  JObj [("time", JNum 1); ("description", JStr "trial 1");
        ("component", JStr "browser")].

Definition sample_record2 : json :=
  JObj [("time", JNum 2); ("description", JStr "trial 2")].

Definition sample_record3 : json :=
  JObj [("time", JNum 2); ("description", JStr "trial 3")].

Definition sample_record4 : json :=
  JObj [("description", JStr "restart")].



(** A single record that has a [history] field of its own. *)
Definition history_record : json :=
  JObj [("time", JNum 1); ("history", JArr [])].



(** A working directory where [ml] already has a log, and what
    initialization makes of it. *)
Definition sample_tree : node :=
  log_tree "ml" (Parsed (JArr [sample_record])).

Definition sample_tree_ready : node :=
  Dir [("activity_logs",
        Dir [("ml", Dir [("activity.json",
                          File (Parsed (JArr [sample_record])))]);
             ("cognitive", Dir [("activity.json", File (Parsed (JArr [])))]);
             ("sensory", Dir [("activity.json", File (Parsed (JArr [])))]);
             ("browser", Dir [("activity.json", File (Parsed (JArr [])))]);
             ("terminal", Dir [("activity.json", File (Parsed (JArr [])))]);
             ("personality", Dir [("activity.json", File (Parsed (JArr [])))]);
             ("emergency", Dir [("activity.json", File (Parsed (JArr [])))])])].

(** Two components with logs: a tie at time 2 across them, and a record
    without a time. *)
Definition sample_logs : node :=
  Dir [("activity_logs",
        Dir [("ml", Dir [("activity.json",
                          File (Parsed (JArr [sample_record2;
                                              sample_record])))]);
             ("browser", Dir [("activity.json",
                               File (Parsed (JArr [sample_record3;
                                                   sample_record4])))])])].

(** A poll of tail mode that finds the given list in the file of [ml]
    (and, by its clock, prints no heartbeat). *)
Definition tail_env_of (activities : list json) : tail_env :=
  {| t_fs := log_tree "ml" (Parsed (JArr activities));
     t_now := 0; t_beat := 1 |}.

(** [last_seen] after tail mode has read the given list for [ml]. *)
Definition seen_ml (activities : list json) : list (string * list json) :=
  assoc_set "ml" activities init_last_seen.

(** A terminal wide enough for every line it is asked to show. *)
Definition wide_screen : nat -> line -> res unit := fun _ _ => Ok ().

(** A turn of the dashboard at time [t] with an empty [cognitive] log, a
    wide screen of 24 rows, the drawing a fifth of a second after the
    poll and a statistics sample stamped [stamp]. *)
Definition dashboard_env (t : Q) (stamp : string) : run_env :=
  {| r_now := t;
     r_fs := log_tree "cognitive" (Parsed (JArr []));
     r_sample := Ok [("cpu", JNum 1); ("memory", JNum 2); ("disk", JNum 3);
                     ("time", JStr stamp)];
     r_sample_str := "";
     r_sample_now := t;
     r_display := {| d_fs := log_tree "cognitive" (Parsed (JArr []));
                     d_stats := Ok (1%Q, 2%Q); d_max_y := 24;
                     d_addstr := wide_screen;
                     d_now := t + (1 # 5); d_now_set := t + (1 # 5) |};
     r_key := None |}.

(** A turn of the dashboard at time [t] in which the [psutil] calls
    raise, the [cognitive] log holding the given list. *)
Definition stats_failing_env (t : Q) (activities : list json) : run_env :=
  {| r_now := t;
     r_fs := log_tree "cognitive" (Parsed (JArr activities));
     r_sample := Raise FileNotFoundError;
     r_sample_str := "[Errno 2] No such file or directory: '/'";
     r_sample_now := t;
     r_display := {| d_fs := log_tree "cognitive" (Parsed (JArr activities));
                     d_stats := Ok (1%Q, 2%Q); d_max_y := 24;
                     d_addstr := wide_screen;
                     d_now := t + (1 # 5); d_now_set := t + (1 # 5) |};
     r_key := None |}.

(** A platform on which every timestamp can be formatted. *)
Definition any_timestamp : Q -> bool := fun _ => true.

(** A standard output that can encode every line. *)
Definition any_text : string -> json -> bool := fun _ _ => true.

(** The working directory after initialization found it empty. *)
Definition fresh_tree : node :=
  Dir [("activity_logs",
        Dir (map (fun k => (k, Dir [("activity.json",
                                     File (Parsed (JArr [])))]))
                 components))].

(** What [update_display] reads over the given files on a wide screen
    of [max_y] rows. *)
Definition display_env_of (fs : node) (max_y : nat) : display_env :=
  {| d_fs := fs; d_stats := Ok (1%Q, 2%Q); d_max_y := max_y;
     d_addstr := wide_screen; d_now := 0; d_now_set := 0 |}.

(** The turn [dashboard_env t stamp] in which [getch] reads the key. *)
Definition key_env (t : Q) (stamp key : string) : run_env :=
  {| r_now := t;
     r_fs := r_fs (dashboard_env t stamp);
     r_sample := r_sample (dashboard_env t stamp);
     r_sample_str := "";
     r_sample_now := t;
     r_display := r_display (dashboard_env t stamp);
     r_key := Some key |}.

(** A poll of tail mode over the initialized sample directory, at a
    clock reading of [beat] for the heartbeat. *)
Definition ready_env (beat : Q) : tail_env :=
  {| t_fs := sample_tree_ready; t_now := 0; t_beat := beat |}.

(** One step of a [res] computation whose first part is known. *)
Ltac res_step := cbn [mbind res_bind mret res_ret].

Ltac in_components :=
  unfold components; rewrite ?elem_of_cons;
  repeat (try (left; reflexivity); right).

(** * Lemmas and theorems *)

(** ** Dictionaries *)

Lemma assoc_get_set_eq {V} k (v : V) d : assoc_get k (assoc_set k v d) = Some v.
Proof.
  induction d as [|[k' v'] d IH]; simpl.
  - by rewrite String.eqb_refl.
  - destruct (String.eqb k k') eqn:E; simpl; rewrite E; [done|apply IH].
Qed.

Lemma assoc_get_set_ne {V} k k' (v : V) d :
  k <> k' -> assoc_get k' (assoc_set k v d) = assoc_get k' d.
Proof.
  intros Hne. induction d as [|[k1 v1] d IH]; simpl.
  - destruct (String.eqb k' k) eqn:E; [|done].
    apply String.eqb_eq in E. congruence.
  - destruct (String.eqb k k1) eqn:E; simpl.
    + apply String.eqb_eq in E. subst k1.
      destruct (String.eqb k' k) eqn:E'; [|done].
      apply String.eqb_eq in E'. congruence.
    + by rewrite IH.
Qed.

Lemma assoc_set_id {V} k (v : V) d :
  assoc_get k d = Some v -> assoc_set k v d = d.
Proof.
  induction d as [|[k1 v1] d IH]; simpl; [done|].
  destruct (String.eqb k k1) eqn:E.
  - intros [= ->]. done.
  - intros H. by rewrite IH.
Qed.

Lemma last_items_length {A} n (l : list A) : length (last_items n l) <= n.
Proof. unfold last_items. rewrite length_drop. lia. Qed.

Lemma last_items_short {A} n (l : list A) :
  length l <= n -> last_items n l = l.
Proof.
  intros H. unfold last_items.
  replace (length l - n) with 0 by lia. done.
Qed.

Lemma mapM_res_cons {A B} (f : A -> res B) x l :
  mapM f (x :: l) = y ← f x; k ← mapM f l; Ok (y :: k).
Proof. reflexivity. Qed.

Lemma mapM_res_Forall2 {A B} (f : A -> res B) l ks :
  mapM f l = Ok ks -> Forall2 (fun x y => f x = Ok y) l ks.
Proof.
  revert ks. induction l as [|x l IH]; intros ks.
  - intros [= <-]. constructor.
  - rewrite mapM_res_cons. destruct (f x) as [y|] eqn:Hx; res_step; [|done].
    destruct (mapM f l) as [k|]; res_step; [|done].
    intros [= <-]. constructor; [done|by apply IH].
Qed.

Lemma mapM_res_raise {A B} (f : A -> res B) l x e :
  x ∈ l -> f x = Raise e -> exists e', mapM f l = Raise e'.
Proof.
  intros Hx He. induction l as [|y l IH]; [by apply elem_of_nil in Hx|].
  rewrite mapM_res_cons. apply elem_of_cons in Hx as [<-|Hx].
  - rewrite He. res_step. eauto.
  - destruct (f y); res_step; [|eauto].
    destruct (IH Hx) as [e' ->]. res_step. eauto.
Qed.

(** ** The cache of the dashboard *)

(** What [update_activities] makes of one component's cache, as a
    function of the files and of the cache before. *)
Lemma cache_of_heap_set_eq h self k v :
  is_Some (h !! activities self) ->
  cache_of (heap_set h (activities self) k v) self k = Some v.
Proof.
  intros [d Hd]. unfold cache_of, heap_set. rewrite Hd.
  rewrite list_lookup_insert_eq by (by eapply lookup_lt_Some).
  simpl. apply assoc_get_set_eq.
Qed.

Lemma cache_of_heap_set_ne h self k k' v :
  k <> k' ->
  cache_of (heap_set h (activities self) k v) self k' = cache_of h self k'.
Proof.
  intros Hne. unfold cache_of, heap_set.
  destruct (h !! activities self) as [d|] eqn:Hd; [|by rewrite Hd].
  rewrite list_lookup_insert_eq by (by eapply lookup_lt_Some).
  simpl. by apply assoc_get_set_ne.
Qed.

Lemma heap_set_is_Some h a k v l :
  is_Some (h !! l) -> is_Some (heap_set h a k v !! l).
Proof.
  intros Hl. unfold heap_set. destruct (h !! a) eqn:Ha; [|done].
  apply lookup_lt_is_Some. rewrite length_insert.
  by apply lookup_lt_is_Some.
Qed.

Lemma update_one_is_Some fs a k h l :
  is_Some (h !! l) -> is_Some (update_one fs a k h !! l).
Proof.
  intros Hl. unfold update_one, load_activities.
  destruct (path_exists _ _); [|done].
  destruct (read_json _ _) as [data|]; simpl; [|done].
  destruct (normalized data) as [[v|]|]; simpl; try done.
  by apply heap_set_is_Some.
Qed.

Lemma update_activities_is_Some fs h self l :
  is_Some (h !! l) -> is_Some (update_activities fs h self !! l).
Proof.
  unfold update_activities. generalize components. intros ks. revert h.
  induction ks as [|k ks IH]; intros h Hl; [done|].
  cbn [foldl]. apply IH. by apply update_one_is_Some.
Qed.

Lemma update_one_other fs self k k' h :
  k <> k' ->
  cache_of (update_one fs (activities self) k h) self k' = cache_of h self k'.
Proof.
  intros Hne. unfold update_one, load_activities.
  destruct (path_exists _ _); [|done].
  destruct (read_json _ _) as [data|]; simpl; [|done].
  destruct (normalized data) as [[v|]|]; simpl; try done.
  by apply cache_of_heap_set_ne.
Qed.

Lemma update_all_other fs self k ks h :
  k ∉ ks ->
  cache_of (foldl (fun h k => update_one fs (activities self) k h) h ks)
           self k = cache_of h self k.
Proof.
  revert h. induction ks as [|k' ks IH]; intros h Hk; simpl; [done|].
  apply not_elem_of_cons in Hk as [Hne Hk].
  rewrite IH by done. by apply update_one_other.
Qed.

Lemma update_all_one fs self k ks h :
  NoDup ks -> k ∈ ks ->
  exists h',
    (is_Some (h !! activities self) -> is_Some (h' !! activities self)) /\
    cache_of h' self k = cache_of h self k /\
    cache_of (foldl (fun h k => update_one fs (activities self) k h) h ks)
             self k
    = cache_of (update_one fs (activities self) k h') self k.
Proof.
  revert h. induction ks as [|k' ks IH]; intros h Hnd Hk; simpl.
  - by apply elem_of_nil in Hk.
  - apply NoDup_cons in Hnd as [Hnotin Hnd].
    apply elem_of_cons in Hk as [->|Hk].
    + exists h. split; [done|]. split; [done|].
      by apply update_all_other.
    + assert (k' <> k) by (intros ->; done).
      destruct (IH (update_one fs (activities self) k' h))
        as (h' & Hs & Hc & ?); [done|done|].
      exists h'. split; [|split; [|done]].
      * intros Hh. apply Hs. by apply update_one_is_Some.
      * rewrite Hc. by apply update_one_other.
Qed.

Lemma components_NoDup : NoDup components.
Proof. apply (bool_decide_unpack (NoDup components)). by vm_compute. Qed.

Lemma read_json_exists p fs data :
  read_json p fs = Ok data -> path_exists p fs = true.
Proof.
  unfold read_json, path_exists. by destruct (lookup_path p fs).
Qed.

Lemma update_one_loaded fs self k h data v :
  is_Some (h !! activities self) ->
  read_json (activity_path k) fs = Ok data ->
  normalized data = Ok (Some v) ->
  cache_of (update_one fs (activities self) k h) self k = Some v.
Proof.
  intros Hh Hr Hn. unfold update_one, load_activities.
  rewrite (read_json_exists _ _ _ Hr), Hr. simpl. rewrite Hn. simpl.
  by apply cache_of_heap_set_eq.
Qed.

Lemma update_one_raised fs a k h e :
  read_json (activity_path k) fs = Raise e -> update_one fs a k h = h.
Proof.
  intros Hr. unfold update_one, load_activities. rewrite Hr. simpl.
  by destruct (path_exists _ _).
Qed.

Lemma update_activities_loaded fs h self k data v :
  k ∈ components -> is_Some (h !! activities self) ->
  read_json (activity_path k) fs = Ok data ->
  normalized data = Ok (Some v) ->
  cache_of (update_activities fs h self) self k = Some v.
Proof.
  intros Hk Hh Hr Hn. unfold update_activities.
  destruct (update_all_one fs self k components h components_NoDup Hk)
    as (h' & Hs & _ & ->).
  eapply update_one_loaded; eauto.
Qed.

Lemma update_activities_raised fs h self k e :
  k ∈ components ->
  read_json (activity_path k) fs = Raise e ->
  cache_of (update_activities fs h self) self k = cache_of h self k.
Proof.
  intros Hk Hr. unfold update_activities.
  destruct (update_all_one fs self k components h components_NoDup Hk)
    as (h' & _ & Hc & ->).
  by rewrite (update_one_raised _ _ _ _ _ Hr).
Qed.

Lemma normalized_records data records :
  records_of data = Some records ->
  normalized data = Ok (Some (JArr (last_items max_items records))).
Proof.
  destruct data as [| | | |l|d|]; simpl; try done.
  - by intros [= ->].
  - destruct (dict_get "history" d) as [hist|] eqn:Hh.
    + destruct hist; try done. by intros [= ->].
    + by intros [= <-].
Qed.

Lemma init_state_cache t k :
  k ∈ components ->
  cache_of (fst (init_state t)) (snd (init_state t)) k = Some (JArr []).
Proof.
  unfold components. rewrite !elem_of_cons, elem_of_nil.
  intros H. repeat destruct H as [->|H]; done.
Qed.

Lemma stamp_component_is tag l acts :
  mapM (stamp tag) l = Ok acts -> Forall (component_is tag) acts.
Proof.
  revert acts. induction l as [|x l IH]; intros acts; simpl.
  - intros [= <-]. constructor.
  - destruct x as [| | | | |d|]; simpl; try done.
    destruct (mapM (stamp tag) l) as [acts'|]; simpl; [|done].
    intros [= <-]. constructor; [|by apply IH].
    exists (dict_set "component" (JStr tag) d). split; [done|].
    apply assoc_get_set_eq.
Qed.

Lemma load_component_stamped fs k acts :
  load_component fs k = Ok acts -> Forall (component_is k) acts.
Proof.
  unfold load_component. destruct (path_exists _ _).
  - destruct (read_json _ _) as [v|e].
    + destruct (iter_items v) as [items|]; simpl; [|done].
      apply stamp_component_is.
    + destruct e; try done. intros [= <-]. constructor.
  - intros [= <-]. constructor.
Qed.

Lemma load_single_stamped fs k acts :
  load_single fs k = Ok acts -> Forall (component_is k) acts.
Proof.
  unfold load_single. destruct (path_exists _ _).
  - destruct (read_json _ _) as [v|e].
    + destruct (iter_items v) as [items|]; simpl; [|done].
      destruct (mapM (stamp k) items) as [stamped|] eqn:Hs; simpl; [|done].
      destruct v; try done. intros [= <-]. by eapply stamp_component_is.
    + destruct e; try done. intros [= <-]. constructor.
  - intros [= <-]. constructor.
Qed.

Lemma stamp_stamped tag r r' : stamp tag r = Ok r' -> stamped_as tag r r'.
Proof.
  destruct r as [| | | | |d|]; try done. intros [= <-].
  exists d, (dict_set "component" (JStr tag) d).
  split; [done|]. split; [done|]. split; [apply assoc_get_set_eq|].
  intros f Hf. apply assoc_get_set_ne. congruence.
Qed.

Lemma mapM_stamp_stamped tag l acts :
  mapM (stamp tag) l = Ok acts -> Forall2 (stamped_as tag) l acts.
Proof.
  intros H. apply mapM_res_Forall2 in H.
  eapply Forall2_impl; [exact H|]. intros r r'. apply stamp_stamped.
Qed.

Lemma mapM_stamp_dicts tag l :
  Forall (fun r => is_dict r = true) l ->
  exists acts, mapM (stamp tag) l = Ok acts.
Proof.
  induction 1 as [|r l Hr Hl [acts IH]]; [by exists []|].
  destruct r as [| | | | |d|]; try done.
  rewrite mapM_res_cons, IH. cbn [stamp]. res_step. eauto.
Qed.

Lemma load_component_dict fs k kv d :
  read_json (activity_path k) fs = Ok (JObj (kv :: d)) ->
  load_component fs k = Raise TypeError /\ load_single fs k = Raise TypeError.
Proof.
  intros Hr. unfold load_component, load_single.
  by rewrite (read_json_exists _ _ _ Hr), Hr.
Qed.

(** A log that holds a list of dictionaries: both branches of
    [update_display] gather every record of it, stamped. *)
Lemma load_list_of_dicts fs k records :
  read_json (activity_path k) fs = Ok (JArr records) ->
  Forall (fun r => is_dict r = true) records ->
  exists acts,
    load_component fs k = Ok acts /\ load_single fs k = Ok acts /\
    Forall2 (stamped_as k) records acts.
Proof.
  intros Hr Hd. destruct (mapM_stamp_dicts k records Hd) as [acts Ha].
  exists acts. unfold load_component, load_single.
  rewrite (read_json_exists _ _ _ Hr), Hr. cbn [iter_items]. res_step.
  rewrite Ha. res_step. split; [done|]. split; [done|].
  by apply mapM_stamp_stamped.
Qed.

(** What one component brings is part of what the [ALL] view gathers. *)
Lemma gather_all_includes fs k acts gathered :
  k ∈ components ->
  load_component fs k = Ok acts -> gather ALL fs = Ok gathered ->
  forall a, In a acts -> In a gathered.
Proof.
  intros Hk Hl. unfold gather.
  destruct (mapM (load_component fs) components) as [ls|] eqn:Hm;
    res_step; [|done].
  intros [= <-] a Ha. apply mapM_res_Forall2 in Hm.
  apply list_elem_of_lookup in Hk as [i Hi].
  destruct (Forall2_lookup_l _ _ _ _ _ Hm Hi) as (l & Hli & Hload).
  rewrite Hl in Hload. injection Hload as <-.
  apply in_concat. exists acts. split; [|done].
  apply list_elem_of_In, list_elem_of_lookup. eauto.
Qed.

(** C1, amended: for a well-formed log file [update_activities] caches
    the last 100 records of the file, as the producer wrote them (so at
    most 100, and with no component stamp).  The stamp is put by
    [update_display], which reads the file again.  Where the file holds
    a list of dictionaries it gathers every record of the list, not only
    the last 100, in the view of the component as in the [ALL] view,
    each with its [component] set to the tag of the log, whatever the
    producer wrote there, and its other fields as they were.  Where the
    file holds a dictionary (a [history] or a single record) the
    assignment is to a key of it and raises [TypeError]; an empty
    dictionary brings nothing to the [ALL] view and fails at the sort in
    the view of the component. *)
Theorem update_activities_bounded_display_stamps
    fs h self k data records :
  k ∈ components ->
  is_Some (h !! activities self) ->
  read_json (activity_path k) fs = Ok data ->
  records_of data = Some records ->
  cache_of (update_activities fs h self) self k
    = Some (JArr (last_items max_items records)) /\
  length (last_items max_items records) <= 100 /\
  (data = JArr records -> Forall (fun r => is_dict r = true) records ->
   exists acts,
     load_component fs k = Ok acts /\ load_single fs k = Ok acts /\
     Forall2 (stamped_as k) records acts /\
     (forall t, value t = k -> gather t fs = Ok acts) /\
     (forall gathered, gather ALL fs = Ok gathered ->
                       forall a, In a acts -> In a gathered)) /\
  (forall kv d, data = JObj (kv :: d) ->
     load_component fs k = Raise TypeError /\
     load_single fs k = Raise TypeError) /\
  (data = JObj [] ->
     load_component fs k = Ok [] /\ load_single fs k = Raise AttributeError).
Proof.
  intros Hk Hh Hr Hrec. split; [|split; [|split; [|split]]].
  - eapply update_activities_loaded; eauto. by apply normalized_records.
  - apply last_items_length.
  - intros -> Hd.
    destruct (load_list_of_dicts fs k records Hr Hd) as (acts & Hc & Hs & Hst).
    exists acts. split; [done|]. split; [done|]. split; [done|]. split.
    + intros t <-. destruct t; try exact Hs.
      exfalso. revert Hk. unfold components. cbn [value].
      rewrite !elem_of_cons, elem_of_nil. intros H.
      repeat destruct H as [H|H]; done.
    + intros gathered Hg. by apply (gather_all_includes fs k acts).
  - intros kv d ->. by apply (load_component_dict fs k kv d).
  - intros ->. unfold load_component, load_single.
    by rewrite (read_json_exists _ _ _ Hr), Hr.
Qed.

(** C5: when the file of a component does not parse, the [try] block
    raises [JSONDecodeError], [update_activities] returns all the same
    and the cache of the component is what it was; on a fresh object that
    is the empty list. *)
Theorem malformed_file_keeps_cache fs h self k :
  k ∈ components ->
  lookup_path (activity_path k) fs = Some (File Malformed) ->
  load_activities fs (activities self) k h = Raise JSONDecodeError /\
  cache_of (update_activities fs h self) self k = cache_of h self k /\
  (forall t,
     cache_of (update_activities fs (fst (init_state t)) (snd (init_state t)))
              (snd (init_state t)) k = Some (JArr [])).
Proof.
  intros Hk Hl.
  assert (Hr : read_json (activity_path k) fs = Raise JSONDecodeError)
    by (unfold read_json; by rewrite Hl).
  split; [|split].
  - unfold load_activities. by rewrite Hr.
  - by eapply update_activities_raised.
  - intros t. rewrite (update_activities_raised _ _ _ _ _ Hk Hr).
    by apply init_state_cache.
Qed.

(** C6, amended: a list of records and a dictionary whose [history] is
    that list leave the same cache after [update_activities], the last
    100 of the records; so does, for one record, the record itself when
    it is a dictionary without a [history] key: the cache is the list of
    that one record. *)
Theorem three_shapes_same_cache
    fs_list fs_hist fs_bare h self k records d r :
  k ∈ components ->
  is_Some (h !! activities self) ->
  read_json (activity_path k) fs_list = Ok (JArr records) ->
  read_json (activity_path k) fs_hist = Ok (JObj d) ->
  dict_get "history" d = Some (JArr records) ->
  cache_of (update_activities fs_list h self) self k
    = Some (JArr (last_items max_items records)) /\
  cache_of (update_activities fs_hist h self) self k
    = Some (JArr (last_items max_items records)) /\
  (records = [JObj r] -> dict_get "history" r = None ->
   read_json (activity_path k) fs_bare = Ok (JObj r) ->
   cache_of (update_activities fs_bare h self) self k = Some (JArr [JObj r]) /\
   cache_of (update_activities fs_list h self) self k = Some (JArr [JObj r])).
Proof.
  intros Hk Hh Hl Hd Hhist.
  assert (Hlist : cache_of (update_activities fs_list h self) self k
                  = Some (JArr (last_items max_items records))).
  { eapply update_activities_loaded; eauto. }
  split; [exact Hlist|]. split.
  - eapply update_activities_loaded; eauto.
    apply normalized_records. simpl. by rewrite Hhist.
  - intros -> Hnone Hb. split; [|exact Hlist].
    eapply update_activities_loaded; eauto.
    simpl. by rewrite Hnone.
Qed.

Lemma update_activities_bounded_display_stamps_witness :
  cache_of (update_activities sample_tree
              (fst (init_state ALL)) (snd (init_state ALL)))
           (snd (init_state ALL)) "ml"
    = Some (JArr (last_items max_items [sample_record])) /\
  length (last_items max_items [sample_record]) <= 100 /\
  exists acts,
    load_component sample_tree "ml" = Ok acts /\
    load_single sample_tree "ml" = Ok acts /\
    Forall2 (stamped_as "ml") [sample_record] acts /\
    (forall t, value t = "ml" -> gather t sample_tree = Ok acts) /\
    (forall gathered, gather ALL sample_tree = Ok gathered ->
                      forall a, In a acts -> In a gathered).
Proof.
  destruct (update_activities_bounded_display_stamps sample_tree
              (fst (init_state ALL)) (snd (init_state ALL)) "ml"
              (JArr [sample_record]) [sample_record])
    as (Hcache & Hlen & Hlist & _).
  - in_components.
  - eexists. reflexivity.
  - reflexivity.
  - reflexivity.
  - split; [exact Hcache|]. split; [exact Hlen|].
    apply Hlist; [reflexivity|]. repeat constructor.
Defined.

(** C1 as stated fails: the file of [ml] holds one record whose producer
    wrote [component: browser]; after [update_activities] the cache of
    [ml] holds that record unchanged, its [component] still [browser]. *)
Lemma update_activities_leaves_component :
  records_of (JArr [sample_record]) = Some [sample_record] /\
  cache_of (update_activities sample_tree
              (fst (init_state ALL)) (snd (init_state ALL)))
           (snd (init_state ALL)) "ml"
    = Some (JArr [sample_record]) /\
  ~ component_is "ml" sample_record.
Proof.
  split; [reflexivity|]. split; [reflexivity|].
  intros (d & Hd & Hc). injection Hd as <-. discriminate Hc.
Qed.

Lemma malformed_file_keeps_cache_witness :
  load_activities (log_tree "browser" Malformed)
    (activities (snd (init_state ALL))) "browser" (fst (init_state ALL))
    = Raise JSONDecodeError /\
  cache_of (update_activities (log_tree "browser" Malformed)
              (fst (init_state ALL)) (snd (init_state ALL)))
           (snd (init_state ALL)) "browser"
    = cache_of (fst (init_state ALL)) (snd (init_state ALL)) "browser" /\
  (forall t,
     cache_of (update_activities (log_tree "browser" Malformed)
                 (fst (init_state t)) (snd (init_state t)))
              (snd (init_state t)) "browser" = Some (JArr [])).
Proof.
  apply (malformed_file_keeps_cache (log_tree "browser" Malformed)
           (fst (init_state ALL)) (snd (init_state ALL)) "browser").
  - in_components.
  - reflexivity.
Defined.

Lemma three_shapes_same_cache_witness :
  cache_of (update_activities
              (log_tree "ml" (Parsed (JArr [sample_record2])))
              (fst (init_state ALL)) (snd (init_state ALL)))
           (snd (init_state ALL)) "ml"
    = Some (JArr (last_items max_items [sample_record2])) /\
  cache_of (update_activities
              (log_tree "ml"
                 (Parsed (JObj [("history", JArr [sample_record2])])))
              (fst (init_state ALL)) (snd (init_state ALL)))
           (snd (init_state ALL)) "ml"
    = Some (JArr (last_items max_items [sample_record2])) /\
  cache_of (update_activities (log_tree "ml" (Parsed sample_record2))
              (fst (init_state ALL)) (snd (init_state ALL)))
           (snd (init_state ALL)) "ml"
    = Some (JArr [sample_record2]) /\
  cache_of (update_activities
              (log_tree "ml" (Parsed (JArr [sample_record2])))
              (fst (init_state ALL)) (snd (init_state ALL)))
           (snd (init_state ALL)) "ml"
    = Some (JArr [sample_record2]).
Proof.
  destruct (three_shapes_same_cache
              (log_tree "ml" (Parsed (JArr [sample_record2])))
              (log_tree "ml"
                 (Parsed (JObj [("history", JArr [sample_record2])])))
              (log_tree "ml" (Parsed sample_record2))
              (fst (init_state ALL)) (snd (init_state ALL)) "ml"
              [sample_record2] [("history", JArr [sample_record2])]
              [("time", JNum 2); ("description", JStr "trial 2")])
    as (Hlist & Hhist & Hbare).
  - in_components.
  - eexists. reflexivity.
  - reflexivity.
  - reflexivity.
  - reflexivity.
  - split; [exact Hlist|]. split; [exact Hhist|]. apply Hbare; reflexivity.
Defined.

(** C6 as stated fails: a single record that has a [history] field of
    its own.  In a list it is cached as the one record of the list;
    alone in the file it is taken for a [history] wrapper and the cache
    is its [history], here the empty list. *)
Lemma bare_record_with_history_differs :
  cache_of (update_activities
              (log_tree "ml" (Parsed (JArr [history_record])))
              (fst (init_state ALL)) (snd (init_state ALL)))
           (snd (init_state ALL)) "ml"
    = Some (JArr [history_record]) /\
  cache_of (update_activities (log_tree "ml" (Parsed history_record))
              (fst (init_state ALL)) (snd (init_state ALL)))
           (snd (init_state ALL)) "ml"
    = Some (JArr []).
Proof. split; reflexivity. Qed.

(** ** The change detector *)

(** Two calls in a row: the second sees the snapshot of the first, made
    of the same two dictionaries, and answers [False] whatever the store
    holds by then. *)
Lemma second_call_unchanged h h' self :
  fst (_screen_state_changed h' (snd (_screen_state_changed h self))) = false.
Proof.
  unfold _screen_state_changed, state_eqb, ref_eqb. simpl.
  by rewrite !Nat.eqb_refl.
Qed.

(** A change of [self.system_stats] to a dictionary with other contents
    is seen. *)
Lemma stats_change_seen h self self' :
  last_screen_state self'
    = [("activities", activities self); ("stats", system_stats self)] ->
  activities self' = activities self ->
  ref_eqb h (system_stats self') (system_stats self) = false ->
  fst (_screen_state_changed h self') = true.
Proof.
  intros Hl Ha Hs. unfold _screen_state_changed, state_eqb. simpl.
  rewrite Hl. simpl. rewrite Hs. by rewrite andb_false_r.
Qed.

(** C4, the code at the failing input: a first poll with an empty
    [cognitive] file, a comparison, a second poll after one record was
    appended.  The cache of [cognitive] has changed, and the second
    comparison answers [False]: the last snapshot holds the dictionary
    [self.activities] itself, which [update_activities] has written
    into. *)
Theorem screen_state_change_missed :
  let fs1 := log_tree "cognitive" (Parsed (JArr [])) in
  let fs2 := log_tree "cognitive" (Parsed (JArr [sample_record2])) in
  let h0 := fst (init_state ALL) in
  let self0 := snd (init_state ALL) in
  let h1 := update_activities fs1 h0 self0 in
  let r1 := _screen_state_changed h1 self0 in
  let h2 := update_activities fs2 h1 (snd r1) in
  let r2 := _screen_state_changed h2 (snd r1) in
  fst r1 = true /\
  cache_of h1 (snd r1) "cognitive" = Some (JArr []) /\
  cache_of h2 (snd r1) "cognitive" = Some (JArr [sample_record2]) /\
  fst r2 = false.
Proof. repeat split; reflexivity. Qed.

(** ** The directory tree *)

Lemma lookup_path_app p q n :
  lookup_path (p ++ q) n = lookup_path p n ≫= lookup_path q.
Proof.
  revert n. induction p as [|x p IH]; intros n; simpl; [done|].
  destruct n as [c|es]; [done|].
  destruct (assoc_get x es) as [m|]; simpl; [apply IH|done].
Qed.

Lemma lookup_path_empty_dir x q : lookup_path (x :: q) (Dir []) = None.
Proof. done. Qed.

(** Where something lies below [p], [p] is a directory. *)
Lemma lookup_path_parent p x q n m :
  lookup_path (p ++ x :: q) n = Some m ->
  exists es, lookup_path p n = Some (Dir es).
Proof.
  rewrite lookup_path_app. destruct (lookup_path p n) as [[c|es]|]; simpl;
    [done|eauto|done].
Qed.

Lemma mkdir_p_id p n es :
  lookup_path p n = Some (Dir es) -> mkdir_p p n = Ok n.
Proof.
  revert n. induction p as [|x p IH]; intros n; simpl.
  - by intros [= ->].
  - destruct n as [c|es0]; [done|].
    destruct (assoc_get x es0) as [m|] eqn:Hm; simpl; [|done].
    intros Hl. rewrite (IH _ Hl). simpl. by rewrite (assoc_set_id _ _ _ Hm).
Qed.

Lemma mkdir_p_is_dir p n n' :
  mkdir_p p n = Ok n' -> exists es, lookup_path p n' = Some (Dir es).
Proof.
  revert n n'. induction p as [|x p IH]; intros n n'; simpl.
  - destruct n; [done|]. intros [= <-]. eauto.
  - destruct n as [c|es0]; [done|].
    destruct (mkdir_p p _) as [m'|] eqn:Hm; simpl; [|done].
    intros [= <-]. simpl. rewrite assoc_get_set_eq. simpl. by eapply IH.
Qed.

(** [mkdir] leaves what lies below the directory it makes or finds. *)
Lemma mkdir_p_below p x q n n' :
  mkdir_p p n = Ok n' ->
  lookup_path (p ++ x :: q) n' = lookup_path (p ++ x :: q) n.
Proof.
  revert n n'. induction p as [|z p IH]; intros n n'.
  - simpl. destruct n; [done|]. by intros [= <-].
  - simpl. destruct n as [c|es0]; [done|].
    destruct (mkdir_p p _) as [m'|] eqn:Hm; simpl; [|done].
    intros [= <-]. simpl. rewrite assoc_get_set_eq. simpl.
    rewrite (IH _ _ Hm).
    destruct (assoc_get z es0) as [m|]; simpl; [done|].
    destruct p; done.
Qed.

(** Paths that part ways at one name: [mkdir] of the one leaves the
    other. *)
Lemma mkdir_p_diverge c x y p q n n' :
  x <> y ->
  mkdir_p (c ++ x :: p) n = Ok n' ->
  lookup_path (c ++ y :: q) n' = lookup_path (c ++ y :: q) n.
Proof.
  intros Hne. revert n n'. induction c as [|z c IH]; intros n n'; simpl.
  - destruct n as [|es0]; [done|].
    destruct (mkdir_p p _) as [m'|]; simpl; [|done].
    intros [= <-]. simpl. by rewrite assoc_get_set_ne.
  - destruct n as [|es0]; [done|].
    destruct (mkdir_p (c ++ x :: p) _) as [m'|] eqn:Hm; simpl; [|done].
    intros [= <-]. simpl. rewrite assoc_get_set_eq. simpl.
    rewrite (IH _ _ Hm).
    destruct (assoc_get z es0) as [m|]; simpl; [done|].
    destruct c; done.
Qed.

Lemma write_file_deeper x y p v es :
  write_file (x :: y :: p) v (Dir es)
  = match assoc_get x es with
    | Some n' => n'' ← write_file (y :: p) v n'; Ok (Dir (assoc_set x n'' es))
    | None => Raise FileNotFoundError
    end.
Proof. reflexivity. Qed.

Lemma write_file_lookup p v n n' :
  write_file p v n = Ok n' -> lookup_path p n' = Some (File v).
Proof.
  revert n n'. induction p as [|x p IH]; intros n n'.
  - destruct n; done.
  - destruct n as [c|es]; [done|]. destruct p as [|y p].
    + simpl. destruct (assoc_get x es) as [[c|es']|]; try done;
        intros [= <-]; simpl; by rewrite assoc_get_set_eq.
    + rewrite write_file_deeper. destruct (assoc_get x es) as [m|]; [|done].
      destruct (write_file (y :: p) v m) as [m'|] eqn:Hm; [|done].
      intros [= <-]. cbn [lookup_path]. rewrite assoc_get_set_eq.
      by apply IH in Hm.
Qed.

Lemma write_file_diverge c x y p q v n n' :
  x <> y ->
  write_file (c ++ x :: p) v n = Ok n' ->
  lookup_path (c ++ y :: q) n' = lookup_path (c ++ y :: q) n.
Proof.
  intros Hne. revert n n'. induction c as [|z c IH]; intros n n'.
  - destruct n as [|es]; [done|]. destruct p as [|w p].
    + simpl. destruct (assoc_get x es) as [[?|?]|]; try done;
        intros [= <-]; simpl; by rewrite assoc_get_set_ne.
    + cbn [app]. rewrite write_file_deeper.
      destruct (assoc_get x es) as [m|]; [|done].
      destruct (write_file (w :: p) v m) as [m'|]; [|done].
      intros [= <-]. cbn [lookup_path]. by rewrite assoc_get_set_ne.
  - destruct n as [|es]; [done|].
    assert (Hcons : exists w r, c ++ x :: p = w :: r)
      by (destruct c; simpl; eauto).
    destruct Hcons as (w & r & Hwr).
    cbn [app]. rewrite Hwr, write_file_deeper.
    destruct (assoc_get z es) as [m|] eqn:Hz; [|done].
    destruct (write_file (w :: r) v m) as [m'|] eqn:Hm; [|done].
    intros [= <-]. rewrite <- Hwr in *. cbn [lookup_path].
    rewrite assoc_get_set_eq, Hz. by apply IH in Hm.
Qed.

(** ** Startup initialization *)

Lemma activity_path_split k :
  activity_path k = (echo_dir ++ [k]) ++ ["activity.json"].
Proof. reflexivity. Qed.

(** Where the file (or anything else) stands at the path, the turn of the
    loop changes nothing. *)
Lemma ensure_same k fs nd :
  lookup_path (activity_path k) fs = Some nd ->
  ensure_activity_file k fs = Ok fs.
Proof.
  intros Hl. unfold ensure_activity_file.
  pose proof Hl as Hp. rewrite activity_path_split in Hp.
  apply lookup_path_parent in Hp as [es Hes].
  rewrite (mkdir_p_id _ _ _ Hes). res_step.
  unfold path_exists. by rewrite Hl.
Qed.

(** Where nothing stands at the path, the turn that succeeds has put a
    file with the empty list there. *)
Lemma ensure_creates k fs fs' :
  lookup_path (activity_path k) fs = None ->
  ensure_activity_file k fs = Ok fs' ->
  lookup_path (activity_path k) fs' = Some (File (Parsed (JArr []))).
Proof.
  intros Hl. unfold ensure_activity_file.
  destruct (mkdir_p (echo_dir ++ [k]) fs) as [fs1|] eqn:Hm; res_step; [|done].
  assert (Hl1 : lookup_path (activity_path k) fs1 = None).
  { rewrite activity_path_split, (mkdir_p_below _ _ _ _ _ Hm).
    by rewrite <- activity_path_split. }
  unfold path_exists. rewrite Hl1. apply write_file_lookup.
Qed.

(** The turn for one component leaves the directory and the file of
    another. *)
Lemma ensure_other k k' q fs fs' :
  k <> k' ->
  ensure_activity_file k fs = Ok fs' ->
  lookup_path (echo_dir ++ k' :: q) fs' = lookup_path (echo_dir ++ k' :: q) fs.
Proof.
  intros Hne. unfold ensure_activity_file.
  destruct (mkdir_p (echo_dir ++ [k]) fs) as [fs1|] eqn:Hm; res_step; [|done].
  pose proof (mkdir_p_diverge echo_dir k k' [] q _ _ Hne Hm) as H1.
  destruct (path_exists _ _).
  - by intros [= <-].
  - intros Hw. rewrite <- H1.
    exact (write_file_diverge echo_dir k k' ["activity.json"] q _ _ _ Hne Hw).
Qed.

Lemma for_each_ensure_other ks k' q fs fs' :
  k' ∉ ks ->
  for_each ensure_activity_file ks fs = Ok fs' ->
  lookup_path (echo_dir ++ k' :: q) fs' = lookup_path (echo_dir ++ k' :: q) fs.
Proof.
  revert fs. induction ks as [|k ks IH]; intros fs Hk; cbn [for_each].
  - by intros [= <-].
  - apply not_elem_of_cons in Hk as [Hne Hk].
    destruct (ensure_activity_file k fs) as [fs1|] eqn:He; res_step; [|done].
    intros Hrest. rewrite (IH _ Hk Hrest).
    by apply (ensure_other k k' q fs fs1).
Qed.

(** After the loop every component of the list has its file: the one that
    was there, or else the empty list. *)
Lemma for_each_ensure_file ks k fs fs' :
  NoDup ks -> k ∈ ks ->
  for_each ensure_activity_file ks fs = Ok fs' ->
  lookup_path (activity_path k) fs'
  = Some (default (File (Parsed (JArr []))) (lookup_path (activity_path k) fs)).
Proof.
  revert fs. induction ks as [|k0 ks IH]; intros fs Hnd Hk; cbn [for_each].
  - by apply elem_of_nil in Hk.
  - apply NoDup_cons in Hnd as [Hnotin Hnd].
    destruct (ensure_activity_file k0 fs) as [fs1|] eqn:He; res_step; [|done].
    intros Hrest. apply elem_of_cons in Hk as [->|Hk].
    + change (activity_path k0) with (echo_dir ++ k0 :: ["activity.json"]).
      rewrite (for_each_ensure_other _ _ _ _ _ Hnotin Hrest).
      change (echo_dir ++ k0 :: ["activity.json"]) with (activity_path k0).
      destruct (lookup_path (activity_path k0) fs) as [nd|] eqn:Hl;
        cbn [default].
      * rewrite (ensure_same _ _ _ Hl) in He. by injection He as <-.
      * by apply (ensure_creates _ fs).
    + assert (k0 <> k) by (intros ->; done).
      rewrite (IH _ Hnd Hk Hrest).
      change (activity_path k) with (echo_dir ++ k :: ["activity.json"]).
      by rewrite (ensure_other k0 k _ fs fs1).
Qed.

Lemma for_each_ensure_same ks fs :
  (forall k, k ∈ ks -> is_Some (lookup_path (activity_path k) fs)) ->
  for_each ensure_activity_file ks fs = Ok fs.
Proof.
  induction ks as [|k ks IH]; intros Hall; cbn [for_each]; [done|].
  destruct (Hall k) as [nd Hnd]; [by left|].
  rewrite (ensure_same _ _ _ Hnd). res_step.
  apply IH. intros k' Hk'. apply Hall. by right.
Qed.

Lemma mkdir_two_ok a k fs :
  no_file_at [] fs -> no_file_at [a] fs -> no_file_at [a; k] fs ->
  exists fs', mkdir_p [a; k] fs = Ok fs'.
Proof.
  intros H0 H1 H2. destruct fs as [c|es]; [by destruct (H0 c)|].
  unfold no_file_at in H1, H2. cbn in H1, H2. cbn.
  destruct (assoc_get a es) as [[c|es1]|]; cbn in *.
  - by destruct (H1 c).
  - destruct (assoc_get k es1) as [[c|es2]|]; cbn in *; eauto.
    by destruct (H2 c).
  - eauto.
Qed.

Lemma write_file_ok p x v n es :
  lookup_path p n = Some (Dir es) -> assoc_get x es = None ->
  exists n', write_file (p ++ [x]) v n = Ok n'.
Proof.
  revert n. induction p as [|z p IH]; intros n Hl Hx.
  - injection Hl as ->. cbn. rewrite Hx. eauto.
  - destruct n as [c|es0]; [done|]. cbn [lookup_path] in Hl.
    destruct (assoc_get z es0) as [m|] eqn:Hz; [|done].
    destruct (IH m Hl Hx) as [m' Hm'].
    assert (Hcons : exists w r, p ++ [x] = w :: r) by (destruct p; cbn; eauto).
    destruct Hcons as (w & r & Hwr).
    cbn [app]. rewrite Hwr, write_file_deeper, Hz, <- Hwr, Hm'.
    res_step. eauto.
Qed.

Lemma ensure_ok k fs :
  no_file_at [] fs -> no_file_at echo_dir fs ->
  no_file_at (echo_dir ++ [k]) fs ->
  exists fs', ensure_activity_file k fs = Ok fs'.
Proof.
  intros H0 H1 H2.
  destruct (mkdir_two_ok "activity_logs" k fs H0 H1 H2) as [fs1 Hm].
  unfold ensure_activity_file.
  change (echo_dir ++ [k]) with ["activity_logs"; k]. rewrite Hm. res_step.
  destruct (path_exists (activity_path k) fs1) eqn:He; [eauto|].
  destruct (mkdir_p_is_dir _ _ _ Hm) as [es Hes].
  rewrite activity_path_split. apply (write_file_ok _ _ _ _ es); [done|].
  unfold path_exists in He. rewrite activity_path_split, lookup_path_app in He.
  change (echo_dir ++ [k]) with ["activity_logs"; k] in He.
  rewrite Hes in He. cbn in He.
  by destruct (assoc_get "activity.json" es).
Qed.

Lemma for_each_ensure_ok ks fs :
  NoDup ks -> no_file_at [] fs -> no_file_at echo_dir fs ->
  (forall k, k ∈ ks -> no_file_at (echo_dir ++ [k]) fs) ->
  exists fs', for_each ensure_activity_file ks fs = Ok fs'.
Proof.
  revert fs. induction ks as [|k0 ks IH]; intros fs Hnd H0 H1 Hall;
    cbn [for_each]; [eauto|].
  apply NoDup_cons in Hnd as [Hnotin Hnd].
  destruct (ensure_ok k0 fs H0 H1) as [fs1 He]; [apply Hall; by left|].
  rewrite He. res_step.
  assert (Hfile : is_Some (lookup_path (activity_path k0) fs1)).
  { destruct (lookup_path (activity_path k0) fs) as [nd|] eqn:Hl.
    - rewrite (ensure_same _ _ _ Hl) in He. injection He as <-. eauto.
    - rewrite (ensure_creates _ _ _ Hl He). eauto. }
  destruct Hfile as [nd Hnd1].
  apply IH; [done| | |].
  - change (activity_path k0)
      with ([] ++ "activity_logs" :: [k0; "activity.json"]) in Hnd1.
    apply lookup_path_parent in Hnd1 as [es Hes].
    intros c. by rewrite Hes.
  - change (activity_path k0)
      with (echo_dir ++ k0 :: ["activity.json"]) in Hnd1.
    apply lookup_path_parent in Hnd1 as [es Hes].
    intros c. by rewrite Hes.
  - intros k Hk c. assert (k0 <> k) by (intros ->; done).
    change (echo_dir ++ [k]) with (echo_dir ++ k :: []).
    rewrite (ensure_other k0 k [] fs fs1) by done.
    apply Hall. by right.
Qed.

(** Initialization goes through wherever no regular file takes the place
    of one of the directories. *)
Lemma init_files_succeeds fs :
  store_free fs -> exists fs', init_files fs = Ok fs'.
Proof.
  intros (H0 & H1 & Hall).
  by apply for_each_ensure_ok; [apply components_NoDup| | |].
Qed.

Lemma mkdir_one_ok a fs :
  no_file_at [] fs -> no_file_at [a] fs -> exists fs', mkdir_p [a] fs = Ok fs'.
Proof.
  intros H0 H1. destruct fs as [c|es]; [by destruct (H0 c)|].
  unfold no_file_at in H1. cbn in H1. cbn.
  destruct (assoc_get a es) as [[c|es1]|]; cbn in *; eauto.
  by destruct (H1 c).
Qed.

Lemma main_init_files_succeeds fs :
  store_free fs -> exists fs', main_init_files fs = Ok fs'.
Proof.
  intros (H0 & H1 & Hall). unfold main_init_files.
  destruct (mkdir_one_ok "activity_logs" fs H0 H1) as [fs0 Hm].
  change echo_dir with ["activity_logs"] at 1. rewrite Hm. res_step.
  destruct (mkdir_p_is_dir _ _ _ Hm) as [es Hes].
  apply for_each_ensure_ok; [apply components_NoDup| | |].
  - intros c Hc. cbn in Hc. injection Hc as ->. done.
  - intros c. unfold echo_dir. by rewrite Hes.
  - intros k Hk c.
    change (echo_dir ++ [k]) with (["activity_logs"] ++ k :: []).
    rewrite (mkdir_p_below _ _ _ _ _ Hm). by apply Hall.
Qed.

(** C8: initialization, in [__init__] as in the verbose branch of
    [main], goes through in a working directory where no regular file
    stands in the place of one of the directories.  Where it goes
    through, it leaves a tree on which running either again changes
    nothing; each of the seven components has its directory, and its
    file is the one that was there before, whatever it held, and the
    empty list only where nothing stood. *)
Theorem init_files_idempotent fs :
  (store_free fs ->
   (exists fs', init_files fs = Ok fs') /\
   (exists fs', main_init_files fs = Ok fs')) /\
  (forall fs',
     init_files fs = Ok fs' \/ main_init_files fs = Ok fs' ->
     init_files fs' = Ok fs' /\
     main_init_files fs' = Ok fs' /\
     forall k, k ∈ components ->
       (exists es, lookup_path (echo_dir ++ [k]) fs' = Some (Dir es)) /\
       lookup_path (activity_path k) fs'
       = Some (default (File (Parsed (JArr [])))
                 (lookup_path (activity_path k) fs))).
Proof.
  split.
  { intros Hfree. split;
      [by apply init_files_succeeds|by apply main_init_files_succeeds]. }
  intros fs' Hinit.
  assert (Hfiles : forall k, k ∈ components ->
            lookup_path (activity_path k) fs'
            = Some (default (File (Parsed (JArr [])))
                      (lookup_path (activity_path k) fs))).
  { intros k Hk. destruct Hinit as [Hi|Hi].
    - exact (for_each_ensure_file _ _ _ _ components_NoDup Hk Hi).
    - unfold main_init_files in Hi.
      destruct (mkdir_p echo_dir fs) as [fs0|] eqn:Hm; [|done].
      revert Hi. res_step. intros Hi.
      rewrite (for_each_ensure_file _ _ _ _ components_NoDup Hk Hi).
      change (activity_path k) with (echo_dir ++ k :: ["activity.json"]).
      by rewrite (mkdir_p_below _ _ _ _ _ Hm). }
  assert (Hsame : init_files fs' = Ok fs').
  { apply for_each_ensure_same. intros k Hk. rewrite (Hfiles k Hk). eauto. }
  split; [done|]. split.
  2:{ intros k Hk. split; [|by apply Hfiles].
      pose proof (Hfiles k Hk) as Hf. rewrite activity_path_split in Hf.
      by apply lookup_path_parent in Hf. }
  unfold main_init_files.
  assert (Hc : is_Some (lookup_path (activity_path "cognitive") fs')).
  { rewrite Hfiles by in_components. eauto. }
  destruct Hc as [nd Hnd].
  change (activity_path "cognitive")
    with (echo_dir ++ "cognitive" :: ["activity.json"]) in Hnd.
  apply lookup_path_parent in Hnd as [es Hes].
  rewrite (mkdir_p_id _ _ _ Hes). res_step. exact Hsame.
Qed.

Lemma sample_tree_free : store_free sample_tree.
Proof.
  split; [done|]. split; [done|]. intros k _ c.
  unfold sample_tree, log_tree, echo_dir. cbn.
  destruct (String.eqb k "ml"); done.
Qed.

(** The sample directory, where [ml] has a log with one record:
    initialization goes through in both modes and gives the directory
    with the six other files made and the log of [ml] as it was. *)
Lemma init_files_idempotent_witness :
  ((exists fs', init_files sample_tree = Ok fs') /\
   (exists fs', main_init_files sample_tree = Ok fs')) /\
  init_files sample_tree = Ok sample_tree_ready /\
  init_files sample_tree_ready = Ok sample_tree_ready /\
  main_init_files sample_tree_ready = Ok sample_tree_ready /\
  forall k, k ∈ components ->
    (exists es, lookup_path (echo_dir ++ [k]) sample_tree_ready
                = Some (Dir es)) /\
    lookup_path (activity_path k) sample_tree_ready
    = Some (default (File (Parsed (JArr [])))
              (lookup_path (activity_path k) sample_tree)).
Proof.
  destruct (init_files_idempotent sample_tree) as [Hgo Hsame].
  split; [exact (Hgo sample_tree_free)|]. split; [reflexivity|].
  apply (Hsame sample_tree_ready). left. reflexivity.
Defined.

(** ** The sort of the timeline *)

Lemma Qltb_lt p q : Qltb p q = true -> (p < q)%Q.
Proof.
  unfold Qltb. intros H. apply negb_true_iff in H.
  apply Qnot_le_lt. intros Hle. apply Qle_bool_iff in Hle. congruence.
Qed.

Lemma Qltb_ge p q : Qltb p q = false -> (q <= p)%Q.
Proof.
  unfold Qltb. intros H. apply negb_false_iff in H. by apply Qle_bool_iff.
Qed.

Lemma py_lt_numeric a b p q :
  num_of a = Some p -> num_of b = Some q -> py_lt a b = Ok (Qltb p q).
Proof. intros Ha Hb. unfold py_lt. by rewrite Ha, Hb. Qed.

Lemma insert_keyed_numeric kx s :
  is_Some (num_of (fst kx)) ->
  Forall (fun p => is_Some (num_of (fst p))) s ->
  exists r, insert_keyed kx s = Ok r /\ r ≡ₚ kx :: s /\
    (StronglySorted (fun a b => (key_num a <= key_num b)%Q) s ->
     StronglySorted (fun a b => (key_num a <= key_num b)%Q) r) /\
    (forall t, List.filter (fun p => Qeq_bool (key_num p) t) r
               = List.filter (fun p => Qeq_bool (key_num p) t) (kx :: s)).
Proof.
  intros [qx Hx] Hs. induction Hs as [|ky s' [qy Hy] Hs' IH].
  - exists [kx]. repeat split; try done. intros _. repeat constructor.
  - destruct IH as (r' & Hr' & Hperm & Hsort & Hfilt).
    cbn [insert_keyed]. rewrite (py_lt_numeric _ _ _ _ Hy Hx). res_step.
    destruct (Qltb qy qx) eqn:Hlt.
    + rewrite Hr'. res_step. exists (ky :: r'). split; [done|].
      apply Qltb_lt in Hlt.
      assert (Hkk : (key_num ky < key_num kx)%Q)
        by (unfold key_num; by rewrite Hx, Hy).
      split; [|split].
      * rewrite Hperm. apply Permutation_swap.
      * intros Hss. apply StronglySorted_inv in Hss as [Hss Hall].
        constructor; [by apply Hsort|].
        rewrite Hperm. constructor; [by apply Qlt_le_weak|done].
      * intros t. cbn [List.filter]. rewrite Hfilt. cbn [List.filter].
        destruct (Qeq_bool (key_num ky) t) eqn:E1;
          destruct (Qeq_bool (key_num kx) t) eqn:E2; try done.
        apply Qeq_bool_iff in E1, E2. rewrite E1, E2 in Hkk.
        by apply Qlt_irrefl in Hkk.
    + exists (kx :: ky :: s'). split; [done|]. split; [done|].
      apply Qltb_ge in Hlt.
      assert (Hkk : (key_num kx <= key_num ky)%Q)
        by (unfold key_num; by rewrite Hx, Hy).
      split; [|done].
      intros Hss. constructor; [done|].
      constructor; [done|].
      apply StronglySorted_inv in Hss as [_ Hall].
      eapply Forall_impl; [exact Hall|].
      intros z Hz. simpl in Hz. by eapply Qle_trans.
Qed.

Lemma sort_keyed_numeric l :
  Forall (fun p => is_Some (num_of (fst p))) l ->
  exists s, sort_keyed l = Ok s /\ s ≡ₚ l /\
    StronglySorted (fun a b => (key_num a <= key_num b)%Q) s /\
    (forall t, List.filter (fun p => Qeq_bool (key_num p) t) s
               = List.filter (fun p => Qeq_bool (key_num p) t) l).
Proof.
  induction 1 as [|kx l' Hx Hl IH].
  - exists []. repeat split; try done. constructor.
  - destruct IH as (s' & Hs' & Hperm & Hsort & Hfilt).
    destruct (insert_keyed_numeric kx s' Hx) as (r & Hr & Hp & Hso & Hf).
    { by rewrite Hperm. }
    exists r. cbn [sort_keyed]. rewrite Hs'. res_step.
    split; [done|]. split; [by rewrite Hp, Hperm|].
    split; [by apply Hso|].
    intros t. rewrite Hf. cbn [List.filter]. by rewrite Hfilt.
Qed.

Lemma time_key_numeric x :
  numeric_time x = true ->
  exists k, time_key x = Ok k /\ num_of k = Some (time_num x).
Proof.
  destruct x as [| | | | |d|]; try done. simpl.
  destruct (dict_get "time" d) as [v|]; simpl.
  - destruct (num_of v) as [q|] eqn:Hv; [|done]. eauto.
  - eauto.
Qed.

Lemma mapM_time_key l :
  Forall (fun x => numeric_time x = true) l ->
  exists ks, mapM time_key l = Ok ks /\ length ks = length l /\
    Forall (fun p => num_of (fst p) = Some (time_num (snd p))) (zip ks l).
Proof.
  induction 1 as [|x l' Hx Hl IH].
  - exists []. repeat split. constructor.
  - destruct IH as (ks & Hks & Hlen & Hall).
    destruct (time_key_numeric x Hx) as (k & Hk & Hn).
    exists (k :: ks). rewrite mapM_res_cons, Hk. res_step.
    rewrite Hks. res_step.
    split; [done|]. split; [by cbn; rewrite Hlen|].
    by constructor.
Qed.

Lemma time_of_numeric x :
  numeric_time x = true ->
  time_of x ≫= number_of = Some (inl (time_num x)).
Proof.
  destruct x as [| | | | |d|]; try done. cbn.
  destruct (dict_get "time" d) as [v|]; cbn; [|done].
  destruct v; try done.
Qed.

Lemma time_le_numeric a b :
  numeric_time a = true -> numeric_time b = true ->
  (time_num a <= time_num b)%Q -> time_le a b.
Proof.
  intros Ha Hb Hle. exists (inl (time_num a)), (inl (time_num b)).
  split; [by apply time_of_numeric|]. split; [by apply time_of_numeric|].
  by apply Qle_bool_iff.
Qed.

Lemma time_le_num a b :
  numeric_time a = true -> numeric_time b = true ->
  time_le a b -> (time_num a <= time_num b)%Q.
Proof.
  intros Ha Hb (x & y & Hx & Hy & Hle).
  rewrite (time_of_numeric _ Ha) in Hx. rewrite (time_of_numeric _ Hb) in Hy.
  injection Hx as <-. injection Hy as <-. by apply Qle_bool_iff.
Qed.

Lemma time_sorted_numeric l :
  Forall (fun x => numeric_time x = true) l -> time_sorted l ->
  StronglySorted (fun a b => (time_num a <= time_num b)%Q) l.
Proof.
  intros Hn Hs. induction Hs as [|x l Hs IH Hx]; [constructor|].
  apply Forall_cons in Hn as [Hnx Hn]. constructor; [by apply IH|].
  rewrite Forall_forall in Hx, Hn |- *. intros y Hy.
  apply time_le_num; [done|by apply Hn|by apply Hx].
Qed.

Lemma sorted_keys_times s :
  Forall (fun p => num_of (fst p) = Some (time_num (snd p))) s ->
  Forall (fun p => numeric_time (snd p) = true) s ->
  StronglySorted (fun a b => (key_num a <= key_num b)%Q) s ->
  time_sorted (map snd s).
Proof.
  intros Hall Hnum Hs. unfold time_sorted.
  induction Hs as [|p s' Hs' IH Hle]; [constructor|].
  apply Forall_cons in Hall as [Hp Hall].
  apply Forall_cons in Hnum as [Hnp Hnum].
  cbn. constructor; [by apply IH|].
  apply Forall_map. rewrite Forall_forall in Hle, Hall, Hnum |- *.
  intros z Hz. specialize (Hle z Hz). specialize (Hall z Hz).
  unfold key_num in Hle. rewrite Hp, Hall in Hle.
  apply time_le_numeric; [done|by apply Hnum|exact Hle].
Qed.

Lemma filter_keys_times t s :
  Forall (fun p => num_of (fst p) = Some (time_num (snd p))) s ->
  map snd (List.filter (fun p => Qeq_bool (key_num p) t) s)
  = at_time t (map snd s).
Proof.
  induction 1 as [|p s' Hp Hs' IH]; [done|].
  unfold at_time in *. cbn. unfold key_num at 1. rewrite Hp. cbn.
  destruct (Qeq_bool (time_num (snd p)) t); cbn; by rewrite IH.
Qed.

Lemma sort_by_time_numeric l :
  Forall (fun x => numeric_time x = true) l ->
  exists out, sort_by_time l = Ok out /\ time_sorted out /\
    (forall t, at_time t out = at_time t l) /\ out ≡ₚ l.
Proof.
  intros Hl. destruct (mapM_time_key l Hl) as (ks & Hks & Hlen & Hco).
  destruct (sort_keyed_numeric (zip ks l)) as (s & Hs & Hperm & Hsort & Hfilt).
  { eapply Forall_impl; [exact Hco|]. intros p Hp. by rewrite Hp. }
  assert (Hsnd : map snd (zip ks l) = l) by (apply snd_zip; lia).
  assert (Hcos : Forall (fun p => num_of (fst p) = Some (time_num (snd p))) s)
    by (by rewrite Hperm).
  exists (map snd s). unfold sort_by_time. rewrite Hks. res_step.
  rewrite Hs. res_step. split; [done|]. split.
  { apply sorted_keys_times; [done| |done].
    rewrite Hperm.
    apply (proj1 (Forall_map snd (fun x => numeric_time x = true) _)).
    by rewrite Hsnd. }
  split.
  - intros t. rewrite <- (filter_keys_times t s Hcos), Hfilt.
    rewrite (filter_keys_times t _ Hco). by rewrite Hsnd.
  - rewrite Hperm. by rewrite Hsnd.
Qed.


(** In the [ALL] view the gathered list is the lists of the components
    one after the other. *)
Lemma gather_all_concat fs lists :
  mapM (load_component fs) components = Ok lists ->
  gather ALL fs = Ok (concat lists).
Proof. intros H. unfold gather. by rewrite H. Qed.




(** The sample timeline itself: the record without a time first, the tie
    at time 2 in the order of the components. *)
Example timeline_sample :
  timeline ALL sample_logs
  = Ok [JObj [("description", JStr "restart"); ("component", JStr "browser")];
        JObj [("time", JNum 1); ("description", JStr "trial 1");
              ("component", JStr "ml")];
        JObj [("time", JNum 2); ("description", JStr "trial 2");
              ("component", JStr "ml")];
        JObj [("time", JNum 2); ("description", JStr "trial 3");
              ("component", JStr "browser")]].
Proof. reflexivity. Qed.

(** ** Tail mode *)

Section TailFacts.

Variable timestamp_ok : Q -> bool.
Variable stdout_ok : string -> json -> bool.

Lemma print_activity_printable now k a :
  printable timestamp_ok stdout_ok now k a = true ->
  exists l, print_activity timestamp_ok stdout_ok now k a = Ok l.
Proof.
  destruct a as [| | | | |d|]; try done. unfold printable, print_activity.
  cbn zeta. unfold fromtimestamp.
  intros [Ht ->]%andb_true_iff.
  destruct (is_number _); [|res_step; eauto].
  destruct (num_of _) as [q|]; [|done].
  rewrite Ht. res_step. eauto.
Qed.

Lemma print_new_printable now k acts :
  Forall (fun a => printable timestamp_ok stdout_ok now k a = true) acts ->
  exists printed,
    print_new timestamp_ok stdout_ok now k acts = (printed, Ok ()) /\
    Forall2 (fun a l => print_activity timestamp_ok stdout_ok now k a = Ok l)
            acts printed.
Proof.
  induction 1 as [|a acts Ha Hacts IH].
  - exists []. split; [done|constructor].
  - destruct IH as (printed & Hp & Hall).
    destruct (print_activity_printable now k a Ha) as [l Hl].
    exists (l :: printed). cbn [print_new]. rewrite Hl, Hp.
    split; [done|by constructor].
Qed.

Lemma cursor_set k acts (ls : list (string * list json)) :
  cursor (assoc_set k acts ls) k = length acts.
Proof. unfold cursor. by rewrite assoc_get_set_eq. Qed.


(** C3, amended: when the list in the file is the list seen last with
    [K] records appended, each one a record the loop can print (a
    dictionary whose time, when a number, [fromtimestamp] takes, and
    whose line [sys.stdout] can encode), exactly those are the new
    activities, each is printed, and the cursor moves on by [K]; when
    the file holds fewer records than the cursor, nothing is new and
    nothing is printed, and the cursor becomes the length of the file's
    list. *)
Theorem delta_after_growth_and_shrink fs now k ls activities :
  read_json (activity_path k) fs = Ok (JArr activities) ->
  (forall fresh,
     activities = default [] (assoc_get k ls) ++ fresh ->
     Forall (fun a => printable timestamp_ok stdout_ok now k a = true) fresh ->
     new_activities (default [] (assoc_get k ls)) activities = fresh /\
     exists printed,
       poll_component timestamp_ok stdout_ok fs now k ls
       = (assoc_set k activities ls, printed,
          match fresh with [] => false | _ => true end) /\
       Forall2 (fun a l => print_activity timestamp_ok stdout_ok now k a = Ok l)
               fresh printed /\
       cursor (assoc_set k activities ls) k = cursor ls k + length fresh) /\
  (length activities < cursor ls k ->
   new_activities (default [] (assoc_get k ls)) activities = [] /\
   poll_component timestamp_ok stdout_ok fs now k ls
     = (assoc_set k activities ls, [], false) /\
   cursor (assoc_set k activities ls) k = length activities).
Proof.
  intros Hr. split.
  - intros fresh Hact Hpr.
    assert (Hnew : new_activities (default [] (assoc_get k ls)) activities
                   = fresh).
    { unfold new_activities. rewrite Hact. by rewrite drop_app_length. }
    split; [done|].
    destruct (print_new_printable now k fresh Hpr) as (printed & Hp & Hall).
    exists printed. unfold poll_component.
    rewrite (read_json_exists _ _ _ Hr), Hr. cbn zeta. rewrite Hnew, Hp.
    split; [done|]. split; [done|].
    rewrite cursor_set. unfold cursor. rewrite Hact, length_app. done.
  - intros Hlt.
    assert (Hnew : new_activities (default [] (assoc_get k ls)) activities
                   = []).
    { unfold new_activities. apply drop_ge. unfold cursor in Hlt. lia. }
    split; [done|]. unfold poll_component.
    rewrite (read_json_exists _ _ _ Hr), Hr. cbn zeta. rewrite Hnew.
    split; [done|]. apply cursor_set.
Qed.







(** C10: a payload that is no list is passed over, with nothing printed
    and [last_seen] as it was; and where a component's turn prints an
    event or changes [last_seen], the payload was a list. *)
Theorem only_array_payload_is_tailed fs now k ls :
  (forall j, read_json (activity_path k) fs = Ok j ->
             (forall l, j <> JArr l) ->
             poll_component timestamp_ok stdout_ok fs now k ls
             = (ls, [], false)) /\
  (forall ls' printed any,
     poll_component timestamp_ok stdout_ok fs now k ls = (ls', printed, any) ->
     (exists ts msg red, In (Event ts k msg red) printed) \/ ls' <> ls ->
     exists acts, read_json (activity_path k) fs = Ok (JArr acts)).
Proof.
  split.
  - intros j Hr Hj. unfold poll_component.
    rewrite (read_json_exists _ _ _ Hr), Hr.
    destruct j; try done. by destruct (Hj l).
  - intros ls' printed any. unfold poll_component.
    destruct (path_exists _ _).
    + destruct (read_json _ _) as [j|e].
      * destruct j as [| | | |acts| |];
          try (intros [= <- <- <-] [(?&?&?&[])|?]; done).
        eauto.
      * destruct e; intros [= <- <- <-] [(?&?&?&H)|?]; try done;
          by destruct H.
    + intros [= <- <- <-] [(?&?&?&[])|?]; done.
Qed.

End TailFacts.

Lemma delta_after_growth_and_shrink_witness :
  (new_activities [sample_record] [sample_record; sample_record2]
     = [sample_record2] /\
   exists printed,
     poll_component any_timestamp any_text
       (t_fs (tail_env_of [sample_record; sample_record2])) 0 "ml"
       (seen_ml [sample_record])
     = (assoc_set "ml" [sample_record; sample_record2]
          (seen_ml [sample_record]), printed, true) /\
     Forall2 (fun a l => print_activity any_timestamp any_text 0 "ml" a = Ok l)
             [sample_record2] printed /\
     cursor (assoc_set "ml" [sample_record; sample_record2]
               (seen_ml [sample_record])) "ml"
     = cursor (seen_ml [sample_record]) "ml" + 1) /\
  (new_activities [sample_record; sample_record2] [sample_record4] = [] /\
   poll_component any_timestamp any_text
     (t_fs (tail_env_of [sample_record4])) 0 "ml"
     (seen_ml [sample_record; sample_record2])
   = (assoc_set "ml" [sample_record4]
        (seen_ml [sample_record; sample_record2]), [], false) /\
   cursor (assoc_set "ml" [sample_record4]
             (seen_ml [sample_record; sample_record2])) "ml" = 1).
Proof.
  split.
  - destruct (delta_after_growth_and_shrink any_timestamp any_text
                (t_fs (tail_env_of [sample_record; sample_record2])) 0 "ml"
                (seen_ml [sample_record]) [sample_record; sample_record2]
                eq_refl) as [Hgrow _].
    apply (Hgrow [sample_record2]).
    + reflexivity.
    + repeat constructor.
  - destruct (delta_after_growth_and_shrink any_timestamp any_text
                (t_fs (tail_env_of [sample_record4])) 0 "ml"
                (seen_ml [sample_record; sample_record2]) [sample_record4]
                eq_refl) as [_ Hshrink].
    apply Hshrink. vm_compute. lia.
Defined.

(** C3 as stated fails: tail mode has read three records of [ml]; the
    file is then replaced by one holding a single other record.  The next
    poll prints nothing, where the whole new content was to be returned;
    the cursor becomes 1. *)
Lemma shrunk_file_prints_nothing :
  cursor (fst (poll_cycle any_timestamp any_text
                 (tail_env_of [sample_record; sample_record2; sample_record3])
                 init_last_seen)) "ml" = 3 /\
  poll_cycle any_timestamp any_text (tail_env_of [sample_record4])
    (fst (poll_cycle any_timestamp any_text
            (tail_env_of [sample_record; sample_record2; sample_record3])
            init_last_seen))
  = (seen_ml [sample_record4], []) /\
  new_activities [sample_record; sample_record2; sample_record3]
    [sample_record4] <> [sample_record4].
Proof. split; [reflexivity|]. split; [reflexivity|]. discriminate. Qed.



Lemma only_array_payload_is_tailed_witness :
  poll_component any_timestamp any_text
    (log_tree "ml" (Parsed (JObj [("history", JArr [sample_record])])))
    0 "ml" init_last_seen
  = (init_last_seen, [], false).
Proof.
  apply (proj1 (only_array_payload_is_tailed any_timestamp any_text
                  (log_tree "ml"
                     (Parsed (JObj [("history", JArr [sample_record])])))
                  0 "ml" init_last_seen)
           (JObj [("history", JArr [sample_record])])).
  - reflexivity.
  - intros l. discriminate.
Defined.

(** ** The heartbeat of the dashboard *)

Section DashboardFacts.

Variable timestamp_ok : Q -> bool.

Lemma addstr_no_heartbeat env y l self :
  l <> Heartbeat -> no_heartbeat self ->
  no_heartbeat (fst (addstr env y l self)) /\
  last_update (fst (addstr env y l self)) = last_update self /\
  stream_type (fst (addstr env y l self)) = stream_type self.
Proof.
  intros Hl Hs. unfold addstr. destruct (y <? d_max_y env)%nat; [|done].
  destruct (d_addstr env y l); [|done].
  split; [|done]. unfold no_heartbeat, lines_of in *. cbn.
  rewrite map_app, in_app_iff. cbn. intros [H|[H|[]]]; [done|].
  by apply Hl.
Qed.

Lemma format_row_row a r : format_row timestamp_ok a = Ok r -> r <> Heartbeat.
Proof.
  destruct a as [| | | | |d|]; try done. unfold format_row.
  destruct (fromtimestamp _ _); [|done]. res_step. by intros [= <-].
Qed.

Lemma draw_rows_no_heartbeat env acts current_line self :
  no_heartbeat self ->
  no_heartbeat (fst (draw_rows timestamp_ok env current_line acts self)).
Proof.
  revert current_line self.
  induction acts as [|a acts IH]; intros current_line self Hs; [done|].
  cbn [draw_rows]. destruct (d_max_y env <=? current_line + 2)%nat; [done|].
  unfold mbind, action_bind, lift.
  destruct (format_row timestamp_ok a) as [r|e] eqn:Hr; [|done].
  apply format_row_row in Hr.
  destruct (addstr_no_heartbeat env current_line r self Hr Hs) as (Hn & _).
  unfold addstr_or_break.
  destruct (addstr env current_line r self) as [self' [[]|e]];
    cbn [fst] in *.
  - by apply IH.
  - by destruct e.
Qed.

Lemma display_body_no_heartbeat env self :
  Qltb 30 (d_now env - last_update self) = false ->
  no_heartbeat (fst (display_body timestamp_ok env self)).
Proof.
  intros Hq. unfold display_body.
  unfold mbind, action_bind, modify, get_self, lift.
  assert (H0 : no_heartbeat (set_screen [] self)) by (intros []).
  destruct (timeline _ _) as [acts|e]; [|done].
  destruct (addstr_no_heartbeat env 0
              (Header (value (stream_type (set_screen [] self))))
              (set_screen [] self)) as (H1 & Hu1 & _); [done|done|].
  destruct (addstr env 0 _ (set_screen [] self)) as [s1 [[]|e]];
    cbn [fst] in *; [|done].
  destruct (d_stats env) as [stats|e]; [|done].
  destruct (addstr_no_heartbeat env 2
              (SystemLine (fst stats) (snd stats)) s1) as (H2 & Hu2 & _);
    [done|done|].
  destruct (addstr env 2 _ s1) as [s2 [[]|e]];
    cbn [fst] in *; [|done].
  destruct acts as [|a acts].
  - rewrite Hu2, Hu1. cbn [last_update set_screen]. rewrite Hq. done.
  - by apply draw_rows_no_heartbeat.
Qed.

Lemma update_display_no_heartbeat env self :
  Qltb 30 (d_now env - last_update self) = false ->
  no_heartbeat (fst (update_display timestamp_ok env self)).
Proof.
  intros Hq. unfold update_display.
  pose proof (display_body_no_heartbeat env self Hq) as Hb.
  destruct (display_body timestamp_ok env self) as [self' [[]|e]];
    cbn [fst] in *; [done|].
  by apply addstr_no_heartbeat.
Qed.

Lemma update_system_stats_screen sample text now h self h' self' :
  update_system_stats sample text now (h, self) = Ok (h', self') ->
  screen self' = screen self.
Proof.
  unfold update_system_stats. destruct sample as [d|e].
  - by intros [= <- <-].
  - destruct (emergency_append _ _ _); res_step; [|done]. by intros [= <- <-].
Qed.

Lemma refresh_no_heartbeat env st :
  (d_now (r_display env) - r_now env <= 30)%Q ->
  no_heartbeat (snd st) ->
  no_heartbeat (snd (fst (refresh timestamp_ok env st))).
Proof.
  intros Hle Hs. destruct st as [h self]. unfold refresh.
  destruct (update_system_stats _ _ _ _) as [[h2 self2]|e] eqn:Hu; [|done].
  apply update_system_stats_screen in Hu.
  destruct (_screen_state_changed h2 (set_last_update (r_now env) self2))
    as [changed self4] eqn:Hc.
  assert (Hs4 : screen self4 = screen self /\ last_update self4 = r_now env).
  { unfold _screen_state_changed in Hc. injection Hc as _ <-. by cbn. }
  destruct Hs4 as [Hscr Hlu].
  destruct changed.
  - pose proof (update_display_no_heartbeat (r_display env)
                  (set_screen [] self4)) as Hd.
    destruct (update_display timestamp_ok (r_display env) (set_screen [] self4))
      as [self5 r]. cbn [fst snd] in *. apply Hd.
    cbn [last_update set_screen]. rewrite Hlu. unfold Qltb.
    apply negb_false_iff. by apply Qle_bool_iff.
  - cbn [fst snd] in *. unfold no_heartbeat, lines_of in *. by rewrite Hscr.
Qed.

Lemma run_turn_no_heartbeat env st :
  (d_now (r_display env) - r_now env <= 30)%Q ->
  no_heartbeat (snd st) ->
  no_heartbeat (snd (fst (run_turn timestamp_ok env st))).
Proof.
  intros Hle Hs. unfold run_turn.
  assert (H1 : no_heartbeat
            (snd (fst (if Qle_bool update_interval
                            (r_now env - last_update (snd st))
                       then refresh timestamp_ok env st else (st, Ok ()))))).
  { destruct (Qle_bool _ _); [by apply refresh_no_heartbeat|done]. }
  destruct (if Qle_bool _ _ then _ else _) as [st1 [[]|e]]; cbn [fst snd] in *.
  - unfold handle_key. destruct (r_key env) as [key|]; [|done].
    destruct (String.eqb key "q") eqn:Eq.
    + apply String.eqb_eq in Eq. by subst.
    + destruct (String.eqb key "c") eqn:Ec.
      * apply String.eqb_eq in Ec. subst. intros [].
      * assert (forall s : ActivityStream,
                  match key with "q" => set_running false s
                               | "c" => set_screen [] s | _ => s end = s)
          as ->; [|done].
        intros s. apply String.eqb_neq in Eq, Ec.
        repeat (match goal with
                | |- context [match ?x with _ => _ end] => destruct x
                end; try done).
  - pose proof (addstr_no_heartbeat (r_display env) 0 (LoopError e)
                  (snd st1)) as Ha.
    destruct (addstr _ _ _ _) as [self' r]. cbn [fst snd] in *.
    assert (Hn : no_heartbeat self') by (by apply Ha).
    destruct r as [[]|[]]; exact Hn.
Qed.

(** In the dashboard the heartbeat line is never drawn, however long no
    record has come, as long as each drawing follows its poll within 30
    seconds. *)
Lemma run_no_heartbeat envs st :
  Forall (fun env => (d_now (r_display env) - r_now env <= 30)%Q) envs ->
  no_heartbeat (snd st) ->
  no_heartbeat (snd (run timestamp_ok envs st)).
Proof.
  intros Hall. revert st. induction Hall as [|env envs He Hall IH];
    intros st Hs; cbn [run]; [done|].
  destruct (running (snd st)); [|done].
  pose proof (run_turn_no_heartbeat env st He Hs) as Ht.
  destruct (run_turn timestamp_ok env st) as [st' [[]|e]]; cbn [fst] in Ht;
    [by apply IH|done].
Qed.

End DashboardFacts.

(** The same miss inside [run]: while the statistics cannot be sampled
    [self.system_stats] stays the dictionary it was, so a turn that finds
    a new record in the log (and has appended an emergency record of its
    own) does not redraw, and the screen shows no row. *)
Example run_misses_new_record :
  let st := run any_timestamp
              [stats_failing_env 1000 [];
               stats_failing_env 1001 [sample_record2]]
              (init_state COGNITIVE) in
  cache_of (fst st) (snd st) "cognitive" = Some (JArr [sample_record2]) /\
  screen (snd st) = [(0, Header "cognitive"); (2, SystemLine 1 2)].
Proof. split; reflexivity. Qed.

(** [update_display] on its own, more than 30 seconds after
    [last_update], does draw the heartbeat on an empty log. *)
Example update_display_heartbeat :
  screen (fst (update_display any_timestamp
                 (r_display (dashboard_env 1000 "t1"))
                 (snd (init_state COGNITIVE))))
  = [(0, Header "cognitive"); (2, SystemLine 1 2); (4, Heartbeat)].
Proof. reflexivity. Qed.

(** C9, the code at the failing input: the [cognitive] view on an empty
    log, three turns of [run] 31 seconds apart, each one redrawing the
    screen.  No heartbeat line was ever drawn, yet none appears: [run]
    has set [last_update] to the time of the poll just before
    [update_display] compares it with the clock. *)
Theorem dashboard_heartbeat_missing :
  let turns := [dashboard_env 1000 "t1"; dashboard_env 1031 "t2";
                dashboard_env 1062 "t3"] in
  let after n :=
    snd (run any_timestamp (take n turns) (init_state COGNITIVE)) in
  screen (after 1) = [(0, Header "cognitive"); (2, SystemLine 1 2)] /\
  screen (after 2) = [(0, Header "cognitive"); (2, SystemLine 1 2)] /\
  screen (after 3) = [(0, Header "cognitive"); (2, SystemLine 1 2)] /\
  last_update (after 1) = 1000%Q /\
  last_update (after 2) = 1031%Q /\
  last_update (after 3) = 1062%Q /\
  last_screen_state (after 2) <> last_screen_state (after 1) /\
  last_screen_state (after 3) <> last_screen_state (after 2).
Proof.
  vm_compute.
  split; [reflexivity|]. split; [reflexivity|]. split; [reflexivity|].
  split; [reflexivity|]. split; [reflexivity|]. split; [reflexivity|].
  split; discriminate.
Qed.

(** ** Initialization and the rest of the working directory *)

Lemma ensure_outside k x q fs fs' :
  x <> "activity_logs" ->
  ensure_activity_file k fs = Ok fs' ->
  lookup_path (x :: q) fs' = lookup_path (x :: q) fs.
Proof.
  intros Hne. unfold ensure_activity_file.
  destruct (mkdir_p (echo_dir ++ [k]) fs) as [fs1|] eqn:Hm; res_step; [|done].
  assert (Hx : "activity_logs" <> x) by congruence.
  pose proof (mkdir_p_diverge [] "activity_logs" x [k] q _ _ Hx Hm) as H1.
  cbn [app] in H1. destruct (path_exists _ _).
  - by intros [= <-].
  - intros Hw. rewrite <- H1.
    exact (write_file_diverge [] "activity_logs" x [k; "activity.json"] q
             _ _ _ Hx Hw).
Qed.

Lemma for_each_ensure_outside ks x q fs fs' :
  x <> "activity_logs" ->
  for_each ensure_activity_file ks fs = Ok fs' ->
  lookup_path (x :: q) fs' = lookup_path (x :: q) fs.
Proof.
  intros Hne. revert fs. induction ks as [|k ks IH]; intros fs; cbn [for_each].
  - by intros [= <-].
  - destruct (ensure_activity_file k fs) as [fs1|] eqn:He; res_step; [|done].
    intros Hrest. rewrite (IH _ Hrest). by apply (ensure_outside k).
Qed.

(** X1: initialization, in either mode, leaves every path of the working
    directory that does not start with [activity_logs] as it was. *)
Theorem init_leaves_other_paths fs fs' x q :
  init_files fs = Ok fs' \/ main_init_files fs = Ok fs' ->
  x <> "activity_logs" ->
  lookup_path (x :: q) fs' = lookup_path (x :: q) fs.
Proof.
  intros [Hi|Hi] Hne.
  - by apply (for_each_ensure_outside components).
  - unfold main_init_files in Hi.
    destruct (mkdir_p echo_dir fs) as [fs0|] eqn:Hm; [|done].
    revert Hi. res_step. intros Hi.
    rewrite (for_each_ensure_outside _ _ _ _ _ Hne Hi).
    assert (Hx : "activity_logs" <> x) by congruence.
    exact (mkdir_p_diverge [] "activity_logs" x [] q _ _ Hx Hm).
Qed.

(** X2: where a regular file stands at [activity_logs], the constructor
    of the dashboard raises [NotADirectoryError] and the verbose branch
    of [main] raises [FileExistsError]. *)
Theorem init_blocked_by_file fs c :
  lookup_path echo_dir fs = Some (File c) ->
  init_files fs = Raise NotADirectoryError /\
  main_init_files fs = Raise FileExistsError.
Proof.
  destruct fs as [c0|es]; [done|]. cbn.
  unfold init_files, main_init_files, components. cbn.
  by destruct (assoc_get "activity_logs" es) as [[c1|es1]|].
Qed.

Lemma read_json_file p fs j :
  lookup_path p fs = Some (File (Parsed j)) -> read_json p fs = Ok j.
Proof. intros H. unfold read_json. by rewrite H. Qed.

Lemma sort_by_time_nil : sort_by_time [] = Ok [].
Proof. reflexivity. Qed.

Lemma load_component_empty fs k :
  read_json (activity_path k) fs = Ok (JArr []) -> load_component fs k = Ok [].
Proof.
  intros H. unfold load_component. by rewrite (read_json_exists _ _ _ H), H.
Qed.

Lemma load_single_empty fs k :
  read_json (activity_path k) fs = Ok (JArr []) -> load_single fs k = Ok [].
Proof.
  intros H. unfold load_single. by rewrite (read_json_exists _ _ _ H), H.
Qed.

Lemma value_component t : t <> ALL -> value t ∈ components.
Proof. destruct t; [done|..]; intros _; cbn; in_components. Qed.

Lemma gather_empty fs t :
  (forall k, k ∈ components ->
     read_json (activity_path k) fs = Ok (JArr [])) ->
  gather t fs = Ok [].
Proof.
  intros H. destruct t;
    try (cbn [gather value]; apply load_single_empty, H; in_components).
  unfold gather, components. cbn [mapM].
  rewrite !load_component_empty by (apply H; in_components). done.
Qed.

Lemma poll_component_empty timestamp_ok stdout_ok fs now k ls :
  read_json (activity_path k) fs = Ok (JArr []) ->
  assoc_get k ls = Some [] ->
  poll_component timestamp_ok stdout_ok fs now k ls = (ls, [], false).
Proof.
  intros H Hk. unfold poll_component.
  rewrite (read_json_exists _ _ _ H), H, Hk. cbn.
  by rewrite (assoc_set_id _ _ _ Hk).
Qed.

(** X3: after initialization of a working directory that held none of
    the seven logs, every view has an empty timeline and the first poll
    of tail mode prints no record and no warning: at most the heartbeat. *)
Theorem fresh_store_shows_nothing fs fs' :
  init_files fs = Ok fs' \/ main_init_files fs = Ok fs' ->
  (forall k, k ∈ components -> lookup_path (activity_path k) fs = None) ->
  (forall t, timeline t fs' = Ok []) /\
  (forall timestamp_ok stdout_ok now beat,
     poll_cycle timestamp_ok stdout_ok
       {| t_fs := fs'; t_now := now; t_beat := beat |} init_last_seen
     = (init_last_seen,
        if Qltb (mod30 beat) (1 # 10) then [NoEvents] else [])).
Proof.
  intros Hinit Hnone.
  assert (Hread : forall k, k ∈ components ->
            read_json (activity_path k) fs' = Ok (JArr [])).
  { intros k Hk. apply read_json_file. destruct Hinit as [Hi|Hi].
    - rewrite (for_each_ensure_file _ _ _ _ components_NoDup Hk Hi).
      by rewrite (Hnone k Hk).
    - unfold main_init_files in Hi.
      destruct (mkdir_p echo_dir fs) as [fs0|] eqn:Hm; [|done].
      revert Hi. res_step. intros Hi.
      rewrite (for_each_ensure_file _ _ _ _ components_NoDup Hk Hi).
      change (activity_path k) with (echo_dir ++ k :: ["activity.json"]).
      rewrite (mkdir_p_below _ _ _ _ _ Hm).
      change (echo_dir ++ k :: ["activity.json"]) with (activity_path k).
      by rewrite (Hnone k Hk). }
  split.
  - intros t. unfold timeline. by rewrite (gather_empty _ _ Hread).
  - intros timestamp_ok stdout_ok now beat.
    unfold poll_cycle, poll_components.
    unfold components. cbn [foldl t_fs t_now t_beat].
    rewrite !poll_component_empty by
      (first [apply Hread; in_components | reflexivity]).
    cbn. by destruct (Qltb _ _).
Qed.

Lemma init_leaves_other_paths_witness :
  exists fs',
    init_files (Dir [("notes.txt", File Malformed)]) = Ok fs' /\
    lookup_path ["notes.txt"] fs'
    = lookup_path ["notes.txt"] (Dir [("notes.txt", File Malformed)]).
Proof.
  eexists. split; [reflexivity|].
  apply (init_leaves_other_paths (Dir [("notes.txt", File Malformed)])).
  - left. reflexivity.
  - discriminate.
Defined.

Lemma init_blocked_by_file_witness :
  init_files (Dir [("activity_logs", File Malformed)])
    = Raise NotADirectoryError /\
  main_init_files (Dir [("activity_logs", File Malformed)])
    = Raise FileExistsError.
Proof.
  apply (init_blocked_by_file (Dir [("activity_logs", File Malformed)])
           Malformed).
  reflexivity.
Defined.

Lemma fresh_store_shows_nothing_witness :
  (forall t, timeline t fresh_tree = Ok []) /\
  (forall timestamp_ok stdout_ok now beat,
     poll_cycle timestamp_ok stdout_ok
       {| t_fs := fresh_tree; t_now := now; t_beat := beat |} init_last_seen
     = (init_last_seen,
        if Qltb (mod30 beat) (1 # 10) then [NoEvents] else [])).
Proof.
  apply (fresh_store_shows_nothing (Dir []) fresh_tree).
  - left. reflexivity.
  - intros k _. reflexivity.
Defined.

(** ** More on the cache of the dashboard *)

Lemma heap_set_length h a k v : length (heap_set h a k v) = length h.
Proof.
  unfold heap_set. destruct (h !! a); [|done]. apply length_insert.
Qed.

Lemma heap_set_other_loc h a k v l :
  l <> a -> heap_set h a k v !! l = h !! l.
Proof.
  intros Hne. unfold heap_set. destruct (h !! a); [|done].
  by apply list_lookup_insert_ne.
Qed.

Lemma heap_set_settled h self k v :
  (is_Some (h !! activities self) -> cache_of h self k = Some v) ->
  heap_set h (activities self) k v = h.
Proof.
  unfold cache_of, heap_set. intros Hc.
  destruct (h !! activities self) as [d|] eqn:Hd; [|done].
  specialize (Hc (ltac:(eauto))). cbn in Hc.
  unfold dict_set. rewrite (assoc_set_id _ _ _ Hc).
  by apply list_insert_id.
Qed.

(** What [update_one] does, in one of two ways. *)
Lemma update_one_cases fs a k h :
  update_one fs a k h = h \/
  exists data v,
    read_json (activity_path k) fs = Ok data /\
    normalized data = Ok (Some v) /\
    update_one fs a k h = heap_set h a k v.
Proof.
  unfold update_one, load_activities. destruct (path_exists _ _); [|by left].
  destruct (read_json _ _) as [data|e]; res_step; [|by left].
  destruct (normalized data) as [[v|]|e] eqn:Hn; res_step;
    [|by left|by left].
  right. by exists data, v.
Qed.

Lemma update_one_length fs a k h : length (update_one fs a k h) = length h.
Proof.
  destruct (update_one_cases fs a k h) as [->|(data & v & _ & _ & ->)];
    [done|apply heap_set_length].
Qed.

Lemma update_one_other_loc fs a k h l :
  l <> a -> update_one fs a k h !! l = h !! l.
Proof.
  intros Hne.
  destruct (update_one_cases fs a k h) as [->|(data & v & _ & _ & ->)];
    [done|by apply heap_set_other_loc].
Qed.

Lemma update_all_length fs a ks h :
  length (foldl (fun h k => update_one fs a k h) h ks) = length h.
Proof.
  revert h. induction ks as [|k ks IH]; intros h; cbn [foldl]; [done|].
  by rewrite IH, update_one_length.
Qed.

Lemma update_all_other_loc fs a ks h l :
  l <> a -> foldl (fun h k => update_one fs a k h) h ks !! l = h !! l.
Proof.
  intros Hne. revert h. induction ks as [|k ks IH]; intros h; cbn [foldl];
    [done|].
  by rewrite IH, update_one_other_loc.
Qed.

Lemma foldl_fixed {A B} (f : A -> B -> A) (ks : list B) (x : A) :
  (forall k, k ∈ ks -> f x k = x) -> foldl f x ks = x.
Proof.
  induction ks as [|k ks IH]; intros H; cbn [foldl]; [done|].
  rewrite (H k) by (by left). apply IH. intros k' Hk'. apply H. by right.
Qed.

(** X4: [update_activities] is idempotent: called again on unchanged
    files it leaves the store exactly as the first call left it. *)
Theorem update_activities_idempotent fs h self :
  update_activities fs (update_activities fs h self) self
  = update_activities fs h self.
Proof.
  unfold update_activities at 1. apply foldl_fixed. intros k Hk.
  destruct (update_one_cases fs (activities self) k
              (update_activities fs h self))
    as [->|(data & v & Hr & Hn & ->)]; [done|].
  apply heap_set_settled. intros Hs.
  apply (update_activities_loaded fs h self k data v); try done.
  apply lookup_lt_is_Some. apply lookup_lt_is_Some in Hs.
  unfold update_activities in Hs. by rewrite update_all_length in Hs.
Qed.

(** X5: [update_activities] writes into the dictionary [self.activities]
    and nowhere else: the store keeps its size, every other dictionary
    of the store is untouched, and the cache of a component whose file
    is absent, like any key that is no component, stays as it was. *)
Theorem update_activities_frame fs h self :
  length (update_activities fs h self) = length h /\
  (forall l, l <> activities self ->
             update_activities fs h self !! l = h !! l) /\
  (forall k,
     k ∉ components \/ lookup_path (activity_path k) fs = None ->
     cache_of (update_activities fs h self) self k = cache_of h self k).
Proof.
  split; [apply update_all_length|]. split.
  - intros l Hl. by apply update_all_other_loc.
  - intros k [Hk|Hk].
    + by apply update_all_other.
    + destruct (decide (k ∈ components)) as [Hin|Hout];
        [|by apply update_all_other].
      apply (update_activities_raised fs h self k FileNotFoundError Hin).
      unfold read_json. by rewrite Hk.
Qed.

(** X6: a payload that is valid JSON but neither a list nor a
    dictionary (a number, a string, [true], [null]), and a dictionary
    whose [history] cannot be sliced, leave the cache of the component
    as it was. *)
Theorem unusable_payload_keeps_cache fs h self k data :
  k ∈ components ->
  read_json (activity_path k) fs = Ok data ->
  ((forall l, data <> JArr l) /\ (forall d, data <> JObj d)) \/
  (exists d hist, data = JObj d /\ dict_get "history" d = Some hist /\
                  (forall l, hist <> JArr l) /\ (forall s, hist <> JStr s)) ->
  cache_of (update_activities fs h self) self k = cache_of h self k.
Proof.
  intros Hk Hr Hshape. unfold update_activities.
  destruct (update_all_one fs self k components h components_NoDup Hk)
    as (h' & _ & Hc & ->).
  rewrite <- Hc. f_equal.
  destruct (update_one_cases fs (activities self) k h')
    as [->|(data' & v & Hr' & Hn & _)]; [done|].
  rewrite Hr in Hr'. injection Hr' as <-.
  destruct Hshape as [[Hl Hd]|(d & hist & -> & Hh & Hl & Hs)].
  - destruct data; try done; [by destruct (Hl l)|by destruct (Hd l)].
  - cbn in Hn. rewrite Hh in Hn.
    destruct hist; try done; [by destruct (Hs s)|by destruct (Hl l)].
Qed.

(** X7: when the statistics cannot be sampled and the [emergency] log is
    absent, a refresh appends one record to the [emergency] cache, with
    the time of the handler and the text of the exception, and cuts
    nothing off: the cache grows by one, beyond [max_items] too. *)
Theorem failing_stats_grow_emergency timestamp_ok env h self e l :
  cache_of h self "emergency" = Some (JArr l) ->
  lookup_path (activity_path "emergency") (r_fs env) = None ->
  r_sample env = Raise e ->
  cache_of (fst (fst (refresh timestamp_ok env (h, self)))) self "emergency"
  = Some (JArr (l ++ [JObj [("time", JNum (r_sample_now env));
                            ("error",
                             JStr (String.append "Error updating stats: "
                                     (r_sample_str env)))]])).
Proof.
  intros Hc Hnone Hs. unfold refresh, update_system_stats. rewrite Hs.
  assert (Hc1 : cache_of (update_activities (r_fs env) h self) self "emergency"
                = Some (JArr l)).
  { rewrite <- Hc.
    apply (update_activities_raised _ h self "emergency" FileNotFoundError);
      [in_components|].
    unfold read_json. by rewrite Hnone. }
  unfold emergency_append. rewrite Hc1. res_step.
  assert (Hs1 : is_Some (update_activities (r_fs env) h self
                           !! activities self)).
  { unfold cache_of in Hc1.
    destruct (update_activities (r_fs env) h self !! activities self);
      [eauto|done]. }
  destruct (_screen_state_changed _ _) as [[] self4];
    [destruct (update_display _ _ _) as [self5 r]|]; cbn [fst snd];
    by apply cache_of_heap_set_eq.
Qed.

Lemma update_activities_frame_witness :
  length (update_activities sample_tree (fst (init_state ALL))
            (snd (init_state ALL)))
    = length (fst (init_state ALL)) /\
  cache_of (update_activities sample_tree (fst (init_state ALL))
              (snd (init_state ALL)))
           (snd (init_state ALL)) "cognitive"
    = cache_of (fst (init_state ALL)) (snd (init_state ALL)) "cognitive".
Proof.
  destruct (update_activities_frame sample_tree (fst (init_state ALL))
              (snd (init_state ALL))) as (Hlen & _ & Hkeep).
  split; [exact Hlen|]. apply Hkeep. right. reflexivity.
Defined.

Lemma unusable_payload_keeps_cache_witness :
  cache_of (update_activities (log_tree "ml" (Parsed (JNum 7)))
              (fst (init_state ALL)) (snd (init_state ALL)))
           (snd (init_state ALL)) "ml"
    = cache_of (fst (init_state ALL)) (snd (init_state ALL)) "ml".
Proof.
  apply (unusable_payload_keeps_cache (log_tree "ml" (Parsed (JNum 7)))
           (fst (init_state ALL)) (snd (init_state ALL)) "ml" (JNum 7)).
  - in_components.
  - reflexivity.
  - left. split; intros; discriminate.
Defined.

Lemma failing_stats_grow_emergency_witness :
  cache_of (fst (fst (refresh any_timestamp (stats_failing_env 1000 [])
                        (init_state ALL))))
           (snd (init_state ALL)) "emergency"
    = Some (JArr ([] ++ [JObj [("time", JNum 1000);
                               ("error",
                                JStr (String.append "Error updating stats: "
                                        (r_sample_str
                                           (stats_failing_env 1000 []))))]])).
Proof.
  apply (failing_stats_grow_emergency any_timestamp
           (stats_failing_env 1000 []) (fst (init_state ALL))
           (snd (init_state ALL)) FileNotFoundError []).
  - reflexivity.
  - reflexivity.
  - reflexivity.
Defined.

(** ** More on rendering *)

Section DisplayFacts.

Variable timestamp_ok : Q -> bool.

Lemma addstr_frame env y l self :
  refs_of (fst (addstr env y l self)) = refs_of self /\
  last_update (fst (addstr env y l self)) = last_update self.
Proof.
  unfold addstr. destruct (y <? d_max_y env)%nat; [|done].
  by destruct (d_addstr env y l).
Qed.

(** A call of [addstr] draws its line and returns, or raises and leaves
    the screen. *)
Lemma addstr_cases env y l self :
  addstr env y l self = (set_screen (screen self ++ [(y, l)]) self, Ok ()) \/
  exists e, addstr env y l self = (self, Raise e).
Proof.
  unfold addstr. destruct (y <? d_max_y env)%nat; [|eauto].
  destruct (d_addstr env y l) as [[]|e]; eauto.
Qed.

Lemma addstr_ok env y l self :
  y < d_max_y env -> d_addstr env y l = Ok () ->
  addstr env y l self = (set_screen (screen self ++ [(y, l)]) self, Ok ()).
Proof.
  intros Hy Ha. unfold addstr. rewrite Ha.
  by destruct (Nat.ltb_spec y (d_max_y env)); [|lia].
Qed.

Lemma addstr_fail env y l self :
  d_max_y env <= y -> addstr env y l self = (self, Raise CursesError).
Proof.
  intros Hy. unfold addstr.
  by destruct (Nat.ltb_spec y (d_max_y env)); [lia|].
Qed.

Lemma format_row_shape a r :
  format_row timestamp_ok a = Ok r ->
  exists d t,
    a = JObj d /\
    num_of (default (JNum 0) (dict_get "time" d)) = Some t /\
    timestamp_ok t = true /\
    r = Row t (default (JStr "unknown") (dict_get "component" d))
            (default (JStr "") (dict_get "description" d))
            (json_eqb (default (JStr "unknown") (dict_get "component" d))
                      (JStr "emergency")).
Proof.
  destruct a as [| | | | |d|]; try done. unfold format_row, fromtimestamp.
  destruct (num_of _) as [t|] eqn:Ht;
    [|by destruct (default (JNum 0) (dict_get "time" d))].
  destruct (timestamp_ok t) eqn:Hok; [|done]. res_step.
  intros [= <-]. by exists d, t.
Qed.

Lemma addstr_or_break_cases env y l self :
  addstr_or_break env y l self
  = (set_screen (screen self ++ [(y, l)]) self, Ok true) \/
  (addstr_or_break env y l self = (self, Ok false) \/
   exists e, addstr_or_break env y l self = (self, Raise e)) /\
  (y < d_max_y env -> d_addstr env y l <> Ok ()).
Proof.
  unfold addstr_or_break, addstr.
  destruct (Nat.ltb_spec y (d_max_y env)) as [Hy|Hy].
  - destruct (d_addstr env y l) as [[]|e]; [by left|right].
    split; [|done]. destruct e; eauto.
  - right. split; [by left|lia].
Qed.

(** What the loop over the rows draws. *)
Lemma draw_rows_spec env acts current_line self :
  exists drawn,
    screen (fst (draw_rows timestamp_ok env current_line acts self))
      = screen self ++ drawn /\
    last_update (fst (draw_rows timestamp_ok env current_line acts self))
      = last_update self /\
    refs_of (fst (draw_rows timestamp_ok env current_line acts self))
      = refs_of self /\
    map fst drawn = seq current_line (length drawn) /\
    length drawn <= length acts /\
    length drawn <= d_max_y env - 2 - current_line /\
    Forall2 (fun a r => format_row timestamp_ok a = Ok r)
            (take (length drawn) acts) (map snd drawn) /\
    (Forall (fun a => exists r, format_row timestamp_ok a = Ok r) acts ->
     (forall y l, d_addstr env y l = Ok ()) ->
     snd (draw_rows timestamp_ok env current_line acts self) = Ok () /\
     length drawn = Nat.min (length acts) (d_max_y env - 2 - current_line)).
Proof.
  revert current_line self.
  induction acts as [|a acts IH]; intros current_line self.
  - exists []. rewrite app_nil_r. cbn.
    repeat split; try done; try lia; try constructor.
  - cbn [draw_rows].
    destruct (Nat.leb_spec (d_max_y env) (current_line + 2)) as [Hle|Hlt].
    + exists []. rewrite app_nil_r. cbn.
      repeat split; try done; try lia; try constructor.
      by replace (d_max_y env - 2 - current_line) with 0 by lia.
    + unfold mbind, action_bind, lift.
      destruct (format_row timestamp_ok a) as [r|e] eqn:Hr.
      * destruct (addstr_or_break_cases env current_line r self)
          as [->|[[->|[e ->]] Hno]].
        -- destruct (IH (S current_line)
                       (set_screen (screen self ++ [(current_line, r)]) self))
             as (drawn & Hs & Hu & Hf & Hrows & Hlen & Hfit & Hfmt & Hall).
           exists ((current_line, r) :: drawn).
           rewrite Hs, Hu, Hf. cbn [screen set_screen last_update length].
           split; [by rewrite <- app_assoc|]. split; [done|].
           split; [done|].
           split; [cbn; by rewrite Hrows|]. split; [cbn; lia|].
           split; [lia|]. split; [cbn; by constructor|].
           intros Hok Hfits. apply Forall_cons in Hok as [_ Hok].
           destruct (Hall Hok Hfits) as [-> ->]. split; [done|].
           cbn [length]. lia.
        -- exists []. rewrite app_nil_r. cbn.
           repeat split; try done; try lia; try constructor;
             match goal with
             | Hfits : forall y l, d_addstr env y l = Ok () |- _ =>
                 destruct Hno; [lia|apply Hfits]
             end.
        -- exists []. rewrite app_nil_r. cbn.
           repeat split; try done; try lia; try constructor;
             match goal with
             | Hfits : forall y l, d_addstr env y l = Ok () |- _ =>
                 destruct Hno; [lia|apply Hfits]
             end.
      * exists []. rewrite app_nil_r. cbn.
        repeat split; try done; try lia; try constructor;
          match goal with
          | Hok : Forall _ (_ :: _) |- _ =>
              apply Forall_cons in Hok as [[r Hr'] _]; congruence
          end.
Qed.

(** The [try] block of [update_display], step by step. *)
Lemma display_body_unfold env self :
  display_body timestamp_ok env self =
  match timeline (stream_type self) (d_fs env) with
  | Raise e => (set_screen [] self, Raise e)
  | Ok acts =>
      match addstr env 0 (Header (value (stream_type self)))
                   (set_screen [] self) with
      | (s1, Raise e) => (s1, Raise e)
      | (s1, Ok _) =>
          match d_stats env with
          | Raise e => (s1, Raise e)
          | Ok stats =>
              match addstr env 2 (SystemLine (fst stats) (snd stats)) s1 with
              | (s2, Raise e) => (s2, Raise e)
              | (s2, Ok _) =>
                  match acts with
                  | [] =>
                      if Qltb 30 (d_now env - last_update s2) then
                        match addstr env 4 Heartbeat s2 with
                        | (s3, Ok _) =>
                            (set_last_update (d_now_set env) s3, Ok ())
                        | (s3, Raise e) => (s3, Raise e)
                        end
                      else (s2, Ok ())
                  | _ => draw_rows timestamp_ok env 4
                           (rev (last_items 50 acts)) s2
                  end
              end
          end
      end
  end.
Proof.
  unfold display_body, mbind, action_bind, modify, get_self, lift, mret,
    action_ret.
  cbn [stream_type set_screen].
  destruct (timeline _ _) as [acts|e]; [|done].
  destruct (addstr _ 0 _ _) as [s1 [[]|e]]; [|done].
  destruct (d_stats env) as [stats|e]; [|done].
  destruct (addstr _ 2 _ _) as [s2 [[]|e]]; [|done].
  destruct acts; [|done].
  destruct (Qltb _ _); [|done].
  by destruct (addstr _ 4 _ _) as [s3 [[]|e]].
Qed.

(** The screen after the [try] block: lines that are no rows, then the
    rows, which are the lines of the first records of the reversed
    window of the timeline. *)
Lemma display_body_screen env self :
  exists pre drawn acts,
    screen (fst (display_body timestamp_ok env self)) = pre ++ drawn /\
    Forall not_row pre /\
    (timeline (stream_type self) (d_fs env) = Ok acts \/ drawn = []) /\
    map fst drawn = seq 4 (length drawn) /\
    length drawn <= Nat.min 50 (d_max_y env - 6) /\
    Forall2 (fun a r => format_row timestamp_ok a = Ok r)
            (take (length drawn) (rev (last_items 50 acts)))
            (map snd drawn).
Proof.
  rewrite display_body_unfold.
  assert (Hnil : forall pre : list (nat * line), Forall not_row pre ->
            exists pre' drawn acts,
              pre = pre' ++ drawn /\ Forall not_row pre' /\
              (timeline (stream_type self) (d_fs env) = Ok acts \/
               drawn = []) /\
              map fst drawn = seq 4 (length drawn) /\
              length drawn <= Nat.min 50 (d_max_y env - 6) /\
              Forall2 (fun a r => format_row timestamp_ok a = Ok r)
                      (take (length drawn) (rev (last_items 50 acts)))
                      (map snd drawn)).
  { intros pre Hpre. exists pre, [], []. rewrite app_nil_r.
    repeat split; try done; try (by right); cbn; try lia. }
  destruct (timeline _ _) as [acts|e] eqn:Ht; [|apply Hnil; constructor].
  destruct (addstr_cases env 0 (Header (value (stream_type self)))
              (set_screen [] self)) as [->|[e ->]];
    [|apply Hnil; constructor].
  cbn [screen set_screen app].
  destruct (d_stats env) as [stats|e]; [|apply Hnil; repeat constructor].
  match goal with
  | |- context [addstr env 2 ?l ?s] =>
      destruct (addstr_cases env 2 l s) as [->|[e ->]];
        [|apply Hnil; repeat constructor]
  end.
  cbn [screen set_screen app].
  destruct acts as [|a acts].
  - destruct (Qltb _ _); [|apply Hnil; repeat constructor].
    match goal with
    | |- context [addstr env 4 ?l ?s] =>
        destruct (addstr_cases env 4 l s) as [->|[e ->]]
    end; apply Hnil; repeat constructor.
  - match goal with
    | |- context [draw_rows _ _ _ _ ?s] =>
        destruct (draw_rows_spec env (rev (last_items 50 (a :: acts))) 4 s)
          as (drawn & Hs & _ & _ & Hrows & Hlen & Hfit & Hfmt & _)
    end.
    exists [(0, Header (value (stream_type self)));
            (2, SystemLine (fst stats) (snd stats))], drawn, (a :: acts).
    split; [exact Hs|]. split; [repeat constructor|]. split; [by left|].
    split; [done|]. split; [|done].
    rewrite List.length_rev in Hlen.
    pose proof (last_items_length 50 (a :: acts)). lia.
Qed.

Lemma update_display_screen env self :
  exists pre drawn post acts,
    screen (fst (update_display timestamp_ok env self))
      = pre ++ drawn ++ post /\
    Forall not_row pre /\ Forall not_row post /\
    (timeline (stream_type self) (d_fs env) = Ok acts \/ drawn = []) /\
    map fst drawn = seq 4 (length drawn) /\
    length drawn <= Nat.min 50 (d_max_y env - 6) /\
    Forall2 (fun a r => format_row timestamp_ok a = Ok r)
            (take (length drawn) (rev (last_items 50 acts)))
            (map snd drawn).
Proof.
  destruct (display_body_screen env self)
    as (pre & drawn & acts & Hs & Hpre & Ht & Hrows & Hlen & Hfmt).
  unfold update_display.
  destruct (display_body timestamp_ok env self) as [self' [[]|e]];
    cbn [fst] in *.
  - exists pre, drawn, [], acts. rewrite app_nil_r.
    repeat split; done.
  - destruct (addstr_cases env 0 (DisplayError e) self') as [->|[e' ->]];
      cbn [fst screen set_screen].
    + exists pre, drawn, [(0, DisplayError e)], acts.
      rewrite Hs, <- app_assoc. repeat split; try done.
      by repeat constructor.
    + exists pre, drawn, [], acts. rewrite app_nil_r.
      repeat split; done.
Qed.

Lemma filter_not_row pre :
  Forall not_row pre -> List.filter is_row (map snd pre) = [].
Proof.
  induction 1 as [|e pre He Hpre IH]; [done|]. cbn.
  unfold not_row in He. by rewrite He.
Qed.

Lemma omap_not_row pre :
  Forall not_row pre ->
  omap (fun l => match l with Row t _ _ _ => Some t | _ => None end)
       (map snd pre) = [].
Proof.
  induction 1 as [|[y l] pre He Hpre IH]; [done|]. cbn.
  unfold not_row in He. cbn in He. by destruct l.
Qed.

Lemma format_row_time a r :
  format_row timestamp_ok a = Ok r ->
  exists c d al, r = Row (time_num a) c d al.
Proof.
  intros Hr. apply format_row_shape in Hr as (d & t & -> & Ht & _ & ->).
  do 3 eexists. f_equal. cbn.
  destruct (dict_get "time" d) as [v|]; cbn in *; [by rewrite Ht|].
  by injection Ht as <-.
Qed.

Lemma formatted_rows l rs :
  Forall2 (fun a r => format_row timestamp_ok a = Ok r) l rs ->
  List.filter is_row rs = rs /\
  omap (fun l => match l with Row t _ _ _ => Some t | _ => None end) rs
  = map time_num l.
Proof.
  induction 1 as [|a r l rs Hr Hl [IH1 IH2]]; [done|].
  apply format_row_time in Hr as (c & d & al & ->). cbn.
  by rewrite IH1, IH2.
Qed.

(** X8: [update_display] never shows more than 50 records, nor more than
    the screen height less six; on a screen of six rows or fewer it
    shows none. *)
Theorem display_rows_bounded env self :
  row_count (fst (update_display timestamp_ok env self))
  <= Nat.min 50 (d_max_y env - 6).
Proof.
  destruct (update_display_screen env self)
    as (pre & drawn & post & acts & Hs & Hpre & Hpost & _ & _ & Hlen & Hfmt).
  unfold row_count, lines_of. rewrite Hs, !map_app, !List.filter_app.
  rewrite (filter_not_row _ Hpre), (filter_not_row _ Hpost), app_nil_r.
  cbn [app]. destruct (formatted_rows _ _ Hfmt) as [-> _].
  by rewrite length_map.
Qed.

End DisplayFacts.

(** ** More on the timeline *)

Lemma insert_keyed_perm kx s r : insert_keyed kx s = Ok r -> r ≡ₚ kx :: s.
Proof.
  revert r. induction s as [|ky s IH]; intros r; cbn [insert_keyed].
  - by intros [= <-].
  - destruct (py_lt _ _) as [[]|]; res_step; [| |done].
    + destruct (insert_keyed kx s) as [r'|]; res_step; [|done].
      intros [= <-]. rewrite (IH r' eq_refl). apply Permutation_swap.
    + by intros [= <-].
Qed.

Lemma sort_keyed_perm l s : sort_keyed l = Ok s -> s ≡ₚ l.
Proof.
  revert s. induction l as [|kx l IH]; intros s; cbn [sort_keyed].
  - by intros [= <-].
  - destruct (sort_keyed l) as [s'|]; res_step; [|done].
    intros Hi. apply insert_keyed_perm in Hi. by rewrite Hi, (IH s' eq_refl).
Qed.

(** Whatever the keys, a sort that goes through returns the records it
    was given. *)
Lemma sort_by_time_perm l out : sort_by_time l = Ok out -> out ≡ₚ l.
Proof.
  unfold sort_by_time.
  destruct (mapM time_key l) as [ks|] eqn:Hks; res_step; [|done].
  destruct (sort_keyed (zip ks l)) as [s|] eqn:Hs; res_step; [|done].
  intros [= <-]. apply sort_keyed_perm in Hs. rewrite Hs.
  apply mapM_res_Forall2, Forall2_length in Hks.
  rewrite snd_zip by lia. done.
Qed.

Lemma gather_stamped t fs acts :
  gather t fs = Ok acts ->
  Forall (fun a => exists k, k ∈ components /\
                     (t <> ALL -> k = value t) /\ component_is k a) acts.
Proof.
  destruct t;
    try (cbn [gather value]; intros H; apply load_single_stamped in H;
         eapply Forall_impl; [exact H|]; intros a Ha; cbn beta;
         eexists; split; [|split; [done|exact Ha]]; in_components).
  unfold gather.
  destruct (mapM (load_component fs) components) as [ls|] eqn:Hm;
    res_step; [|done].
  intros [= <-]. apply mapM_res_Forall2 in Hm.
  apply Forall_concat. 
  assert (Hin : Forall (fun k => k ∈ components) components)
    by (by apply Forall_forall).
  revert Hin. generalize components at 1 3. intros ks Hks.
  induction Hm as [|k l ks' ls' Hk Hm IH]; [constructor|].
  apply Forall_cons in Hks as [Hk1 Hks]. constructor; [|by apply IH].
  apply load_component_stamped in Hk.
  eapply Forall_impl; [exact Hk|]. intros a Ha. by exists k.
Qed.

Lemma StronglySorted_take {A} (R : A -> A -> Prop) n l :
  StronglySorted R l -> StronglySorted R (take n l).
Proof.
  intros Hs. revert n. induction Hs as [|x l Hs IH Hx]; intros [|n]; cbn;
    try constructor; try apply IH. by apply Forall_take.
Qed.

Lemma StronglySorted_drop {A} (R : A -> A -> Prop) n l :
  StronglySorted R l -> StronglySorted R (drop n l).
Proof.
  intros Hs. revert n. induction Hs as [|x l Hs IH Hx]; intros [|n]; cbn;
    try constructor; try done.
Qed.

Lemma StronglySorted_snoc {A} (R : A -> A -> Prop) l x :
  StronglySorted R l -> Forall (fun y => R y x) l ->
  StronglySorted R (l ++ [x]).
Proof.
  induction 1 as [|y l Hs IH Hy]; intros Hx; cbn.
  - repeat constructor.
  - apply Forall_cons in Hx as [Hyx Hx]. constructor; [by apply IH|].
    apply Forall_app. split; [done|by constructor].
Qed.

Lemma StronglySorted_rev {A} (R : A -> A -> Prop) l :
  StronglySorted R l -> StronglySorted (fun a b => R b a) (rev l).
Proof.
  induction 1 as [|x l Hs IH Hx]; [constructor|]. cbn [rev].
  apply StronglySorted_snoc; [done|]. by apply List.Forall_rev.
Qed.

Lemma StronglySorted_map {A B} (f : A -> B) (R : B -> B -> Prop) l :
  StronglySorted (fun a b => R (f a) (f b)) l -> StronglySorted R (map f l).
Proof.
  induction 1 as [|x l Hs IH Hx]; cbn; constructor; [done|].
  by apply Forall_map.
Qed.

Lemma in_window {A} (x : A) n m l :
  In x (take n (rev (last_items m l))) -> In x l.
Proof.
  intros H. apply list_elem_of_In in H.
  apply subseteq_take in H. apply list_elem_of_In, List.in_rev in H.
  apply list_elem_of_In in H. unfold last_items in H.
  apply subseteq_drop in H. by apply list_elem_of_In.
Qed.

Section DisplayOrder.

Variable timestamp_ok : Q -> bool.

(** X9: the rows of [update_display] run from the most recent record
    down: where the gathered records have a numeric [time] or none, the
    times of the rows on the screen, read from the top, never increase. *)
Theorem display_most_recent_first env self acts :
  gather (stream_type self) (d_fs env) = Ok acts ->
  Forall (fun x => numeric_time x = true) acts ->
  StronglySorted (fun a b => (b <= a)%Q)
    (row_times (fst (update_display timestamp_ok env self))).
Proof.
  intros Hg Hn.
  destruct (sort_by_time_numeric acts Hn)
    as (out & Hout & Hsorted & _ & Hperm).
  apply time_sorted_numeric in Hsorted; [|by rewrite Hperm].
  destruct (update_display_screen timestamp_ok env self)
    as (pre & drawn & post & acts' & Hs & Hpre & Hpost & Ht & _ & _ & Hfmt).
  unfold row_times, lines_of. rewrite Hs, !map_app, !omap_app.
  rewrite (omap_not_row _ Hpre), (omap_not_row _ Hpost), app_nil_r.
  cbn [app]. destruct (formatted_rows _ _ _ Hfmt) as [_ ->].
  destruct Ht as [Ht| ->]; [|constructor].
  unfold timeline in Ht. rewrite Hg in Ht. revert Ht. res_step.
  rewrite Hout. intros [= <-].
  apply StronglySorted_map, StronglySorted_take, StronglySorted_rev.
  unfold last_items. by apply StronglySorted_drop.
Qed.

End DisplayOrder.

Lemma display_most_recent_first_witness :
  StronglySorted (fun a b => (b <= a)%Q)
    (row_times (fst (update_display any_timestamp
                       (display_env_of sample_logs 24)
                       (snd (init_state ALL))))).
Proof.
  eapply (display_most_recent_first any_timestamp
            (display_env_of sample_logs 24) (snd (init_state ALL))).
  - reflexivity.
  - repeat constructor.
Defined.

Lemma load_component_malformed fs k :
  lookup_path (activity_path k) fs = Some (File Malformed) ->
  load_component fs k = Ok [] /\ load_single fs k = Ok [].
Proof.
  intros Hl. unfold load_component, load_single, path_exists, read_json.
  by rewrite Hl.
Qed.

Lemma component_is_inj k k' a : component_is k a -> component_is k' a -> k = k'.
Proof.
  intros (d & -> & Hc) (d' & [= <-] & Hc'). congruence.
Qed.

(** The gathered records of a component whose log does not parse: none. *)
Lemma gather_skips_malformed t fs k acts :
  lookup_path (activity_path k) fs = Some (File Malformed) ->
  gather t fs = Ok acts ->
  Forall (fun a => ~ component_is k a) acts.
Proof.
  intros Hl. destruct (load_component_malformed fs k Hl) as [Hc Hs].
  assert (Hsingle : forall k', load_single fs k' = Ok acts ->
            Forall (fun a => ~ component_is k a) acts).
  { intros k' Hk'. destruct (decide (k' = k)) as [->|Hne].
    - rewrite Hs in Hk'. injection Hk' as <-. constructor.
    - apply load_single_stamped in Hk'.
      eapply Forall_impl; [exact Hk'|]. intros a Ha Hka.
      exact (Hne (component_is_inj _ _ a Ha Hka)). }
  destruct t; try (cbn [gather]; apply Hsingle).
  unfold gather.
  destruct (mapM (load_component fs) components) as [ls|] eqn:Hm;
    res_step; [|done].
  intros [= <-]. clear Hsingle.
  apply mapM_res_Forall2 in Hm. apply Forall_concat.
  induction Hm as [|k' l ks' ls' Hk Hm IH]; [constructor|].
  constructor; [|done].
  destruct (decide (k' = k)) as [->|Hne].
  - rewrite Hc in Hk. injection Hk as <-. constructor.
  - apply load_component_stamped in Hk.
    eapply Forall_impl; [exact Hk|]. intros a Ha Hka.
    exact (Hne (component_is_inj _ _ a Ha Hka)).
Qed.

Lemma Forall2_from_left {A B} (R : A -> B -> Prop) l k :
  Forall2 R l k -> Forall (fun y => exists x, In x l /\ R x y) k.
Proof.
  induction 1 as [|x y l k Hxy Hlk IH]; constructor.
  - exists x. split; [by left|done].
  - eapply Forall_impl; [exact IH|]. intros y' (x' & Hin & Hr).
    exists x'. split; [by right|done].
Qed.

Lemma mapM_stamp_no_dict tag l acts :
  Forall (fun r => is_dict r = false) l ->
  mapM (stamp tag) l = Ok acts -> acts = [].
Proof.
  destruct 1 as [|r l Hr Hl]; [by intros [= <-]|].
  rewrite mapM_res_cons. by destruct r.
Qed.

Lemma iter_items_records tag v items acts :
  iter_items v = Ok items -> mapM (stamp tag) items = Ok acts ->
  acts = [] \/ v = JArr items.
Proof.
  destruct v as [| | |s|l|d|]; cbn [iter_items]; try done.
  - intros [= <-] Hm. left. apply (mapM_stamp_no_dict tag _ _) in Hm; [done|].
    apply Forall_forall. intros r [c [-> _]]%list_elem_of_fmap. done.
  - intros [= <-] _. by right.
  - intros [= <-] Hm. left. apply (mapM_stamp_no_dict tag _ _) in Hm; [done|].
    apply Forall_forall. intros r [c [-> _]]%list_elem_of_fmap. done.
Qed.

(** Each record a component brings is a record of the list in its log,
    stamped. *)
Lemma load_component_from_log fs k acts :
  load_component fs k = Ok acts ->
  Forall (fun a => exists items r,
            read_json (activity_path k) fs = Ok (JArr items) /\
            In r items /\ stamped_as k r a) acts.
Proof.
  unfold load_component.
  destruct (path_exists _ _); [|intros [= <-]; constructor].
  destruct (read_json _ _) as [v|e].
  - destruct (iter_items v) as [items|] eqn:Hi; res_step; [|done].
    intros Hm. destruct (iter_items_records k v items acts Hi Hm) as [->| ->];
      [constructor|].
    apply mapM_stamp_stamped, Forall2_from_left in Hm.
    eapply Forall_impl; [exact Hm|]. intros a (r & Hr & Hst).
    by exists items, r.
  - destruct e; try done. intros [= <-]. constructor.
Qed.

Lemma load_single_from_log fs k acts :
  load_single fs k = Ok acts ->
  Forall (fun a => exists items r,
            read_json (activity_path k) fs = Ok (JArr items) /\
            In r items /\ stamped_as k r a) acts.
Proof.
  unfold load_single.
  destruct (path_exists _ _); [|intros [= <-]; constructor].
  destruct (read_json _ _) as [v|e].
  - destruct (iter_items v) as [items|] eqn:Hi; res_step; [|done].
    destruct (mapM (stamp k) items) as [stamped|] eqn:Hm; res_step; [|done].
    intros Hv. assert (stamped = acts) as -> by (destruct v; congruence).
    destruct (iter_items_records k v items acts Hi Hm) as [->| ->];
      [constructor|].
    apply mapM_stamp_stamped, Forall2_from_left in Hm.
    eapply Forall_impl; [exact Hm|]. intros a (r & Hr & Hst).
    by exists items, r.
  - destruct e; try done. intros [= <-]. constructor.
Qed.

Lemma gather_from_logs t fs acts :
  gather t fs = Ok acts ->
  Forall (fun a => exists k items r,
            k ∈ components /\ (t <> ALL -> k = value t) /\
            read_json (activity_path k) fs = Ok (JArr items) /\
            In r items /\ stamped_as k r a) acts.
Proof.
  destruct t;
    try (cbn [gather value]; intros H; apply load_single_from_log in H;
         eapply Forall_impl; [exact H|];
         intros a (items & r & Hr & Hin & Hst); cbn beta;
         eexists; exists items, r;
         split; [|split; [done|split; [exact Hr|split; [exact Hin|exact Hst]]]];
         in_components).
  unfold gather.
  destruct (mapM (load_component fs) components) as [ls|] eqn:Hm;
    res_step; [|done].
  intros [= <-]. apply mapM_res_Forall2 in Hm.
  apply Forall_concat.
  assert (Hin : Forall (fun k => k ∈ components) components)
    by (by apply Forall_forall).
  revert Hin. generalize components at 1 3. intros ks Hks.
  induction Hm as [|k l ks' ls' Hk Hm IH]; [constructor|].
  apply Forall_cons in Hks as [Hk1 Hks]. constructor; [|by apply IH].
  apply load_component_from_log in Hk.
  eapply Forall_impl; [exact Hk|].
  intros a (items & r & Hr & Hin & Hst). by exists k, items, r.
Qed.

Section DisplayRecords.

Variable timestamp_ok : Q -> bool.

(** A row on the screen is the line of one of the gathered records. *)
Lemma display_row_record env self y r :
  In (y, r) (screen (fst (update_display timestamp_ok env self))) ->
  is_row r = true ->
  exists gathered a,
    gather (stream_type self) (d_fs env) = Ok gathered /\
    In a gathered /\ format_row timestamp_ok a = Ok r.
Proof.
  destruct (update_display_screen timestamp_ok env self)
    as (pre & drawn & post & acts & Hs & Hpre & Hpost & Ht & _ & _ & Hfmt).
  rewrite Hs, !in_app_iff. intros Hin Hrow.
  assert (Hd : In (y, r) drawn).
  { destruct Hin as [Hin|[Hin|Hin]]; [|done|].
    - rewrite Forall_forall in Hpre.
      apply list_elem_of_In, Hpre in Hin. unfold not_row in Hin.
      cbn in Hin. congruence.
    - rewrite Forall_forall in Hpost.
      apply list_elem_of_In, Hpost in Hin. unfold not_row in Hin.
      cbn in Hin. congruence. }
  destruct Ht as [Ht| ->]; [|done].
  assert (Hr : r ∈ map snd drawn).
  { apply list_elem_of_In, in_map_iff. by exists (y, r). }
  apply list_elem_of_lookup in Hr as [i Hi].
  destruct (Forall2_lookup_r _ _ _ _ _ Hfmt Hi) as (a & Ha & Hfa).
  assert (Hain : In a acts).
  { apply (in_window a (length drawn) 50). apply list_elem_of_In.
    apply list_elem_of_lookup. eauto. }
  unfold timeline in Ht.
  destruct (gather (stream_type self) (d_fs env)) as [gathered|] eqn:Hg;
    [|done].
  revert Ht. res_step. intros Ht. apply sort_by_time_perm in Ht.
  exists gathered, a. split; [done|]. split; [|done].
  apply list_elem_of_In. apply list_elem_of_In in Hain. by rewrite <- Ht.
Qed.

(** X10: every row [update_display] draws shows a record of the list in
    the log of one of the seven components, with the time and the
    description of that record, and names that component, whatever
    [component] the producer wrote in the record; it is marked as an
    alert exactly when that component is [emergency].  In a single view
    the component is the one of the view. *)
Theorem display_rows_name_their_log env self y t c d alert :
  In (y, Row t c d alert)
     (screen (fst (update_display timestamp_ok env self))) ->
  exists k items r,
    k ∈ components /\
    (stream_type self <> ALL -> k = value (stream_type self)) /\
    read_json (activity_path k) (d_fs env) = Ok (JArr items) /\
    In (JObj r) items /\
    c = JStr k /\ alert = String.eqb k "emergency" /\
    d = default (JStr "") (dict_get "description" r) /\
    num_of (default (JNum 0) (dict_get "time" r)) = Some t.
Proof.
  intros Hin.
  destruct (display_row_record env self y _ Hin eq_refl)
    as (gathered & a & Hg & Ha & Hrow).
  apply gather_from_logs in Hg. rewrite Forall_forall in Hg.
  destruct (Hg a)
    as (k & items & r0 & Hk & Hview & Hread & Hr0 & d0 & d' & -> & ->
        & Hc & Hsame); [by apply list_elem_of_In|].
  exists k, items, d0. split; [done|]. split; [done|]. split; [done|].
  split; [done|].
  apply format_row_shape in Hrow as (d1 & t1 & [= <-] & Ht & _ & Hrow).
  rewrite Hc in Hrow. cbn [default] in Hrow.
  rewrite (Hsame "description") in Hrow by done.
  rewrite (Hsame "time") in Ht by done.
  by injection Hrow as -> -> -> ->.
Qed.

(** X11: a component whose log does not parse has no row on the screen,
    in any view: the display does not fall back on the records the
    cache still holds for it. *)
Theorem malformed_log_has_no_rows env self k y t d alert :
  lookup_path (activity_path k) (d_fs env) = Some (File Malformed) ->
  ~ In (y, Row t (JStr k) d alert)
       (screen (fst (update_display timestamp_ok env self))).
Proof.
  intros Hl Hin.
  destruct (display_row_record env self y _ Hin eq_refl)
    as (gathered & a & Hg & Ha & Hrow).
  pose proof (gather_skips_malformed _ _ _ _ Hl Hg) as Hskip.
  pose proof (gather_stamped _ _ _ Hg) as Hst.
  rewrite Forall_forall in Hskip, Hst. apply list_elem_of_In in Ha.
  destruct (Hst a Ha) as (k' & _ & _ & d' & -> & Hc).
  apply (Hskip _ Ha).
  apply format_row_shape in Hrow as (d0 & t0 & [= <-] & _ & _ & Hrow).
  rewrite Hc in Hrow. cbn [default] in Hrow. injection Hrow as _ Hk _ _.
  rewrite Hk. by exists d'.
Qed.

(** X12: a log whose payload is a dictionary with at least one key, the
    shape [update_activities] takes as one record or as a [history], is
    more than [update_display] can show: in the view of that component,
    and in the [ALL] view, the [try] block raises before anything is
    drawn, and on a screen whose first row takes the error line the
    screen holds that line and nothing else. *)
Theorem dict_payload_breaks_display env self k kv d :
  k ∈ components ->
  stream_type self = ALL \/ value (stream_type self) = k ->
  read_json (activity_path k) (d_fs env) = Ok (JObj (kv :: d)) ->
  1 <= d_max_y env ->
  (forall e, d_addstr env 0 (DisplayError e) = Ok ()) ->
  exists e,
    display_body timestamp_ok env self = (set_screen [] self, Raise e) /\
    screen (fst (update_display timestamp_ok env self)) = [(0, DisplayError e)]
    /\ snd (update_display timestamp_ok env self) = Ok ().
Proof.
  intros Hk Hview Hr Hy Hrow0.
  destruct (load_component_dict _ _ _ _ Hr) as [Hc Hs].
  assert (Hg : exists e, gather (stream_type self) (d_fs env) = Raise e).
  { assert (Hall : exists e,
              (ls ← mapM (load_component (d_fs env)) components;
               Ok (concat ls)) = Raise e).
    { destruct (mapM_res_raise (load_component (d_fs env)) components k
                  TypeError Hk Hc) as [e' ->]. res_step. eauto. }
    destruct Hview as [->|Hv]; [exact Hall|].
    destruct (stream_type self); [exact Hall|..];
      cbn [gather]; rewrite Hv, Hs; eauto. }
  destruct Hg as [e Hg]. exists e.
  unfold update_display. rewrite display_body_unfold.
  unfold timeline. rewrite Hg. res_step.
  rewrite addstr_ok by (first [apply Hrow0|cbn; lia]). done.
Qed.

(** X13: on a screen of one or two rows whose first row takes the error
    line, [update_display] always ends on the error line: the system
    line has no row to go to, if the header or the statistics have not
    failed before it. *)
Theorem small_screen_shows_error env self :
  1 <= d_max_y env <= 2 ->
  (forall e, d_addstr env 0 (DisplayError e) = Ok ()) ->
  exists pre e,
    screen (fst (update_display timestamp_ok env self))
    = pre ++ [(0, DisplayError e)] /\
    snd (update_display timestamp_ok env self) = Ok ().
Proof.
  intros Hy Hrow0. unfold update_display. rewrite display_body_unfold.
  destruct (timeline _ _) as [acts|e].
  - destruct (addstr_cases env 0 (Header (value (stream_type self)))
                (set_screen [] self)) as [->|[e ->]].
    + destruct (d_stats env) as [stats|e].
      * rewrite addstr_fail by lia.
        rewrite addstr_ok by (first [apply Hrow0|cbn; lia]).
        cbn [fst snd screen set_screen]. eauto.
      * rewrite addstr_ok by (first [apply Hrow0|cbn; lia]).
        cbn [fst snd screen set_screen]. eauto.
    + rewrite addstr_ok by (first [apply Hrow0|cbn; lia]).
      cbn [fst snd screen set_screen]. exists [], e. done.
  - rewrite addstr_ok by (first [apply Hrow0|cbn; lia]).
    cbn [fst snd screen set_screen]. exists [], e. done.
Qed.

Lemma format_row_ok a :
  numeric_time a = true -> timestamp_ok (time_num a) = true ->
  exists r, format_row timestamp_ok a = Ok r.
Proof.
  destruct a as [| | | | |d|]; try done.
  unfold format_row, fromtimestamp, numeric_time, time_num.
  destruct (dict_get "time" d) as [v|]; cbn.
  - destruct (num_of v) as [q|]; [|done]. cbn. intros _ Hok.
    rewrite Hok. eauto.
  - intros _ Hok. rewrite Hok. eauto.
Qed.

Lemma last_items_min {A} n (l : list A) :
  length (last_items n l) = Nat.min n (length l).
Proof. unfold last_items. rewrite length_drop. lia. Qed.

(** X14: with logs whose records have a finite [time] (or none) that the
    platform can format, statistics that can be read, a screen of five
    rows or more and a terminal that takes every line it is given,
    [update_display] draws no error line and shows as many records as
    fit: all of them, up to 50 and up to the height less six. *)
Theorem display_shows_what_fits env self acts stats :
  gather (stream_type self) (d_fs env) = Ok acts ->
  Forall (fun a => numeric_time a = true) acts ->
  Forall (fun a => timestamp_ok (time_num a) = true) acts ->
  d_stats env = Ok stats ->
  5 <= d_max_y env ->
  (forall y l, d_addstr env y l = Ok ()) ->
  snd (update_display timestamp_ok env self) = Ok () /\
  (forall y e,
     ~ In (y, DisplayError e)
          (screen (fst (update_display timestamp_ok env self)))) /\
  row_count (fst (update_display timestamp_ok env self))
  = Nat.min (length acts) (Nat.min 50 (d_max_y env - 6)).
Proof.
  intros Hg Hn Hok Hstats Hy Hfits.
  destruct (sort_by_time_numeric acts Hn) as (out & Hout & _ & _ & Hperm).
  assert (Ht : timeline (stream_type self) (d_fs env) = Ok out).
  { unfold timeline. by rewrite Hg. }
  unfold update_display. rewrite display_body_unfold, Ht, Hstats.
  rewrite addstr_ok by (first [apply Hfits|cbn; lia]).
  rewrite addstr_ok by (first [apply Hfits|cbn; lia]).
  cbn [screen set_screen app last_update].
  destruct out as [|a out].
  - apply Permutation_nil_l in Hperm. subst acts. cbn [length Nat.min].
    destruct (Qltb _ _).
    + rewrite addstr_ok by (first [apply Hfits|cbn; lia]).
      cbn. split; [done|]. split; [|done].
      intros y e [H|[H|[H|[]]]]; discriminate.
    + cbn. split; [done|]. split; [|done].
      intros y e [H|[H|[]]]; discriminate.
  - set (s2 := set_screen _ (set_screen _ (set_screen [] self))).
    destruct (draw_rows_spec timestamp_ok env
                (rev (last_items 50 (a :: out))) 4 s2)
      as (drawn & Hs & _ & _ & _ & _ & _ & Hfmt & Hall).
    destruct Hall as [Hres Hlen]; [|exact Hfits|].
    { apply List.Forall_rev. unfold last_items. apply Forall_drop.
      rewrite Forall_forall. intros x Hx. rewrite Hperm in Hx.
      rewrite Forall_forall in Hn, Hok.
      apply format_row_ok; [by apply Hn|by apply Hok]. }
    destruct (draw_rows _ _ _ _ s2) as [s3 r]. cbn [fst snd] in *.
    subst r. cbn [fst snd]. split; [done|].
    destruct (formatted_rows _ _ _ Hfmt) as [Hrows _].
    split.
    + intros y e. rewrite Hs. subst s2. cbn [screen set_screen].
      intros [H|[H|H]]; try discriminate.
      assert (Hr : In (DisplayError e) (map snd drawn))
        by (apply in_map_iff; by exists (y, DisplayError e)).
      rewrite <- Hrows in Hr. apply filter_In in Hr as [_ Hr]. done.
    + unfold row_count, lines_of. rewrite Hs. subst s2.
      cbn [screen set_screen map app List.filter snd is_row].
      rewrite Hrows, length_map, Hlen, List.length_rev, last_items_min.
      rewrite <- Hperm. cbn [length]. lia.
Qed.

(** X15: [update_display] changes the screen and, when it draws the
    heartbeat, [last_update]; nothing else of the object. *)
Theorem update_display_frame env self :
  refs_of (fst (update_display timestamp_ok env self)) = refs_of self /\
  (last_update (fst (update_display timestamp_ok env self))
     = last_update self \/
   last_update (fst (update_display timestamp_ok env self)) = d_now_set env /\
   In (4, Heartbeat) (screen (fst (update_display timestamp_ok env self)))).
Proof.
  unfold update_display. rewrite display_body_unfold.
  assert (Herr : forall s e,
            refs_of (fst (addstr env 0 (DisplayError e) s))
              = refs_of s /\
            last_update (fst (addstr env 0 (DisplayError e) s))
              = last_update s) by (intros; apply addstr_frame).
  destruct (timeline _ _) as [acts|e].
  2:{ cbv beta iota; cbn [fst].
      destruct (Herr (set_screen [] self) e) as [Hr Hu].
      split; [by rewrite Hr|left; by rewrite Hu]. }
  destruct (addstr_frame env 0 (Header (value (stream_type self)))
              (set_screen [] self)) as [Hr1 Hu1].
  destruct (addstr _ 0 (Header _) _) as [s1 [[]|e]]; cbn [fst] in *.
  2:{ cbv beta iota; cbn [fst]. destruct (Herr s1 e) as [Hr Hu].
      split; [by rewrite Hr, Hr1|left; by rewrite Hu, Hu1]. }
  destruct (d_stats env) as [stats|e].
  2:{ cbv beta iota; cbn [fst]. destruct (Herr s1 e) as [Hr Hu].
      split; [by rewrite Hr, Hr1|left; by rewrite Hu, Hu1]. }
  destruct (addstr_frame env 2
              (SystemLine (fst stats) (snd stats)) s1) as [Hr2 Hu2].
  destruct (addstr _ 2 _ s1) as [s2 [[]|e]]; cbn [fst] in *.
  2:{ cbv beta iota; cbn [fst]. destruct (Herr s2 e) as [Hr Hu].
      split; [by rewrite Hr, Hr2, Hr1|left; by rewrite Hu, Hu2, Hu1]. }
  destruct acts as [|a acts].
  - destruct (Qltb _ _);
      [|cbv beta iota; cbn [fst]; split;
        [by rewrite Hr2, Hr1|left; by rewrite Hu2, Hu1]].
    destruct (addstr_cases env 4 Heartbeat s2) as [->|[e ->]].
    + cbv beta iota; cbn [fst].
      split; [change (refs_of s2 = refs_of self); by rewrite Hr2, Hr1|].
      right. split; [reflexivity|]. cbn [screen set_screen set_last_update].
      apply in_app_iff. right. by left.
    + cbv beta iota; cbn [fst].
      destruct (Herr s2 e) as [Hr Hu].
      split; [by rewrite Hr, Hr2, Hr1|left; by rewrite Hu, Hu2, Hu1].
  - destruct (draw_rows_spec timestamp_ok env
                (rev (last_items 50 (a :: acts))) 4 s2)
      as (drawn & _ & Hu3 & Hr3 & _).
    destruct (draw_rows _ _ _ _ s2) as [s3 [[]|e]]; cbn [fst] in *.
    + cbv beta iota; cbn [fst].
      split; [by rewrite Hr3, Hr2, Hr1|left; by rewrite Hu3, Hu2, Hu1].
    + cbv beta iota; cbn [fst]. destruct (Herr s3 e) as [Hr Hu].
      split; [by rewrite Hr, Hr3, Hr2, Hr1|left; by rewrite Hu, Hu3, Hu2, Hu1].
Qed.

(** X16: [update_display] raises only from its own handler: when the
    [try] block has raised and the error line cannot be written, for
    want of a row or because the terminal refuses the text.  On a
    terminal whose first row takes the error line it raises on a screen
    without rows only, and then [curses.error]. *)
Theorem update_display_absorbs_errors env self :
  (forall e',
     snd (update_display timestamp_ok env self) = Raise e' ->
     exists e,
       snd (display_body timestamp_ok env self) = Raise e /\
       (d_max_y env = 0 /\ e' = CursesError \/
        0 < d_max_y env /\ d_addstr env 0 (DisplayError e) = Raise e')) /\
  ((forall e, d_addstr env 0 (DisplayError e) = Ok ()) ->
   snd (update_display timestamp_ok env self)
   = if (0 <? d_max_y env)%nat then Ok () else Raise CursesError).
Proof.
  split.
  - intros e'. unfold update_display.
    destruct (display_body timestamp_ok env self) as [s [[]|e]]; [done|].
    cbn [snd]. intros Hraise. exists e. split; [done|].
    revert Hraise. unfold addstr.
    destruct (Nat.ltb_spec 0 (d_max_y env)) as [Hy|Hy].
    + destruct (d_addstr env 0 (DisplayError e)) as [[]|e0]; [done|].
      intros [= ->]. right. split; [lia|done].
    + intros [= <-]. left. split; [lia|done].
  - intros Hrow0. unfold update_display.
    destruct (Nat.ltb_spec 0 (d_max_y env)) as [Hy|Hy].
    + destruct (display_body timestamp_ok env self) as [s [[]|e]]; [done|].
      by rewrite addstr_ok by (first [apply Hrow0|cbn; lia]).
    + rewrite display_body_unfold. destruct (timeline _ _) as [acts|e].
      * rewrite (addstr_fail _ 0) by lia. cbv beta iota.
        by rewrite addstr_fail by lia.
      * cbv beta iota. by rewrite addstr_fail by lia.
Qed.

End DisplayRecords.

(** The record of [ml] in the sample directory carries the [component]
    its producer wrote, [browser]; its row names [ml]. *)
Lemma display_rows_name_their_log_witness :
  exists k items r,
    k ∈ components /\
    (stream_type (snd (init_state ALL)) <> ALL ->
     k = value (stream_type (snd (init_state ALL)))) /\
    read_json (activity_path k) sample_tree = Ok (JArr items) /\
    In (JObj r) items /\
    JStr "ml" = JStr k /\ false = String.eqb k "emergency" /\
    JStr "trial 1" = default (JStr "") (dict_get "description" r) /\
    num_of (default (JNum 0) (dict_get "time" r)) = Some 1%Q.
Proof.
  apply (display_rows_name_their_log any_timestamp
           (display_env_of sample_tree 24) (snd (init_state ALL))
           4 1 (JStr "ml") (JStr "trial 1") false).
  vm_compute. right. right. left. reflexivity.
Defined.

Lemma malformed_log_has_no_rows_witness :
  ~ In (4, Row 1 (JStr "browser") (JStr "trial 1") false)
       (screen (fst (update_display any_timestamp
                       (display_env_of (log_tree "browser" Malformed) 24)
                       (snd (init_state ALL))))).
Proof.
  apply (malformed_log_has_no_rows any_timestamp
           (display_env_of (log_tree "browser" Malformed) 24)
           (snd (init_state ALL)) "browser").
  reflexivity.
Defined.

Lemma dict_payload_breaks_display_witness :
  exists e,
    display_body any_timestamp
      (display_env_of (log_tree "ml" (Parsed sample_record2)) 24)
      (snd (init_state ALL))
    = (set_screen [] (snd (init_state ALL)), Raise e) /\
    screen (fst (update_display any_timestamp
                   (display_env_of (log_tree "ml" (Parsed sample_record2)) 24)
                   (snd (init_state ALL))))
    = [(0, DisplayError e)] /\
    snd (update_display any_timestamp
           (display_env_of (log_tree "ml" (Parsed sample_record2)) 24)
           (snd (init_state ALL))) = Ok ().
Proof.
  apply (dict_payload_breaks_display any_timestamp
           (display_env_of (log_tree "ml" (Parsed sample_record2)) 24)
           (snd (init_state ALL)) "ml"
           ("time", JNum 2) [("description", JStr "trial 2")]).
  - in_components.
  - left. reflexivity.
  - reflexivity.
  - simpl. lia.
  - reflexivity.
Defined.

Lemma small_screen_shows_error_witness :
  exists pre e,
    screen (fst (update_display any_timestamp (display_env_of sample_logs 2)
                   (snd (init_state ALL))))
    = pre ++ [(0, DisplayError e)] /\
    snd (update_display any_timestamp (display_env_of sample_logs 2)
           (snd (init_state ALL))) = Ok ().
Proof.
  apply (small_screen_shows_error any_timestamp
           (display_env_of sample_logs 2) (snd (init_state ALL))).
  - simpl. lia.
  - reflexivity.
Defined.

Lemma display_shows_what_fits_witness :
  exists acts,
    gather ALL sample_logs = Ok acts /\
    snd (update_display any_timestamp (display_env_of sample_logs 24)
           (snd (init_state ALL))) = Ok () /\
    (forall y e,
       ~ In (y, DisplayError e)
            (screen (fst (update_display any_timestamp
                            (display_env_of sample_logs 24)
                            (snd (init_state ALL)))))) /\
    row_count (fst (update_display any_timestamp
                      (display_env_of sample_logs 24)
                      (snd (init_state ALL))))
    = Nat.min (length acts) (Nat.min 50 (24 - 6)).
Proof.
  eexists. split; [reflexivity|].
  apply (display_shows_what_fits any_timestamp
           (display_env_of sample_logs 24) (snd (init_state ALL)) _
           (1%Q, 2%Q)).
  - reflexivity.
  - repeat constructor.
  - repeat constructor.
  - reflexivity.
  - simpl. lia.
  - reflexivity.
Defined.

(** A screen of one row, too narrow for the error line: the log of [ml]
    holds a dictionary, the [try] block raises [TypeError] and so does
    the handler, with the [curses.error] of its [addstr]. *)
Lemma update_display_absorbs_errors_witness :
  snd (update_display any_timestamp
         {| d_fs := log_tree "ml" (Parsed sample_record2);
            d_stats := Ok (1%Q, 2%Q); d_max_y := 1;
            d_addstr := fun _ _ => Raise CursesError;
            d_now := 0; d_now_set := 0 |}
         (snd (init_state ALL))) = Raise CursesError /\
  snd (update_display any_timestamp
         (display_env_of (log_tree "ml" (Parsed sample_record2)) 1)
         (snd (init_state ALL))) = Ok ().
Proof.
  split; [reflexivity|].
  apply (proj2 (update_display_absorbs_errors any_timestamp
                  (display_env_of (log_tree "ml" (Parsed sample_record2)) 1)
                  (snd (init_state ALL)))).
  reflexivity.
Defined.

(** ** The store of the dashboard over a run *)

Lemma assoc_set_keys {V} k (v : V) d :
  k ∈ map fst d -> map fst (assoc_set k v d) = map fst d.
Proof.
  induction d as [|[k' v'] d IH]; cbn.
  - intros H. by apply elem_of_nil in H.
  - destruct (String.eqb k k') eqn:E; [done|]. cbn.
    intros [Hk|Hk]%elem_of_cons.
    + subst. by rewrite String.eqb_refl in E.
    + by rewrite IH.
Qed.

Lemma heap_set_keyed h a k v :
  k ∈ components -> keyed h a -> keyed (heap_set h a k v) a.
Proof.
  intros Hk (d & Hd & Hkeys). unfold heap_set. rewrite Hd.
  exists (dict_set k v d). split.
  - apply list_lookup_insert_eq. by eapply lookup_lt_Some.
  - unfold dict_set. rewrite assoc_set_keys; [done|by rewrite Hkeys].
Qed.

Lemma update_activities_keyed fs h self :
  keyed h (activities self) ->
  keyed (update_activities fs h self) (activities self).
Proof.
  unfold update_activities.
  assert (Hin : Forall (fun k => k ∈ components) components)
    by (by apply Forall_forall).
  revert Hin. generalize components at 2 3. intros ks0 Hks. revert h.
  induction Hks as [|k ks Hk Hks IH]; intros h Hh; cbn [foldl]; [done|].
  apply IH.
  destruct (update_one_cases fs (activities self) k h)
    as [->|(data & v & _ & _ & ->)]; [done|by apply heap_set_keyed].
Qed.

Lemma init_state_store_ok t : store_ok (init_state t).
Proof.
  split; [|cbn; lia]. eexists. split; [reflexivity|]. reflexivity.
Qed.

Lemma update_system_stats_store sample text now h self h' self' :
  store_ok (h, self) ->
  update_system_stats sample text now (h, self) = Ok (h', self') ->
  store_ok (h', self') /\ refs_of self' = 
    (stream_type self, running self, activities self, system_stats self',
     last_screen_state self) /\
  last_update self' = last_update self /\ screen self' = screen self /\
  length h <= length h'.
Proof.
  intros [(d & Hd & Hkeys) Hlt]. cbn [fst snd] in *.
  unfold update_system_stats. destruct sample as [d'|e].
  - intros [= <- <-]. split; [|by rewrite length_app; cbn; repeat split; lia].
    split; cbn [fst snd activities system_stats].
    + exists d. split; [|done]. rewrite lookup_app_l; [done|].
      by eapply lookup_lt_Some.
    + rewrite length_app. cbn. lia.
  - unfold emergency_append.
    destruct (cache_of h self "emergency") as [[| | | |l| |]|]; res_step;
      try done.
    intros [= <- <-]. split; [|by rewrite heap_set_length].
    split; cbn [fst snd].
    + apply heap_set_keyed; [in_components|by exists d].
    + by rewrite heap_set_length.
Qed.

Section RunFacts.

Variable timestamp_ok : Q -> bool.

Lemma display_body_refs env self :
  refs_of (fst (display_body timestamp_ok env self)) = refs_of self.
Proof.
  rewrite display_body_unfold.
  destruct (timeline _ _) as [acts|e]; [|done].
  destruct (addstr_frame env 0 (Header (value (stream_type self)))
              (set_screen [] self)) as [Hr1 _].
  change (refs_of (set_screen [] self)) with (refs_of self) in Hr1.
  destruct (addstr _ 0 (Header _) _) as [s1 [[]|e]];
    cbv beta iota; cbn [fst] in *; [|done].
  destruct (d_stats env) as [stats|e]; [|done].
  destruct (addstr_frame env 2
              (SystemLine (fst stats) (snd stats)) s1) as [Hr2 _].
  destruct (addstr _ 2 _ s1) as [s2 [[]|e]];
    cbv beta iota; cbn [fst] in *; [|by rewrite Hr2].
  destruct acts as [|a acts].
  - destruct (Qltb _ _); [|cbn [fst]; by rewrite Hr2].
    destruct (addstr_frame env 4 Heartbeat s2) as [Hr3 _].
    destruct (addstr _ 4 _ s2) as [s3 [[]|e]];
      cbv beta iota; cbn [fst] in *.
    + change (refs_of s3 = refs_of self). by rewrite Hr3, Hr2.
    + by rewrite Hr3, Hr2.
  - destruct (draw_rows_spec timestamp_ok env
                (rev (last_items 50 (a :: acts))) 4 s2)
      as (drawn & _ & _ & Hr3 & _).
    destruct (draw_rows _ _ _ _ s2) as [s3 r]. cbn [fst] in *.
    by rewrite Hr3, Hr2.
Qed.

Lemma update_display_keeps env self :
  refs_of (fst (update_display timestamp_ok env self)) = refs_of self.
Proof.
  unfold update_display. pose proof (display_body_refs env self) as Hb.
  destruct (display_body timestamp_ok env self) as [s [[]|e]]; [done|].
  cbn [fst] in Hb.
  destruct (addstr_frame env 0 (DisplayError e) s) as [Hr _].
  by rewrite Hr.
Qed.

Lemma refs_store h self self' :
  refs_of self' = refs_of self -> store_ok (h, self) -> store_ok (h, self').
Proof.
  unfold refs_of, store_ok. cbn [fst snd]. intros H.
  injection H as _ _ Ha Hs _. by rewrite Ha, Hs.
Qed.

Lemma refresh_store env st :
  store_ok st ->
  store_ok (fst (refresh timestamp_ok env st)) /\
  activities (snd (fst (refresh timestamp_ok env st))) = activities (snd st) /\
  stream_type (snd (fst (refresh timestamp_ok env st)))
    = stream_type (snd st) /\
  running (snd (fst (refresh timestamp_ok env st))) = running (snd st) /\
  length (fst st) <= length (fst (fst (refresh timestamp_ok env st))).
Proof.
  destruct st as [h self]. intros Hok. unfold refresh.
  assert (Hok1 : store_ok (update_activities (r_fs env) h self, self)).
  { destruct Hok as [Hk Hlt]. cbn [fst snd] in *. split; cbn [fst snd].
    - by apply update_activities_keyed.
    - unfold update_activities. by rewrite update_all_length. }
  assert (Hlen1 : length (update_activities (r_fs env) h self) = length h)
    by apply update_all_length.
  destruct (update_system_stats _ _ _ _) as [[h2 self2]|e] eqn:Hu.
  - destruct (update_system_stats_store _ _ _ _ _ _ _ Hok1 Hu)
      as (Hok2 & Hrefs & _ & _ & Hlen2).
    injection Hrefs as Hst Hrun Hact _.
    unfold _screen_state_changed.
    cbn [stream_type running activities system_stats set_last_update].
    destruct (negb _).
    + pose proof (update_display_keeps (r_display env)
                    (set_screen []
                       {| stream_type := stream_type self2;
                          last_update := r_now env;
                          running := running self2;
                          activities := activities self2;
                          system_stats := system_stats self2;
                          last_screen_state :=
                            [("activities", activities self2);
                             ("stats", system_stats self2)];
                          screen := screen self2 |})) as Hd.
      destruct (update_display _ _ _) as [self5 r]. cbn [fst snd] in *.
      injection Hd as Hst5 Hrun5 Hact5 Hsys5 _.
      split; [|cbn in *; repeat split; try congruence; lia].
      destruct Hok2 as [Hk2 Hlt2]. cbn [fst snd] in *.
      split; cbn [fst snd]; [by rewrite Hact5|by rewrite Hact5, Hsys5].
    + cbn [fst snd]. split; [exact Hok2|].
      cbn. repeat split; try done. lia.
  - cbn [fst snd]. split; [done|]. repeat split; try done. lia.
Qed.

Lemma handle_key_refs key self :
  activities (handle_key key self) = activities self /\
  system_stats (handle_key key self) = system_stats self /\
  stream_type (handle_key key self) = stream_type self.
Proof.
  unfold handle_key. destruct key as [key|]; [|done].
  repeat (match goal with
          | |- context [match ?x with _ => _ end] => destruct x
          end; try done).
Qed.

Lemma run_turn_store env st :
  store_ok st ->
  store_ok (fst (run_turn timestamp_ok env st)) /\
  activities (snd (fst (run_turn timestamp_ok env st)))
    = activities (snd st) /\
  stream_type (snd (fst (run_turn timestamp_ok env st)))
    = stream_type (snd st) /\
  length (fst st) <= length (fst (fst (run_turn timestamp_ok env st))).
Proof.
  intros Hok. unfold run_turn.
  assert (H1 : let st1 := fst (if Qle_bool update_interval
                                     (r_now env - last_update (snd st))
                               then refresh timestamp_ok env st
                               else (st, Ok ())) in
               store_ok st1 /\ activities (snd st1) = activities (snd st) /\
               stream_type (snd st1) = stream_type (snd st) /\
               length (fst st) <= length (fst st1)).
  { destruct (Qle_bool _ _); cbn zeta.
    - destruct (refresh_store env st Hok) as (? & ? & ? & _ & ?). done.
    - cbn [fst]. split; [done|]. split; [done|]. split; [done|]. lia. }
  destruct (if Qle_bool _ _ then _ else _) as [[h1 self1] r].
  cbn [fst snd] in *. destruct H1 as ([Hk Hlt] & Hact & Hst & Hlen).
  cbn [fst snd] in *.
  assert (Hgoal : forall self',
            activities self' = activities self1 ->
            system_stats self' = system_stats self1 ->
            stream_type self' = stream_type self1 ->
            store_ok (h1, self') /\
            activities self' = activities (snd st) /\
            stream_type self' = stream_type (snd st) /\
            length (fst st) <= length h1).
  { intros self' Ha Hs Ht. split; [|repeat split; congruence || done].
    split; cbn [fst snd]; by rewrite ?Ha, ?Hs. }
  destruct r as [[]|e]; cbn [fst snd].
  - destruct (handle_key_refs (r_key env) self1) as (? & ? & ?).
    by apply Hgoal.
  - pose proof (addstr_frame (r_display env) 0 (LoopError e) self1)
      as [Hr _].
    destruct (addstr _ _ _ _) as [self' r']. cbn [fst snd] in *.
    injection Hr as ? ? ? ? ?.
    destruct r' as [[]|[]]; cbn [fst snd]; by apply Hgoal.
Qed.

(** X17: over any run of the dashboard the store keeps its shape:
    [self.activities] stays the same dictionary with exactly the seven
    component keys, [self.system_stats] names a dictionary of the store,
    and the view never changes. *)
Theorem run_keeps_store envs st :
  store_ok st ->
  store_ok (run timestamp_ok envs st) /\
  activities (snd (run timestamp_ok envs st)) = activities (snd st) /\
  stream_type (snd (run timestamp_ok envs st)) = stream_type (snd st) /\
  length (fst st) <= length (fst (run timestamp_ok envs st)).
Proof.
  revert st. induction envs as [|env envs IH]; intros st Hok; cbn [run].
  - split; [done|]. split; [done|]. split; [done|]. lia.
  - destruct (running (snd st));
      [|split; [done|]; split; [done|]; split; [done|]; lia].
    destruct (run_turn_store env st Hok) as (Hok1 & Ha1 & Hs1 & Hl1).
    destruct (run_turn timestamp_ok env st) as [st1 [[]|e]];
      cbn [fst] in *; [|done].
    destruct (IH _ Hok1) as (Hok2 & Ha2 & Hs2 & Hl2).
    split; [done|]. split; [congruence|]. split; [congruence|]. lia.
Qed.

Lemma run_stopped envs st :
  running (snd st) = false -> run timestamp_ok envs st = st.
Proof. intros H. destruct envs; cbn [run]; [done|]. by rewrite H. Qed.

Lemma update_display_no_raise env self :
  1 <= d_max_y env ->
  (forall e, d_addstr env 0 (DisplayError e) = Ok ()) ->
  snd (update_display timestamp_ok env self) = Ok ().
Proof.
  intros Hy Hrow0. unfold update_display.
  destruct (display_body timestamp_ok env self) as [s [[]|e]]; [done|].
  by rewrite addstr_ok by (first [apply Hrow0|lia]).
Qed.

(** X18: the key [q] ends the loop when it is read, and it is read in a
    turn that raises nothing before [getch]: one whose statistics could
    be sampled, on a screen of at least one row whose first row takes
    the error line of [update_display].  The turn itself raises nothing,
    [running] is off after it and no later turn is taken. *)
Theorem quit_key_ends_run env envs st d :
  running (snd st) = true ->
  r_sample env = Ok d ->
  1 <= d_max_y (r_display env) ->
  (forall e, d_addstr (r_display env) 0 (DisplayError e) = Ok ()) ->
  r_key env = Some "q" ->
  snd (run_turn timestamp_ok env st) = Ok () /\
  running (snd (fst (run_turn timestamp_ok env st))) = false /\
  run timestamp_ok (env :: envs) st = fst (run_turn timestamp_ok env st).
Proof.
  intros Hrun Hs Hy Hrow0 Hq.
  assert (Hoff : snd (run_turn timestamp_ok env st) = Ok () /\
                 running (snd (fst (run_turn timestamp_ok env st))) = false).
  { unfold run_turn.
    assert (Hr : snd (if Qle_bool update_interval
                           (r_now env - last_update (snd st))
                      then refresh timestamp_ok env st else (st, Ok ()))
                 = Ok ()).
    { destruct (Qle_bool _ _); [|done]. destruct st as [h self].
      unfold refresh, update_system_stats. rewrite Hs.
      destruct (_screen_state_changed _ _) as [[] self4]; [|done].
      pose proof (update_display_no_raise (r_display env)
                    (set_screen [] self4) Hy Hrow0) as Hd.
      by destruct (update_display _ _ _) as [self5 r]. }
    destruct (if Qle_bool _ _ then _ else _) as [st1 r]. cbn [snd] in Hr.
    subst r. by rewrite Hq. }
  destruct Hoff as [Hok Hoff]. split; [done|]. split; [done|].
  cbn [run]. rewrite Hrun.
  destruct (run_turn timestamp_ok env st) as [st1 r]. cbn [fst snd] in *.
  subst r. by apply run_stopped.
Qed.

End RunFacts.

Lemma run_keeps_store_witness :
  store_ok (run any_timestamp
              [dashboard_env 1000 "a"; dashboard_env 1031 "b"]
              (init_state COGNITIVE)) /\
  activities (snd (run any_timestamp
                     [dashboard_env 1000 "a"; dashboard_env 1031 "b"]
                     (init_state COGNITIVE)))
    = activities (snd (init_state COGNITIVE)) /\
  stream_type (snd (run any_timestamp
                      [dashboard_env 1000 "a"; dashboard_env 1031 "b"]
                      (init_state COGNITIVE)))
    = stream_type (snd (init_state COGNITIVE)) /\
  length (fst (init_state COGNITIVE))
    <= length (fst (run any_timestamp
                      [dashboard_env 1000 "a"; dashboard_env 1031 "b"]
                      (init_state COGNITIVE))).
Proof.
  apply (run_keeps_store any_timestamp
           [dashboard_env 1000 "a"; dashboard_env 1031 "b"]
           (init_state COGNITIVE)).
  split; [|simpl; lia]. eexists. split; reflexivity.
Defined.

Lemma quit_key_ends_run_witness :
  snd (run_turn any_timestamp (key_env 1000 "a" "q") (init_state COGNITIVE))
    = Ok () /\
  running (snd (fst (run_turn any_timestamp (key_env 1000 "a" "q")
                       (init_state COGNITIVE)))) = false /\
  run any_timestamp [key_env 1000 "a" "q"; dashboard_env 1031 "b"]
    (init_state COGNITIVE)
  = fst (run_turn any_timestamp (key_env 1000 "a" "q")
           (init_state COGNITIVE)).
Proof.
  eapply (quit_key_ends_run any_timestamp (key_env 1000 "a" "q")
            [dashboard_env 1031 "b"] (init_state COGNITIVE)).
  - reflexivity.
  - reflexivity.
  - simpl. lia.
  - reflexivity.
  - reflexivity.
Defined.

(** ** What makes the dashboard redraw *)

Section RedrawFacts.

Variable timestamp_ok : Q -> bool.

(** The object and the store after a refresh that could sample the
    statistics. *)
Lemma refresh_sampled env h self d :
  r_sample env = Ok d ->
  let h1 := update_activities (r_fs env) h self in
  fst (fst (refresh timestamp_ok env (h, self))) = h1 ++ [d] /\
  refs_of (snd (fst (refresh timestamp_ok env (h, self))))
  = (stream_type self, running self, activities self, length h1,
     [("activities", activities self); ("stats", length h1)]).
Proof.
  intros Hs. cbn zeta. unfold refresh, update_system_stats. rewrite Hs.
  unfold _screen_state_changed.
  cbn [stream_type running activities system_stats set_last_update].
  destruct (negb _).
  - match goal with
    | |- context [update_display _ _ ?s] =>
        pose proof (update_display_keeps timestamp_ok (r_display env) s) as Hd;
        destruct (update_display timestamp_ok (r_display env) s)
          as [self5 r]
    end.
    cbn [fst snd] in *. split; [done|]. by rewrite Hd.
  - cbn [fst snd]. done.
Qed.

(** The comparison in the turn after: the two snapshots differ as the
    two samples do. *)
Lemma refresh_compares_samples h0 self d1 d2 fs :
  activities self < length h0 ->
  system_stats self = length h0 ->
  last_screen_state self
    = [("activities", activities self); ("stats", length h0)] ->
  let h := h0 ++ [d1] in
  let h1 := update_activities fs h self in
  state_eqb (h1 ++ [d2])
    [("activities", activities self); ("stats", length h1)]
    (last_screen_state self)
  = dict_eqb d2 d1.
Proof.
  intros Hlt Hsys Hlast. cbn zeta. rewrite Hlast.
  assert (Hlen : length (update_activities fs (h0 ++ [d1]) self)
                 = S (length h0)).
  { unfold update_activities. rewrite update_all_length, length_app.
    cbn. lia. }
  assert (Hold : update_activities fs (h0 ++ [d1]) self !! length h0
                 = Some d1).
  { unfold update_activities. rewrite update_all_other_loc by lia.
    rewrite lookup_app_r by lia. by rewrite Nat.sub_diag. }
  set (h1 := update_activities fs (h0 ++ [d1]) self) in *.
  assert (Hstats : ref_eqb (h1 ++ [d2]) (length h1) (length h0)
                   = dict_eqb d2 d1).
  { unfold ref_eqb. rewrite Hlen.
    destruct (Nat.eqb_spec (S (length h0)) (length h0)) as [Heq|_]; [lia|].
    cbn [orb]. rewrite <- Hlen at 1. rewrite lookup_app_r by lia.
    rewrite Nat.sub_diag. cbn [lookup list_lookup].
    rewrite lookup_app_l by lia. by rewrite Hold. }
  assert (Hacts : ref_eqb (h1 ++ [d2]) (activities self) (activities self)
                  = true).
  { unfold ref_eqb. by rewrite Nat.eqb_refl. }
  unfold state_eqb. cbn [length forallb assoc_get].
  change (String.eqb "activities" "activities") with true.
  change (String.eqb "stats" "activities") with false.
  change (String.eqb "stats" "stats") with true.
  cbv beta iota. rewrite Hacts, Hstats. cbn [Nat.eqb andb].
  by rewrite andb_true_r.
Qed.

(** X19: what makes the dashboard redraw.  In the turn after one that
    sampled the statistics, the screen is redrawn exactly when the new
    sample differs from the last one, whatever the log files hold: on an
    equal sample the screen stays, on another it is what
    [update_display] draws on the erased screen. *)
Theorem redraw_follows_statistics env1 env2 st d1 d2 :
  store_ok st ->
  r_sample env1 = Ok d1 ->
  r_sample env2 = Ok d2 ->
  let st1 := fst (refresh timestamp_ok env1 st) in
  let st2 := fst (refresh timestamp_ok env2 st1) in
  if dict_eqb d2 d1 then
    screen (snd st2) = screen (snd st1) /\
    snd (refresh timestamp_ok env2 st1) = Ok ()
  else
    exists s,
      screen s = [] /\ last_update s = r_now env2 /\
      stream_type s = stream_type (snd st) /\
      snd st2 = fst (update_display timestamp_ok (r_display env2) s).
Proof.
  intros Hok Hs1 Hs2. destruct st as [h self].
  destruct Hok as [_ Hlt]. cbn [fst snd] in Hlt.
  destruct (refresh_sampled env1 h self d1 Hs1) as [Hh Hrefs].
  cbn zeta in *.
  destruct (refresh timestamp_ok env1 (h, self)) as [[hA selfA] rA].
  cbn [fst snd] in *. subst hA.
  injection Hrefs as Hst Hrun Hact Hsys Hlast.
  set (h0 := update_activities (r_fs env1) h self) in *.
  assert (Hlen0 : length h0 = length h)
    by (unfold h0, update_activities; apply update_all_length).
  assert (H1 : activities selfA < length h0) by (rewrite Hact; lia).
  assert (H3 : last_screen_state selfA
               = [("activities", activities selfA); ("stats", length h0)])
    by (by rewrite Hlast, Hact).
  pose proof (refresh_compares_samples h0 selfA d1 d2 (r_fs env2) H1 Hsys H3)
    as Hcmp.
  cbn zeta in Hcmp.
  unfold refresh, update_system_stats. rewrite Hs2.
  unfold _screen_state_changed.
  cbn [stream_type running activities system_stats set_last_update
       last_screen_state].
  rewrite Hcmp.
  destruct (dict_eqb d2 d1); cbn [negb].
  - cbn [fst snd screen]. done.
  - match goal with
    | |- context [update_display _ _ ?s0] => set (s := s0)
    end.
    exists s. split; [done|]. split; [done|]. split; [exact Hst|].
    by destruct (update_display timestamp_ok (r_display env2) s).
Qed.

End RedrawFacts.

Lemma redraw_follows_statistics_witness :
  screen (snd (fst (refresh any_timestamp (dashboard_env 1031 "a")
                      (fst (refresh any_timestamp (dashboard_env 1000 "a")
                              (init_state COGNITIVE))))))
    = screen (snd (fst (refresh any_timestamp (dashboard_env 1000 "a")
                          (init_state COGNITIVE)))) /\
  snd (refresh any_timestamp (dashboard_env 1031 "a")
         (fst (refresh any_timestamp (dashboard_env 1000 "a")
                 (init_state COGNITIVE)))) = Ok ().
Proof.
  refine (redraw_follows_statistics any_timestamp
            (dashboard_env 1000 "a") (dashboard_env 1031 "a")
            (init_state COGNITIVE) _ _ _ eq_refl eq_refl).
  split; [|simpl; lia]. eexists. split; reflexivity.
Defined.

(** ** More on tail mode *)

Lemma Qfloor_unique (x : Q) (n : Z) :
  (inject_Z n <= x)%Q -> (x < inject_Z (n + 1))%Q -> Qfloor x = n.
Proof.
  intros Hlo Hhi.
  assert (H1 : (n <= Qfloor x)%Z).
  { rewrite <- (Qfloor_Z n). by apply Qfloor_resp_le. }
  assert (H2 : (Qfloor x < n + 1)%Z).
  { rewrite Zlt_Qlt. eapply Qle_lt_trans; [apply Qfloor_le|done]. }
  lia.
Qed.

Lemma mod30_window (t : Q) :
  Qltb (mod30 t) (1 # 10) = true <->
  exists n : Z, (30 * inject_Z n <= t)%Q /\ (t < 30 * inject_Z n + (1 # 10))%Q.
Proof.
  unfold Qltb, mod30.
  rewrite negb_true_iff, <- not_true_iff_false, Qle_bool_iff.
  split.
  - intros H. apply Qnot_le_lt in H. exists (Qfloor (t / 30)). split; [|lra].
    pose proof (Qfloor_le (t / 30)) as Hf.
    assert (Ht : (t == 30 * (t / 30))%Q) by field.
    lra.
  - intros (n & Hlo & Hhi). apply Qlt_not_le.
    assert (Ht : (t == 30 * (t / 30))%Q) by field.
    rewrite (Qfloor_unique (t / 30) n).
    + lra.
    + lra.
    + rewrite inject_Z_plus. change (inject_Z 1) with 1%Q. lra.
Qed.

Section TailMore.

Variable timestamp_ok : Q -> bool.
Variable stdout_ok : string -> json -> bool.


Lemma poll_component_seen_other fs now k k' ls :
  k <> k' ->
  assoc_get k' (fst (fst (poll_component timestamp_ok stdout_ok fs now k ls)))
  = assoc_get k' ls.
Proof.
  intros Hne. unfold poll_component. destruct (path_exists _ _); [|done].
  destruct (read_json _ _) as [j|e].
  - destruct j as [| | | |acts| |]; try done. cbn zeta.
    destruct (print_new timestamp_ok stdout_ok _ _ _) as [printed [[]|e]];
        [|done].
    cbn [fst]. by apply assoc_get_set_ne.
  - by destruct e.
Qed.

(** What one component's turn gives when its file holds nothing the
    cursor has not passed. *)
Lemma poll_component_quiet fs now k ls :
  (path_exists (activity_path k) fs = true ->
   exists j, read_json (activity_path k) fs = Ok j) ->
  (forall acts, read_json (activity_path k) fs = Ok (JArr acts) ->
     assoc_get k ls = Some acts) ->
  poll_component timestamp_ok stdout_ok fs now k ls = (ls, [], false).
Proof.
  intros Hread Hseen. unfold poll_component.
  destruct (path_exists _ _); [|done].
  destruct (Hread eq_refl) as [j Hj]. rewrite Hj in *.
  destruct j as [| | | |acts| |]; try done. cbn zeta.
  pose proof (Hseen acts eq_refl) as Hs.
  rewrite Hs. cbn [default]. unfold new_activities.
  change (id acts) with acts.
  rewrite drop_all. cbn [print_new]. by rewrite (assoc_set_id _ _ _ Hs).
Qed.

Lemma poll_components_quiet env ks ls printed any :
  Forall (fun k =>
            poll_component timestamp_ok stdout_ok (t_fs env) (t_now env) k ls
            = (ls, [], false)) ks ->
  poll_components timestamp_ok stdout_ok env ks (ls, printed, any)
  = (ls, printed, any).
Proof.
  unfold poll_components.
  induction 1 as [|k ks Hk Hks IH]; cbn [foldl]; [done|].
  rewrite Hk, app_nil_r, orb_false_r. exact IH.
Qed.

(** The lines of one component's turn. *)
Lemma poll_component_lines fs now k ls l :
  In l (snd (fst (poll_component timestamp_ok stdout_ok fs now k ls))) ->
  match l with
  | Event ts k' msg red =>
      k' = k /\ red = String.eqb k "emergency" /\
      exists acts a,
        read_json (activity_path k) fs = Ok (JArr acts) /\
        In a (new_activities (default [] (assoc_get k ls)) acts) /\
        print_activity timestamp_ok stdout_ok now k a = Ok l
  | InvalidJson k' =>
      k' = k /\ read_json (activity_path k) fs = Raise JSONDecodeError
  | ErrorReading k' e => k' = k
  | NoEvents => False
  end.
Proof.
  unfold poll_component. destruct (path_exists _ _); [|done].
  destruct (read_json _ _) as [j|e].
  2:{ destruct e; cbn [fst snd]; intros [<-|[]]; done. }
  destruct j as [| | | |acts| |]; try done. cbn zeta.
  set (fresh := new_activities _ acts).
  assert (Hp : forall l,
            In l (fst (print_new timestamp_ok stdout_ok now k fresh)) ->
            exists a,
              In a fresh /\
              print_activity timestamp_ok stdout_ok now k a = Ok l).
  { induction fresh as [|a fresh IH]; cbn [print_new]; [done|].
    destruct (print_activity timestamp_ok stdout_ok now k a)
      as [l0|e0] eqn:Ha; [|done].
    destruct (print_new timestamp_ok stdout_ok now k fresh) as [lines r].
    cbn [fst] in *.
    intros l' [<-|Hl].
    - exists a. split; [by left|done].
    - destruct (IH _ Hl) as (a' & Hin & Hpa). exists a'.
      split; [by right|done]. }
  assert (Hev : forall l,
            In l (fst (print_new timestamp_ok stdout_ok now k fresh)) ->
            match l with
            | Event ts k' msg red =>
                k' = k /\ red = String.eqb k "emergency" /\
                exists acts0 a,
                  Ok (JArr acts) = Ok (JArr acts0) /\
                  In a (new_activities (default [] (assoc_get k ls)) acts0) /\
                  print_activity timestamp_ok stdout_ok now k a = Ok l
            | InvalidJson k' =>
              k' = k /\ @Ok json (JArr acts) = Raise JSONDecodeError
            | ErrorReading k' e => k' = k
            | NoEvents => False
            end).
  { intros l' Hl. destruct (Hp _ Hl) as (a & Hin & Hpa).
    assert (Hshape : exists ts msg,
              l' = Event ts k msg (String.eqb k "emergency")).
    { clear -Hpa. unfold print_activity in Hpa.
      destruct a as [| | | | |d|]; try done.
        cbn zeta in Hpa.
        destruct (if is_number _ then _ else _) as [ts|e]; [|done].
        revert Hpa. res_step. destruct (stdout_ok k (JObj d)); [|done].
        intros [= <-]. eauto. }
    destruct Hshape as (ts & msg & ->).
    split; [done|]. split; [done|]. exists acts, a. done. }
  destruct (print_new timestamp_ok stdout_ok now k fresh) as [printed [[]|e]];
    cbn [fst snd] in *.
  - apply Hev.
  - intros Hl. apply in_app_iff in Hl as [Hl|[<-|[]]]; [by apply Hev|done].
Qed.

(** Whether a component's turn sets [any_events]. *)
Lemma poll_component_any fs now k ls :
  snd (poll_component timestamp_ok stdout_ok fs now k ls) = true <->
  exists acts, read_json (activity_path k) fs = Ok (JArr acts) /\
               cursor ls k < length acts.
Proof.
  unfold poll_component.
  destruct (path_exists (activity_path k) fs) eqn:Hex.
  2:{ split; [done|]. intros (acts & Hr & _).
      apply read_json_exists in Hr. congruence. }
  destruct (read_json _ _) as [j|e].
  2:{ split; [by destruct e|]. by intros (acts & Hr & _). }
  destruct j as [| | | |acts| |];
    try (split; [done|]; by intros (acts' & Hr & _)).
  cbn zeta. unfold new_activities, cursor.
  set (seen := default [] (assoc_get k ls)).
  assert (Hany : match drop (length seen) acts with
                 | [] => false | _ => true end = true
                 <-> length seen < length acts).
  { destruct (drop (length seen) acts) as [|a rest] eqn:Hd;
      apply (f_equal length) in Hd; rewrite length_drop in Hd; cbn in Hd;
      split; try done; lia. }
  assert (Hsnd : snd (let any_events :=
                        match drop (length seen) acts with
                        | [] => false | _ => true end in
                      match print_new timestamp_ok stdout_ok now k
                              (drop (length seen) acts) with
                      | (printed, Ok _) =>
                          (assoc_set k acts ls, printed, any_events)
                      | (printed, Raise e) =>
                          (ls, printed ++ [ErrorReading k e], any_events)
                      end)
                 = match drop (length seen) acts with
                   | [] => false | _ => true end).
  { cbn zeta. by destruct (print_new _ _ _ _) as [printed [[]|e]]. }
  cbn zeta in Hsnd. rewrite Hsnd, Hany. split.
  - intros H. by exists acts.
  - by intros (acts' & [= <-] & H).
Qed.

Lemma poll_component_local fs now k ls ls' :
  assoc_get k ls = assoc_get k ls' ->
  snd (fst (poll_component timestamp_ok stdout_ok fs now k ls))
    = snd (fst (poll_component timestamp_ok stdout_ok fs now k ls')) /\
  snd (poll_component timestamp_ok stdout_ok fs now k ls)
    = snd (poll_component timestamp_ok stdout_ok fs now k ls') /\
  assoc_get k (fst (fst (poll_component timestamp_ok stdout_ok fs now k ls)))
    = assoc_get k
        (fst (fst (poll_component timestamp_ok stdout_ok fs now k ls'))).
Proof.
  intros H. unfold poll_component. destruct (path_exists _ _); [|done].
  destruct (read_json _ _) as [j|e]; [|by destruct e].
  destruct j as [| | | |acts| |]; try done. cbn zeta. rewrite H.
  destruct (print_new _ _ _ _) as [printed [[]|e]]; cbn [fst snd]; [|done].
  by rewrite !assoc_get_set_eq.
Qed.

(** A poll over distinct components: each component's turn is the one it
    would take on the [last_seen] the poll started from. *)
Lemma poll_components_spec env ks ls printed any :
  NoDup ks ->
  (forall k,
     assoc_get k (fst (fst (poll_components timestamp_ok stdout_ok env ks
                              (ls, printed, any))))
     = if bool_decide (k ∈ ks)
       then assoc_get k
              (fst (fst (poll_component timestamp_ok stdout_ok (t_fs env)
                           (t_now env) k ls)))
       else assoc_get k ls) /\
  snd (fst (poll_components timestamp_ok stdout_ok env ks (ls, printed, any)))
    = printed ++
      concat (map (fun k =>
                     snd (fst (poll_component timestamp_ok stdout_ok
                                 (t_fs env) (t_now env) k ls))) ks) /\
  snd (poll_components timestamp_ok stdout_ok env ks (ls, printed, any))
    = any || existsb (fun k =>
                        snd (poll_component timestamp_ok stdout_ok
                               (t_fs env) (t_now env) k ls)) ks.
Proof.
  intros Hnd. revert ls printed any.
  induction Hnd as [|k0 ks Hk0 Hnd IH]; intros ls printed any.
  - cbn. split; [done|]. split; [by rewrite app_nil_r|by rewrite orb_false_r].
  - unfold poll_components. cbn [foldl].
    destruct (poll_component timestamp_ok stdout_ok (t_fs env) (t_now env)
                k0 ls)
      as [[ls0 lines0] any0] eqn:H0.
    fold (poll_components timestamp_ok stdout_ok env ks
            (ls0, printed ++ lines0, any || any0)).
    destruct (IH ls0 (printed ++ lines0) (any || any0)) as (Hs & Hl & Ha).
    assert (Hloc : forall k, k ∈ ks -> assoc_get k ls0 = assoc_get k ls).
    { intros k Hk. assert (k0 <> k) by (intros ->; done).
      pose proof (poll_component_seen_other (t_fs env) (t_now env) k0 k ls)
        as Hso.
      rewrite H0 in Hso. by apply Hso. }
    split; [|split].
    + intros k. rewrite Hs. destruct (decide (k ∈ ks)) as [Hk|Hk].
      * rewrite (bool_decide_eq_true_2 _ Hk).
        rewrite (bool_decide_eq_true_2 (k ∈ k0 :: ks))
          by (apply elem_of_cons; by right).
        by apply poll_component_local, Hloc.
      * rewrite (bool_decide_eq_false_2 _ Hk).
        destruct (decide (k = k0)) as [->|Hne].
        -- rewrite (bool_decide_eq_true_2 (k0 ∈ k0 :: ks))
             by (apply elem_of_cons; by left).
           by rewrite H0.
        -- rewrite (bool_decide_eq_false_2 (k ∈ k0 :: ks))
             by (rewrite elem_of_cons; intros [?|?]; done).
           pose proof (poll_component_seen_other (t_fs env) (t_now env)
                         k0 k ls) as Hso.
           rewrite H0 in Hso. apply Hso. congruence.
    + rewrite Hl. cbn [map concat]. rewrite ?H0, <- app_assoc. cbn [fst snd].
      do 3 f_equal. apply map_ext_in. intros k Hk.
      apply poll_component_local, Hloc. by apply list_elem_of_In.
    + rewrite Ha. cbn [existsb]. rewrite ?H0, <- orb_assoc. cbn [fst snd].
      do 2 f_equal. clear -Hloc. induction ks as [|k ks IH]; [done|].
      cbn [existsb].
      rewrite IH by (intros k' Hk'; apply Hloc, elem_of_cons; by right).
      f_equal. apply poll_component_local, Hloc, elem_of_cons. by left.
Qed.

(** X20: in tail mode a record is printed once.  After a poll in which
    every log file that exists could be parsed and every record beyond
    the cursor could be printed, a poll that finds the same files prints
    no record and no warning, and leaves [last_seen] as it is. *)
Theorem second_poll_is_silent env env' ls :
  t_fs env' = t_fs env ->
  (forall k, k ∈ components ->
     (path_exists (activity_path k) (t_fs env) = true ->
      exists j, read_json (activity_path k) (t_fs env) = Ok j) /\
     (forall acts,
        read_json (activity_path k) (t_fs env) = Ok (JArr acts) ->
        Forall (fun a =>
                  printable timestamp_ok stdout_ok (t_now env) k a = true)
               (new_activities (default [] (assoc_get k ls)) acts))) ->
  poll_cycle timestamp_ok stdout_ok env'
    (fst (poll_cycle timestamp_ok stdout_ok env ls))
  = (fst (poll_cycle timestamp_ok stdout_ok env ls),
     if Qltb (mod30 (t_beat env')) (1 # 10) then [NoEvents] else []).
Proof.
  intros Hfs Hready.
  assert (Hseen : forall k acts, k ∈ components ->
            read_json (activity_path k) (t_fs env) = Ok (JArr acts) ->
            assoc_get k (fst (poll_cycle timestamp_ok stdout_ok env ls))
            = Some acts).
  { intros k acts Hk Hr. unfold poll_cycle.
    destruct (poll_components_spec env components ls [] false
                components_NoDup) as (Hs & _ & _).
    specialize (Hs k). rewrite (bool_decide_eq_true_2 _ Hk) in Hs.
    destruct (poll_components timestamp_ok stdout_ok env components
                (ls, [], false))
      as [[ls1 printed] any]. cbn [fst] in *. rewrite Hs.
    unfold poll_component. rewrite (read_json_exists _ _ _ Hr), Hr. cbn zeta.
    destruct (Hready k Hk) as [_ Hp].
    destruct (print_new_printable timestamp_ok stdout_ok (t_now env) k _
                (Hp acts Hr))
      as (printed' & -> & _).
    cbn [fst]. apply assoc_get_set_eq. }
  set (ls1 := fst (poll_cycle timestamp_ok stdout_ok env ls)) in *.
  unfold poll_cycle at 1.
  rewrite poll_components_quiet.
  - cbn [negb andb app]. done.
  - apply Forall_forall. intros k Hk. rewrite Hfs.
    apply poll_component_quiet; [by apply Hready|].
    intros acts Hr. by apply Hseen.
Qed.

(** X21: a record the loop cannot print holds its component back.  When
    the new part of the list has printable records, then one whose
    printing raises, the records before it are printed, then the error,
    and [last_seen] stays: the next poll finds the same records new. *)
Theorem unprintable_record_blocks_cursor fs now k ls seen pre bad post e :
  read_json (activity_path k) fs = Ok (JArr (seen ++ pre ++ bad :: post)) ->
  length seen = cursor ls k ->
  Forall (fun a => printable timestamp_ok stdout_ok now k a = true) pre ->
  print_activity timestamp_ok stdout_ok now k bad = Raise e ->
  exists printed,
    Forall2 (fun a l => print_activity timestamp_ok stdout_ok now k a = Ok l)
            pre printed /\
    poll_component timestamp_ok stdout_ok fs now k ls
    = (ls, printed ++ [ErrorReading k e], true).
Proof.
  intros Hr Hlen Hpre Hbad.
  assert (Hp : exists printed,
            Forall2 (fun a l =>
                       print_activity timestamp_ok stdout_ok now k a = Ok l)
                    pre printed /\
            print_new timestamp_ok stdout_ok now k (pre ++ bad :: post)
            = (printed, Raise e)).
  { clear -Hpre Hbad. induction Hpre as [|a pre Ha Hpre IH].
    - exists []. split; [constructor|]. cbn [app print_new]. by rewrite Hbad.
    - destruct IH as (printed & Hall & Hpn).
      destruct (print_activity_printable timestamp_ok stdout_ok now k a Ha)
        as [l Hl].
      exists (l :: printed). split; [by constructor|].
      cbn [app print_new]. by rewrite Hl, Hpn. }
  destruct Hp as (printed & Hall & Hpn). exists printed. split; [done|].
  unfold poll_component. rewrite (read_json_exists _ _ _ Hr), Hr. cbn zeta.
  unfold new_activities. fold (cursor ls k). rewrite <- Hlen.
  rewrite drop_app_length, Hpn.
  destruct pre; done.
Qed.

(** X22: the heartbeat of tail mode.  The line is printed exactly in a
    turn that found no file with more records than its cursor and whose
    clock reading lies less than 0.1 s after a multiple of 30 s. *)
Theorem tail_heartbeat_window env ls :
  In NoEvents (snd (poll_cycle timestamp_ok stdout_ok env ls)) <->
  (forall k acts, k ∈ components ->
     read_json (activity_path k) (t_fs env) = Ok (JArr acts) ->
     length acts <= cursor ls k) /\
  exists n : Z, (30 * inject_Z n <= t_beat env)%Q /\
                (t_beat env < 30 * inject_Z n + (1 # 10))%Q.
Proof.
  unfold poll_cycle.
  destruct (poll_components_spec env components ls [] false
              components_NoDup) as (_ & Hl & Ha).
  destruct (poll_components timestamp_ok stdout_ok env components
              (ls, [], false))
    as [[ls1 printed] any]. cbn [fst snd] in *.
  assert (Hno : ~ In NoEvents printed).
  { rewrite Hl. cbn [app]. intros Hin. apply in_concat in Hin
      as (lines & Hlines & Hin).
    apply in_map_iff in Hlines as (k & <- & _).
    by apply poll_component_lines in Hin. }
  assert (Hany : any = false <->
            forall k acts, k ∈ components ->
              read_json (activity_path k) (t_fs env) = Ok (JArr acts) ->
              length acts <= cursor ls k).
  { rewrite Ha. cbn [orb]. rewrite <- not_true_iff_false, existsb_exists.
    split.
    - intros Hn k acts Hk Hr. apply Nat.nlt_ge. intros Hlt. apply Hn.
      exists k. split; [by apply list_elem_of_In|].
      apply poll_component_any. by exists acts.
    - intros Hall (k & Hk & Hs). apply poll_component_any in Hs
        as (acts & Hr & Hlt).
      apply list_elem_of_In in Hk. specialize (Hall k acts Hk Hr). lia. }
  rewrite <- mod30_window, <- Hany. rewrite in_app_iff.
  destruct any, (Qltb (mod30 (t_beat env)) (1 # 10)); cbn [negb andb];
    split; try (intros [H|H]; done); try (intros [H1 H2]; done).
  intros _. right. by left.
Qed.

(** X23: every event line of a poll comes from a log: it is the line of
    a record beyond the cursor in the list of the file of the component
    it names, and it is red exactly for [emergency]. *)
Theorem tail_events_come_from_logs env ls ts k msg red :
  In (Event ts k msg red) (snd (poll_cycle timestamp_ok stdout_ok env ls)) ->
  k ∈ components /\ red = String.eqb k "emergency" /\
  exists acts a,
    read_json (activity_path k) (t_fs env) = Ok (JArr acts) /\
    In a (drop (cursor ls k) acts) /\
    print_activity timestamp_ok stdout_ok (t_now env) k a
    = Ok (Event ts k msg red).
Proof.
  unfold poll_cycle.
  destruct (poll_components_spec env components ls [] false
              components_NoDup) as (_ & Hl & _).
  destruct (poll_components timestamp_ok stdout_ok env components
              (ls, [], false))
    as [[ls1 printed] any]. cbn [fst snd] in *.
  rewrite Hl. cbn [app]. rewrite in_app_iff. intros [Hin|Hin].
  2:{ by destruct (_ && _); [destruct Hin as [?|[]]|]. }
  apply in_concat in Hin as (lines & Hlines & Hin).
  apply in_map_iff in Hlines as (k' & <- & Hk').
  apply poll_component_lines in Hin as (-> & Hred & acts & a & Hr & Ha & Hp).
  split; [by apply list_elem_of_In|]. split; [done|]. by exists acts, a.
Qed.

End TailMore.

Lemma second_poll_is_silent_witness :
  poll_cycle any_timestamp any_text (ready_env 1)
    (fst (poll_cycle any_timestamp any_text (ready_env 1) init_last_seen))
  = (fst (poll_cycle any_timestamp any_text (ready_env 1) init_last_seen),
     if Qltb (mod30 (t_beat (ready_env 1))) (1 # 10)
     then [NoEvents] else []).
Proof.
  apply (second_poll_is_silent any_timestamp any_text
           (ready_env 1) (ready_env 1) init_last_seen).
  - reflexivity.
  - intros k Hk. unfold components in Hk.
    repeat (apply elem_of_cons in Hk as [->|Hk]);
      try (by apply elem_of_nil in Hk);
      (split; [intros _; eexists; reflexivity|]);
      intros acts Hr; vm_compute in Hr; injection Hr as <-;
      vm_compute; repeat constructor.
Defined.

Lemma unprintable_record_blocks_cursor_witness :
  exists printed,
    Forall2 (fun a l => print_activity any_timestamp any_text 0 "ml" a = Ok l)
            [sample_record2] printed /\
    poll_component any_timestamp any_text
      (log_tree "ml"
         (Parsed (JArr [sample_record; sample_record2; JNum 7;
                        sample_record3])))
      0 "ml" (seen_ml [sample_record])
    = (seen_ml [sample_record],
       printed ++ [ErrorReading "ml" AttributeError], true).
Proof.
  apply (unprintable_record_blocks_cursor any_timestamp any_text
           (log_tree "ml"
              (Parsed (JArr [sample_record; sample_record2; JNum 7;
                             sample_record3])))
           0 "ml" (seen_ml [sample_record]) [sample_record]
           [sample_record2] (JNum 7) [sample_record3] AttributeError).
  - reflexivity.
  - reflexivity.
  - repeat constructor.
  - reflexivity.
Defined.

Lemma tail_heartbeat_window_witness :
  In NoEvents
     (snd (poll_cycle any_timestamp any_text (ready_env 30)
             (seen_ml [sample_record]))).
Proof.
  apply (proj2 (tail_heartbeat_window any_timestamp any_text (ready_env 30)
                  (seen_ml [sample_record]))).
  split.
  - intros k acts Hk Hr. unfold components in Hk.
    repeat (apply elem_of_cons in Hk as [->|Hk]);
      try (by apply elem_of_nil in Hk);
      vm_compute in Hr; injection Hr as <-; vm_compute; lia.
  - exists 1%Z. split; [unfold Qle|unfold Qlt]; simpl; lia.
Defined.

Lemma tail_events_come_from_logs_witness :
  "ml" ∈ components /\ false = String.eqb "ml" "emergency" /\
  exists acts a,
    read_json (activity_path "ml") (t_fs (tail_env_of [sample_record]))
      = Ok (JArr acts) /\
    In a (drop (cursor init_last_seen "ml") acts) /\
    print_activity any_timestamp any_text
      (t_now (tail_env_of [sample_record])) "ml" a
      = Ok (Event (Formatted 1) "ml" (JStr "trial 1") false).
Proof.
  apply (tail_events_come_from_logs any_timestamp any_text
           (tail_env_of [sample_record]) init_last_seen).
  vm_compute. left. reflexivity.
Defined.
